(** * UpGoV ground station (Beta 1.3): a shallow embedding of the sketch

    The sketch is a single-threaded Arduino program: [setup] runs the
    radio handshake, [loop] is called for ever afterwards.  Every global
    and every function-local [static] of the sketch is a field of the
    record [Sketch]; the peripherals (the two OLED panels, the radio
    manager, the serial port) are modelled by the trace of the calls made
    on them, oldest first.  What the sketch reads from the outside (a
    received datagram, a pin level, the millisecond clock, the
    acknowledgement of a send) is an argument of the function that reads
    it. *)

From Stdlib Require Import ZArith List String Ascii Bool Lia.
Import ListNotations.

#[local] Open Scope string_scope.
#[local] Open Scope list_scope.
#[local] Open Scope Z_scope.

(** ** C strings and the Arduino [String] operations the sketch uses *)

Module CStr.

Definition NUL : ascii := Ascii.zero.

Definition code (c : ascii) : Z := Z.of_nat (nat_of_ascii c).

(** Character read at the head of a [char] area; the end of a Rocq
    string stands for the terminating NUL. *)
Definition head (s : string) : Z :=
  match s with EmptyString => 0 | String c _ => code c end.

Definition tail (s : string) : string :=
  match s with EmptyString => EmptyString | String _ t => t end.

(** [String message(messageBuffer)]: the characters of the area up to,
    not including, its first NUL. *)
Fixpoint c_str (mem : string) : string :=
  match mem with
  | EmptyString => EmptyString
  | String c t => if Ascii.eqb c NUL then EmptyString else String c (c_str t)
  end.

(** [strncmp(s1, s2, n)]: zero when the first [n] characters agree, or
    agree up to a common NUL; the difference of the first two
    characters that differ otherwise. *)
Fixpoint strncmp (s1 s2 : string) (n : nat) : Z :=
  match n with
  | O => 0
  | S n' =>
      if negb (head s1 =? head s2) then head s1 - head s2
      else if head s1 =? 0 then 0
      else strncmp (tail s1) (tail s2) n'
  end.

Fixpoint nuls (n : nat) : string :=
  match n with O => EmptyString | S n' => String NUL (nuls n') end.

(** [strncpy(dst, src, n)] on an [n]-byte destination: the first [n]
    characters of [src], padded with NULs up to [n] bytes. *)
Fixpoint strncpy (src : string) (n : nat) : string :=
  match n with
  | O => EmptyString
  | S n' =>
      match src with
      | EmptyString => nuls n
      | String c t =>
          if Ascii.eqb c NUL then nuls n else String c (strncpy t n')
      end
  end.

(** [s.startsWith(p)]: [s] is at least as long as [p] and agrees with
    it on the length of [p]. *)
Fixpoint startsWith (s p : string) {struct p} : bool :=
  match p with
  | EmptyString => true
  | String b p' =>
      match s with
      | EmptyString => false
      | String a s' => Ascii.eqb a b && startsWith s' p'
      end
  end.

Fixpoint drop (n : nat) (s : string) : string :=
  match n, s with
  | O, _ => s
  | S n', String _ t => drop n' t
  | S _, EmptyString => EmptyString
  end.

Fixpoint take (n : nat) (s : string) : string :=
  match n, s with
  | S n', String c t => String c (take n' t)
  | _, _ => EmptyString
  end.

(** [s.remove(index, count)]: nothing when [index] is past the end or
    [count] is not positive; [count] is clipped to what is left. *)
Definition remove (index count : Z) (s : string) : string :=
  let len := Z.of_nat (String.length s) in
  if len <=? index then s
  else if count <=? 0 then s
  else
    let count := if len - index <? count then len - index else count in
    String.append (take (Z.to_nat index) s)
                  (drop (Z.to_nat (index + count)) s).

(** [memcpy(dst, src, min(len src, sizeof dst))]: the bytes of [src]
    over the beginning of the area [dst], which keeps its size and,
    past the bytes copied, its contents. *)
Fixpoint memcpy (dst src : string) : string :=
  match dst, src with
  | String _ d, String c s => String c (memcpy d s)
  | _, _ => dst
  end.

(** [s == "literal"]. *)
Definition equals (s lit : string) : bool := String.eqb s lit.

Definition concat (s t : string) : string := String.append s t.

End CStr.

(** ** Constants and enumerations of the sketch *)

Definition BUTTON_A : Z := 0.
Definition BUTTON_B : Z := 1.
Definition BUTTON_C : Z := 2.
Definition MAX_MESSAGE_LENGTH : Z := 20.
Definition GROUND_STATION_ADDR : Z := 1.
Definition UPGOV_ADDR : Z := 2.
Definition DEBOUNCE_DELAY : Z := 50.
Definition PRESSED : Z := 0.
Definition NOT_PRESSED : Z := 1.

(** [unsigned long] is 32 bits wide on the board. *)
Definition ULONG_MOD : Z := 2 ^ 32.

(** [int] is 32 bits wide too, in two's complement: a value that leaves
    the range comes back in at the other end (INT_MAX + 1 is INT_MIN). *)
Definition INT_MIN : Z := - 2 ^ 31.
Definition INT_MAX : Z := 2 ^ 31 - 1.

Definition int_wrap (x : Z) : Z := (x - INT_MIN) mod 2 ^ 32 + INT_MIN.

Inductive oledDataType :=
  STATUS | ALTITUDE | ACCELERATION | DURATION | BATTERY1 | BATTERY2.
Inductive states :=
  START_UP | FAULT | READY | ARMED | LOGGING | POST_FLIGHT | ERROR.
Inductive battery := FULL | OK | LOWBAT | CRITICAL.
Inductive yesOrNo := YES | NO | MAYBE.

(** ** Peripherals, as traces *)

(** Calls on an [Adafruit_SH1107] panel. *)
Inductive OledOp :=
| clearDisplay
| setCursor (x y : Z)
| print (text : string)
| display.

(** A datagram handed to [radioManager.sendtoWait]: the bytes and the
    destination address. *)
Record Datagram := { payload : string; dest : Z }.

Inductive SerialOp :=
| Serial_print (text : string)
| Serial_println (text : string)
| Serial_println_num (n : Z).

(** ** The state of the sketch *)

(** The three parallel arrays of the debouncer, indexed by button. *)
Record Debounce := {
  buttonStates : list Z;
  lastButtonStates : list Z;
  lastDebounceTime : list Z
}.

(** The [static] variables of [printOledMessage]. *)
Record OledLines := {
  lineNumber : Z;
  line0Message : string;
  line1Message : string;
  line2Message : string;
  line3Message : string;
  line4Message : string;
  line5Message : string
}.

Record Sketch := {
  buffer : string;               (* char buffer[MAX_MESSAGE_LENGTH] *)
  radioPacket : string;          (* char radioPacket[20] *)
  radioError : Z;
  AT_Recieved : bool;
  debounce : Debounce;
  currentState : states;         (* static in loop() *)
  currentBatteryStatus : battery;(* static in loop() *)
  oledLines : OledLines;
  displayA : list OledOp;
  displayB : list OledOp;
  radioManager : list Datagram;
  Serial : list SerialOp
}.

Definition initDebounce : Debounce :=
  {| buttonStates := [NOT_PRESSED; NOT_PRESSED; NOT_PRESSED];
     lastButtonStates := [NOT_PRESSED; NOT_PRESSED; NOT_PRESSED];
     lastDebounceTime := [0; 0; 0] |}.

Definition initOledLines : OledLines :=
  {| lineNumber := 0;
     line0Message := ""; line1Message := ""; line2Message := "";
     line3Message := ""; line4Message := ""; line5Message := "" |}.

(** The initialisers written in the source; the traces start empty. *)
Definition initSketch : Sketch :=
  {| buffer := CStr.nuls 20;
     radioPacket := CStr.nuls 20;
     radioError := 0;
     AT_Recieved := false;
     debounce := initDebounce;
     currentState := START_UP;
     currentBatteryStatus := CRITICAL;
     oledLines := initOledLines;
     displayA := [];
     displayB := [];
     radioManager := [];
     Serial := [] |}.

(** Field updates. *)
Definition with_buffer (v : string) (w : Sketch) : Sketch :=
  {| buffer := v; radioPacket := radioPacket w; radioError := radioError w;
     AT_Recieved := AT_Recieved w; debounce := debounce w;
     currentState := currentState w;
     currentBatteryStatus := currentBatteryStatus w;
     oledLines := oledLines w; displayA := displayA w;
     displayB := displayB w; radioManager := radioManager w;
     Serial := Serial w |}.

Definition with_radioPacket (v : string) (w : Sketch) : Sketch :=
  {| buffer := buffer w; radioPacket := v; radioError := radioError w;
     AT_Recieved := AT_Recieved w; debounce := debounce w;
     currentState := currentState w;
     currentBatteryStatus := currentBatteryStatus w;
     oledLines := oledLines w; displayA := displayA w;
     displayB := displayB w; radioManager := radioManager w;
     Serial := Serial w |}.

Definition with_radioError (v : Z) (w : Sketch) : Sketch :=
  {| buffer := buffer w; radioPacket := radioPacket w; radioError := v;
     AT_Recieved := AT_Recieved w; debounce := debounce w;
     currentState := currentState w;
     currentBatteryStatus := currentBatteryStatus w;
     oledLines := oledLines w; displayA := displayA w;
     displayB := displayB w; radioManager := radioManager w;
     Serial := Serial w |}.

Definition with_AT_Recieved (v : bool) (w : Sketch) : Sketch :=
  {| buffer := buffer w; radioPacket := radioPacket w;
     radioError := radioError w;
     AT_Recieved := v; debounce := debounce w;
     currentState := currentState w;
     currentBatteryStatus := currentBatteryStatus w;
     oledLines := oledLines w; displayA := displayA w;
     displayB := displayB w; radioManager := radioManager w;
     Serial := Serial w |}.

Definition with_debounce (v : Debounce) (w : Sketch) : Sketch :=
  {| buffer := buffer w; radioPacket := radioPacket w;
     radioError := radioError w;
     AT_Recieved := AT_Recieved w; debounce := v;
     currentState := currentState w;
     currentBatteryStatus := currentBatteryStatus w;
     oledLines := oledLines w; displayA := displayA w;
     displayB := displayB w; radioManager := radioManager w;
     Serial := Serial w |}.

Definition with_currentState (v : states) (w : Sketch) : Sketch :=
  {| buffer := buffer w; radioPacket := radioPacket w;
     radioError := radioError w;
     AT_Recieved := AT_Recieved w; debounce := debounce w;
     currentState := v;
     currentBatteryStatus := currentBatteryStatus w;
     oledLines := oledLines w; displayA := displayA w;
     displayB := displayB w; radioManager := radioManager w;
     Serial := Serial w |}.

Definition with_currentBatteryStatus (v : battery) (w : Sketch) : Sketch :=
  {| buffer := buffer w; radioPacket := radioPacket w;
     radioError := radioError w;
     AT_Recieved := AT_Recieved w; debounce := debounce w;
     currentState := currentState w;
     currentBatteryStatus := v;
     oledLines := oledLines w; displayA := displayA w;
     displayB := displayB w; radioManager := radioManager w;
     Serial := Serial w |}.

Definition with_oledLines (v : OledLines) (w : Sketch) : Sketch :=
  {| buffer := buffer w; radioPacket := radioPacket w;
     radioError := radioError w;
     AT_Recieved := AT_Recieved w; debounce := debounce w;
     currentState := currentState w;
     currentBatteryStatus := currentBatteryStatus w;
     oledLines := v; displayA := displayA w;
     displayB := displayB w; radioManager := radioManager w;
     Serial := Serial w |}.

(** Calls on the peripherals extend their trace. *)
Definition on_displayA (ops : list OledOp) (w : Sketch) : Sketch :=
  {| buffer := buffer w; radioPacket := radioPacket w;
     radioError := radioError w;
     AT_Recieved := AT_Recieved w; debounce := debounce w;
     currentState := currentState w;
     currentBatteryStatus := currentBatteryStatus w;
     oledLines := oledLines w; displayA := displayA w ++ ops;
     displayB := displayB w; radioManager := radioManager w;
     Serial := Serial w |}.

Definition on_displayB (ops : list OledOp) (w : Sketch) : Sketch :=
  {| buffer := buffer w; radioPacket := radioPacket w;
     radioError := radioError w;
     AT_Recieved := AT_Recieved w; debounce := debounce w;
     currentState := currentState w;
     currentBatteryStatus := currentBatteryStatus w;
     oledLines := oledLines w; displayA := displayA w;
     displayB := displayB w ++ ops; radioManager := radioManager w;
     Serial := Serial w |}.

Definition on_radioManager (sent : list Datagram) (w : Sketch) : Sketch :=
  {| buffer := buffer w; radioPacket := radioPacket w;
     radioError := radioError w;
     AT_Recieved := AT_Recieved w; debounce := debounce w;
     currentState := currentState w;
     currentBatteryStatus := currentBatteryStatus w;
     oledLines := oledLines w; displayA := displayA w;
     displayB := displayB w; radioManager := radioManager w ++ sent;
     Serial := Serial w |}.

Definition on_Serial (ops : list SerialOp) (w : Sketch) : Sketch :=
  {| buffer := buffer w; radioPacket := radioPacket w;
     radioError := radioError w;
     AT_Recieved := AT_Recieved w; debounce := debounce w;
     currentState := currentState w;
     currentBatteryStatus := currentBatteryStatus w;
     oledLines := oledLines w; displayA := displayA w;
     displayB := displayB w; radioManager := radioManager w;
     Serial := Serial w ++ ops |}.

(** ** printOledMessage: the six-line scrolling log on panel A *)

Definition printOledMessage (message : string) (w : Sketch) : Sketch :=
  let l := oledLines w in
  if lineNumber l =? 6 then
    (* Scroll the messages up *)
    let l' := {| lineNumber := lineNumber l;
                 line0Message := line1Message l;
                 line1Message := line2Message l;
                 line2Message := line3Message l;
                 line3Message := line4Message l;
                 line4Message := line5Message l;
                 line5Message := message |} in
    on_displayA
      [clearDisplay; display;
       setCursor 0 0; print (line0Message l');
       setCursor 0 10; print (line1Message l');
       setCursor 0 20; print (line2Message l');
       setCursor 0 30; print (line3Message l');
       setCursor 0 40; print (line4Message l');
       setCursor 0 50; print (line5Message l');
       display]
      (with_oledLines l' w)
  else if lineNumber l =? 5 then
    on_displayA [setCursor 0 50; print message; display]
      (with_oledLines
         {| lineNumber := lineNumber l + 1;
            line0Message := line0Message l; line1Message := line1Message l;
            line2Message := line2Message l; line3Message := line3Message l;
            line4Message := line4Message l; line5Message := message |} w)
  else if lineNumber l =? 4 then
    on_displayA [setCursor 0 40; print message; display]
      (with_oledLines
         {| lineNumber := lineNumber l + 1;
            line0Message := line0Message l; line1Message := line1Message l;
            line2Message := line2Message l; line3Message := line3Message l;
            line4Message := message; line5Message := line5Message l |} w)
  else if lineNumber l =? 3 then
    on_displayA [setCursor 0 30; print message; display]
      (with_oledLines
         {| lineNumber := lineNumber l + 1;
            line0Message := line0Message l; line1Message := line1Message l;
            line2Message := line2Message l; line3Message := message;
            line4Message := line4Message l; line5Message := line5Message l |} w)
  else if lineNumber l =? 2 then
    on_displayA [setCursor 0 20; print message; display]
      (with_oledLines
         {| lineNumber := lineNumber l + 1;
            line0Message := line0Message l; line1Message := line1Message l;
            line2Message := message; line3Message := line3Message l;
            line4Message := line4Message l; line5Message := line5Message l |} w)
  else if lineNumber l =? 1 then
    on_displayA [setCursor 0 10; print message; display]
      (with_oledLines
         {| lineNumber := lineNumber l + 1;
            line0Message := line0Message l; line1Message := message;
            line2Message := line2Message l; line3Message := line3Message l;
            line4Message := line4Message l; line5Message := line5Message l |} w)
  else
    on_displayA [setCursor 0 0; print message; display]
      (with_oledLines
         {| lineNumber := (lineNumber l + 1) mod 256;
            line0Message := message; line1Message := line1Message l;
            line2Message := line2Message l; line3Message := line3Message l;
            line4Message := line4Message l; line5Message := line5Message l |} w).

(** ** printOledData: the data fields of panel B *)

Definition printOledData (type : oledDataType) (data : string)
    (w : Sketch) : Sketch :=
  match type with
  | STATUS =>
      on_displayB [setCursor 42 0; print "         ";
                   setCursor 42 0; print data; display] w
  | ALTITUDE => on_displayB [setCursor 52 10; print data; display] w
  | ACCELERATION => on_displayB [setCursor 77 20; print data; display] w
  | DURATION => on_displayB [setCursor 54 30; print data; display] w
  | BATTERY1 =>
      on_displayB [setCursor 36 50; print "    ";
                   setCursor 36 50; print data; display] w
  | BATTERY2 =>
      on_displayB [setCursor 100 50; print "    ";
                   setCursor 100 50; print data; display] w
  end.

(** ** sendRadioMessage *)

(** [acked] is what [radioManager.sendtoWait] returns for this datagram.
    The whole 20-byte [radioPacket] is sent.  [radioError] is an [int]:
    [radioError++] wraps around at INT_MAX. *)
Definition sendRadioMessage (message : string) (address : Z) (acked : bool)
    (w : Sketch) : bool * Sketch :=
  let w := with_radioPacket (CStr.strncpy message 20) w in
  let w := on_radioManager [{| payload := radioPacket w; dest := address |}] w in
  if acked then (true, w)
  else (false, with_radioError (int_wrap (radioError w + 1)) w).

(** ** buttonReleased: the debounced release detector *)

(** Array cells.  The sketch only indexes with 0, 1 and 2; outside the
    array a read gives 0 and a write does nothing. *)
Definition cell (a : list Z) (i : Z) : Z := nth (Z.to_nat i) a 0.

Fixpoint store_nat (a : list Z) (i : nat) (v : Z) : list Z :=
  match a, i with
  | [], _ => []
  | _ :: t, O => v :: t
  | h :: t, S i' => h :: store_nat t i' v
  end.

Definition store (a : list Z) (i : Z) (v : Z) : list Z :=
  if i <? 0 then a else store_nat a (Z.to_nat i) v.

(** What one call of [buttonReleased] reads from the outside: the pin
    level, the clock at the timer reset (read only when the level
    changed) and the clock at the stability test. *)
Record PinRead := {
  digitalRead : Z;
  millis_reset : Z;
  millis_check : Z
}.

Definition buttonReleased (button : Z) (pin : PinRead) (d : Debounce)
    : bool * Debounce :=
  let reading := digitalRead pin in
  let d :=
    if negb (reading =? cell (lastButtonStates d) button) then
      (* Reset the debounce timer *)
      {| buttonStates := buttonStates d;
         lastButtonStates := store (lastButtonStates d) button reading;
         lastDebounceTime :=
           store (lastDebounceTime d) button (millis_reset pin mod ULONG_MOD) |}
    else d in
  if DEBOUNCE_DELAY <?
     (millis_check pin - cell (lastDebounceTime d) button) mod ULONG_MOD
  then
    if negb (reading =? cell (buttonStates d) button) then
      let d := {| buttonStates := store (buttonStates d) button reading;
                  lastButtonStates := lastButtonStates d;
                  lastDebounceTime := lastDebounceTime d |} in
      if cell (buttonStates d) button =? NOT_PRESSED then (true, d)
      else (false, d)
    else (false, d)
  else (false, d).

(** ** getYesOrNo *)

(** Button C is read only when button B reported no release. *)
Definition getYesOrNo (pinB pinC : PinRead) (d : Debounce)
    : yesOrNo * Debounce :=
  let (b, d) := buttonReleased BUTTON_B pinB d in
  if b then (YES, d)
  else
    let (c, d) := buttonReleased BUTTON_C pinC d in
    if c then (NO, d) else (MAYBE, d).

(** ** loop: one tick of the dispatch loop *)

(** A datagram as [recvfromAck] leaves it: the length it reports and the
    memory of [messageBuffer] from its first byte on. *)
Record Frame := {
  messageLength : Z;
  messageBuffer : string
}.

(** The body of [if (radioManager.recvfromAck(...))]. *)
Definition decodeFrame (f : Frame) (w : Sketch) : Sketch :=
  if 3 <=? messageLength f then
    let message := CStr.c_str (messageBuffer f) in
    let w := on_Serial [Serial_println message] w in
    if CStr.startsWith message "MS:" then
      let message := CStr.remove 0 3 message in
      printOledMessage message w
    else if CStr.startsWith message "ER:" then
      let message := CStr.remove 0 3 message in
      let errorMessage := CStr.concat "ERROR: " message in
      printOledMessage errorMessage w
    else if CStr.startsWith message "ST:" then
      let message := CStr.remove 0 3 message in
      let w := printOledData STATUS message w in
      if CStr.equals message "FAULT" then with_currentState FAULT w
      else if CStr.equals message "READY" then with_currentState READY w
      else if CStr.equals message "ARMED" then with_currentState ARMED w
      else if CStr.equals message "LOGGING" then with_currentState LOGGING w
      else if CStr.equals message "POST_FLIGHT" then
        with_currentState POST_FLIGHT w
      else with_currentState ERROR w
    else if CStr.startsWith message "AL:" then
      let message := CStr.remove 0 3 message in
      printOledData ALTITUDE message w
    else if CStr.startsWith message "AC:" then
      let message := CStr.remove 0 3 message in
      printOledData ACCELERATION message w
    else if CStr.startsWith message "DU:" then
      let message := CStr.remove 0 3 message in
      printOledData DURATION message w
    else if CStr.startsWith message "AT:" then
      let w := printOledMessage "Lauch again?" w in
      with_AT_Recieved true w
    else if CStr.startsWith message "B1:" then
      let message := CStr.remove 0 3 message in
      let w := printOledData BATTERY1 message w in
      if CStr.equals message "FULL" then with_currentBatteryStatus FULL w
      else if CStr.equals message "OK" then with_currentBatteryStatus OK w
      else if CStr.equals message "LOW" then with_currentBatteryStatus LOWBAT w
      else if CStr.equals message "POOR" then
        with_currentBatteryStatus CRITICAL w
      else with_currentBatteryStatus CRITICAL w
    else if CStr.startsWith message "B2:" then
      let message := CStr.remove 0 3 message in
      let w := printOledData BATTERY2 message w in
      if CStr.equals message "FULL" then with_currentBatteryStatus FULL w
      else if CStr.equals message "OK" then with_currentBatteryStatus OK w
      else if CStr.equals message "LOW" then with_currentBatteryStatus LOWBAT w
      else if CStr.equals message "POOR" then
        with_currentBatteryStatus CRITICAL w
      else with_currentBatteryStatus CRITICAL w
    else printOledMessage "Invalid message" w
  else w.

(** The button-A block of [loop]. *)
Definition armDisarm (pinA : PinRead) (ackA : bool) (w : Sketch) : Sketch :=
  let (released, d) := buttonReleased BUTTON_A pinA (debounce w) in
  let w := with_debounce d w in
  if released then
    match currentState w with
    | READY => snd (sendRadioMessage "arm" UPGOV_ADDR ackA w)
    | ARMED => snd (sendRadioMessage "disarm" UPGOV_ADDR ackA w)
    | _ => w
    end
  else w.

(** The [if (AT_Recieved == true)] block of [loop]. *)
Definition answerPrompt (pinB pinC : PinRead) (ackP : bool) (w : Sketch)
    : Sketch :=
  if AT_Recieved w then
    let (answer, d) := getYesOrNo pinB pinC (debounce w) in
    let w := with_debounce d w in
    match answer with
    | YES => snd (sendRadioMessage "again" UPGOV_ADDR ackP w)
    | NO => snd (sendRadioMessage "no" UPGOV_ADDR ackP w)
    | MAYBE => w
    end
  else w.

(** Everything one call of [loop] reads from the outside.  [pinB] and
    [pinC] are consulted only if the corresponding [buttonReleased] call
    is made; likewise the two acknowledgements. *)
Record Tick := {
  recvfromAck : option Frame;
  pinA : PinRead;
  ackA : bool;
  pinB : PinRead;
  pinC : PinRead;
  ackP : bool
}.

(** The radio block of [loop]: at most one datagram per tick. *)
Definition receive (t : Tick) (w : Sketch) : Sketch :=
  match recvfromAck t with
  | Some f => decodeFrame f w
  | None => w
  end.

Definition loop (t : Tick) (w : Sketch) : Sketch :=
  let w := receive t w in
  let w := armDisarm (pinA t) (ackA t) w in
  answerPrompt (pinB t) (pinC t) (ackP t) w.

(** Successive calls of [loop], one per element of [ts]. *)
Definition run (ts : list Tick) (w : Sketch) : Sketch :=
  fold_left (fun w t => loop t w) ts w.

(** ** setup: the connect handshake (the part of [setup] that follows the
       radio initialisation report) *)

(** What one turn of the [while (!connected)] loop reads from the
    outside: whether the "connect" datagram was acknowledged, and, if
    [recvfromAckTimeout] returned true within its 2000 ms, the bytes of
    the reply and the sender's address.  The call copies the reply over
    the beginning of the global [buffer], at most [sizeof(buffer)] bytes
    of it ([messageLength] is set to that before the call); the rest of
    [buffer] keeps what it held, and nothing in the sketch ever clears
    it.  As the library documents the call, [buffer] is written only
    when it returns true. *)
Record Attempt := {
  sendtoWait : bool;
  recvfromAckTimeout : option (string * Z)
}.

(** One turn of the loop; the boolean is [connected]. *)
Definition connectAttempt (a : Attempt) (w : Sketch) : bool * Sketch :=
  let w := on_Serial [Serial_print "Sending: ";
                      Serial_println (CStr.c_str (radioPacket w))] w in
  let w := on_radioManager
             [{| payload := radioPacket w; dest := UPGOV_ADDR |}] w in
  if sendtoWait a then
    let w := on_Serial [Serial_println "An ack was received"] w in
    match recvfromAckTimeout a with
    | Some (received, from) =>
        let w := with_buffer (CStr.memcpy (buffer w) received) w in
        let w := on_Serial
                   [Serial_print "Received a reply message was received from: ";
                    Serial_println_num from] w in
        if from =? UPGOV_ADDR then
          let w := on_Serial [Serial_print "The reply message was: ";
                              Serial_println (CStr.c_str (buffer w))] w in
          if CStr.strncmp (buffer w) "connect" 7 =? 0 then
            let w := printOledMessage "Connected" w in
            let w := on_Serial [Serial_println "Received connect message"] w in
            (true, w)
          else (false, w)
        else (false, w)
    | None => (false, w)
    end
  else (false, w).

(** The loop over the successive attempts; it is left only with
    [connected = true].  [(false, w)] says that the attempts given were
    used up with the sketch still inside the loop. *)
Fixpoint connectLoop (attempts : list Attempt) (w : Sketch) : bool * Sketch :=
  match attempts with
  | [] => (false, w)
  | a :: rest =>
      let (connected, w) := connectAttempt a w in
      if connected then (true, w) else connectLoop rest w
  end.

Definition setup (attempts : list Attempt) (w : Sketch) : bool * Sketch :=
  let w := printOledMessage "Waiting radio connect" w in
  let w := with_radioPacket (CStr.strncpy "connect" 20) w in
  connectLoop attempts w.

(** The sketch as the Arduino core runs it: [setup], then [loop] for
    ever.  With the attempts used up before a connection, no tick of
    [loop] is run. *)
Definition sketch (attempts : list Attempt) (ts : list Tick) (w : Sketch)
    : Sketch :=
  let (connected, w) := setup attempts w in
  if connected then run ts w else w.

(** ** Views of the state used in the statements *)

(** The lines the scrolling log holds, oldest first. *)
Definition lines (l : OledLines) : list string :=
  [line0Message l; line1Message l; line2Message l;
   line3Message l; line4Message l; line5Message l].

Definition stored (w : Sketch) : list string :=
  firstn (Z.to_nat (lineNumber (oledLines w))) (lines (oledLines w)).

(** Appending a sequence of lines, first to last. *)
Definition appendAll (ms : list string) (w : Sketch) : Sketch :=
  fold_left (fun w m => printOledMessage m w) ms w.

(** The last [n] elements of a list. *)
Definition lastn {A} (n : nat) (l : list A) : list A :=
  skipn (List.length l - n)%nat l.

(** The text of a frame, its payload (the text without its three-character
    prefix), and the test that a frame is long enough and carries a given
    prefix. *)
Definition frame_text (f : Frame) : string := CStr.c_str (messageBuffer f).



Definition frame_payload (f : Frame) : string :=
  CStr.remove 0 3 (frame_text f).

Definition tagged (f : Frame) (tag : string) : bool :=
  (3 <=? messageLength f) && CStr.startsWith (frame_text f) tag.

(** The status table, in the words of the specification. *)
Definition groundStateOf (p : string) : states :=
  if String.eqb p "FAULT" then FAULT
  else if String.eqb p "READY" then READY
  else if String.eqb p "ARMED" then ARMED
  else if String.eqb p "LOGGING" then LOGGING
  else if String.eqb p "POST_FLIGHT" then POST_FLIGHT
  else ERROR.


(** The datagram [sendRadioMessage] sends for a command. *)
Definition command (name : string) : Datagram :=
  {| payload := CStr.strncpy name 20; dest := UPGOV_ADDR |}.

(** The datagrams sent while going from [w] to [w']. *)
Definition sent_between (w w' : Sketch) (ds : list Datagram) : Prop :=
  radioManager w' = radioManager w ++ ds.

(** ** Further views and test inputs used in the statements *)

Definition lineNumber_ok (w : Sketch) : Prop :=
  0 <= lineNumber (oledLines w) <= 6.

(** The three entities of the state machines. *)
Definition entities (w : Sketch) : states * battery * bool :=
  (currentState w, currentBatteryStatus w, AT_Recieved w).

(** What is on the two panels and in the log. *)
Definition shown (w : Sketch) : OledLines * list OledOp * list OledOp :=
  (oledLines w, displayA w, displayB w).

(** The nine prefixes of the protocol. *)
Definition known_tags : list string :=
  ["MS:"; "ER:"; "ST:"; "AL:"; "AC:"; "DU:"; "AT:"; "B1:"; "B2:"].

Definition recognised (f : Frame) : bool :=
  existsb (CStr.startsWith (frame_text f)) known_tags.

(** A tick in which the radio has nothing. *)
Definition without_frame (t : Tick) : Tick :=
  {| recvfromAck := None; pinA := pinA t; ackA := ackA t;
     pinB := pinB t; pinC := pinC t; ackP := ackP t |}.

(** The same buttons and acknowledgements with a given datagram. *)
Definition with_frame (f : Frame) (t : Tick) : Tick :=
  {| recvfromAck := Some f; pinA := pinA t; ackA := ackA t;
     pinB := pinB t; pinC := pinC t; ackP := ackP t |}.

(** A tick in which nothing happens: no datagram, no button held, at
    clock [now]. *)
Definition idle_pin (now : Z) : PinRead :=
  {| digitalRead := NOT_PRESSED; millis_reset := now; millis_check := now |}.

Definition idle (now : Z) : Tick :=
  {| recvfromAck := None; pinA := idle_pin now; ackA := true;
     pinB := idle_pin now; pinC := idle_pin now; ackP := true |}.

(** A datagram whose bytes are those of [text], followed by a NUL. *)
Definition frame_of (text : string) : Frame :=
  {| messageLength := Z.of_nat (String.length text) + 1;
     messageBuffer := String.append text (String CStr.NUL "") |}.

(** The three arrays have their three cells. *)
Definition arrays_ok (d : Debounce) : Prop :=
  List.length (buttonStates d) = 3%nat /\
  List.length (lastButtonStates d) = 3%nat /\
  List.length (lastDebounceTime d) = 3%nat.

(** The cells of one button: committed level, last level read, time of
    the last change of the level read. *)
Record ButtonCells := {
  stable : Z;
  raw : Z;
  changed_at : Z
}.

Definition cells (button : Z) (d : Debounce) : ButtonCells :=
  {| stable := cell (buttonStates d) button;
     raw := cell (lastButtonStates d) button;
     changed_at := cell (lastDebounceTime d) button |}.

(** What [buttonReleased] does to the cells of the button it is called
    for (lemma [buttonReleased_cells] below). *)
Definition debounce_step (pin : PinRead) (c : ButtonCells)
    : bool * ButtonCells :=
  let reading := digitalRead pin in
  let since :=
    if reading =? raw c then changed_at c
    else millis_reset pin mod ULONG_MOD in
  let commit :=
    (DEBOUNCE_DELAY <? (millis_check pin - since) mod ULONG_MOD) &&
    negb (reading =? stable c) in
  (commit && (reading =? NOT_PRESSED),
   {| stable := if commit then reading else stable c;
      raw := reading;
      changed_at := since |}).

(** Successive calls of [buttonReleased] for one button, one per element
    of [pins]; the result lists what each call returned. *)
Fixpoint poll (button : Z) (pins : list PinRead) (d : Debounce)
    : list bool * Debounce :=
  match pins with
  | [] => ([], d)
  | p :: ps =>
      let (e, d) := buttonReleased button p d in
      let (es, d) := poll button ps d in
      (e :: es, d)
  end.

Fixpoint poll_cells (pins : list PinRead) (c : ButtonCells)
    : list bool * ButtonCells :=
  match pins with
  | [] => ([], c)
  | p :: ps =>
      let (e, c) := debounce_step p c in
      let (es, c) := poll_cells ps c in
      (e :: es, c)
  end.

(** Conditions on the pins read, as tests. *)
Definition all_released (pins : list PinRead) : bool :=
  forallb (fun p => digitalRead p =? NOT_PRESSED) pins.

(** Every stability test of [pins] is made between [T] and the end of
    the window opened at [T]. *)
Definition within_window (T : Z) (pins : list PinRead) : bool :=
  forallb (fun p => (T <=? millis_check p) &&
                    (millis_check p <=? T + DEBOUNCE_DELAY)) pins.

(** The clock never goes back over [pins], starting at [from], and has
    not passed [upto] at the last of them. *)
Fixpoint clock_runs (from upto : Z) (pins : list PinRead) : bool :=
  match pins with
  | [] => true
  | p :: ps =>
      (from <=? millis_reset p) && (millis_reset p <=? millis_check p) &&
      (millis_check p <=? upto) && clock_runs (millis_check p) upto ps
  end.

(** The committed level is "pressed", and the level last read is
    "pressed" too or changed after [t0]. *)
Definition bouncing (t0 now : Z) (c : ButtonCells) : Prop :=
  stable c = PRESSED /\
  (raw c = PRESSED \/ t0 <= changed_at c <= now).

Definition waiting (T : Z) : ButtonCells :=
  {| stable := PRESSED; raw := NOT_PRESSED; changed_at := T |}.

Definition rested (T : Z) : ButtonCells :=
  {| stable := NOT_PRESSED; raw := NOT_PRESSED; changed_at := T |}.

(** A pin read as [level] at clock [now]. *)
Definition read_at (level now : Z) : PinRead :=
  {| digitalRead := level; millis_reset := now; millis_check := now |}.

(** No tick of [ts] receives an ST: frame. *)
Definition no_status (ts : list Tick) : bool :=
  forallb (fun t => match recvfromAck t with
                    | Some f => negb (tagged f "ST:")
                    | None => true
                    end) ts.

(** A tick without a datagram in which the three pins read [a], [b] and
    [c] at clock [now]. *)
Definition pins_at (a b c now : Z) : Tick :=
  {| recvfromAck := None; pinA := read_at a now; ackA := true;
     pinB := read_at b now; pinC := read_at c now; ackP := true |}.

(** Both B and C pressed at 2000, both released at 3000. *)
Definition both_released_run : list Tick :=
  [with_frame (frame_of "AT:") (idle 1000);
   pins_at NOT_PRESSED PRESSED PRESSED 2000;
   pins_at NOT_PRESSED PRESSED PRESSED 2100;
   pins_at NOT_PRESSED NOT_PRESSED NOT_PRESSED 3000].

(** What [buffer] holds after an attempt that found [buf] in it. *)
Definition buffer_after (buf : string) (a : Attempt) : string :=
  if sendtoWait a then
    match recvfromAckTimeout a with
    | Some (received, _) => CStr.memcpy buf received
    | None => buf
    end
  else buf.

(** The test one attempt has to pass, in words: the "connect" datagram
    was acknowledged, a reply came within the timeout, it came from the
    UpGoV address, and with the reply copied into it the first seven
    bytes of [buffer], which held [buf], are "connect". *)
Definition accepts (buf : string) (a : Attempt) : bool :=
  sendtoWait a &&
  match recvfromAckTimeout a with
  | Some (_, from) =>
      (from =? UPGOV_ADDR) &&
      String.eqb (CStr.take 7 (buffer_after buf a)) "connect"
  | None => false
  end.

(** Some attempt passes the test, each one finding in [buffer] what
    the attempts before it left there. *)
Fixpoint succeeds (buf : string) (attempts : list Attempt) : bool :=
  match attempts with
  | [] => false
  | a :: rest => accepts buf a || succeeds (buffer_after buf a) rest
  end.

(** The number of attempts made: up to and including the first one that
    passes, all of them if none does. *)
Fixpoint tries (buf : string) (attempts : list Attempt) : nat :=
  match attempts with
  | [] => 0
  | a :: rest =>
      if accepts buf a then 1 else S (tries (buffer_after buf a) rest)
  end.

Fixpoint no_nul (s : string) : bool :=
  match s with
  | EmptyString => true
  | String c t => negb (Ascii.eqb c CStr.NUL) && no_nul t
  end.

(** ** Views for the radio side *)

(** Whether the button-A block, respectively the prompt block, hands a
    datagram to the radio in a tick that finds the sketch in [w]. *)
Definition armDisarm_sends (p : PinRead) (w : Sketch) : bool :=
  fst (buttonReleased BUTTON_A p (debounce w)) &&
  match currentState w with
  | READY | ARMED => true
  | _ => false
  end.

Definition answerPrompt_sends (pb pc : PinRead) (w : Sketch) : bool :=
  AT_Recieved w &&
  (fst (buttonReleased BUTTON_B pb (debounce w)) ||
   fst (buttonReleased BUTTON_C pc
          (snd (buttonReleased BUTTON_B pb (debounce w))))).

(** Every acknowledgement of [ts] is positive. *)
Definition all_acked (ts : list Tick) : bool :=
  forallb (fun t => ackA t && ackP t) ts.

(** The commands sent in a tick that finds the sketch in [w], and those
    of them that [sendtoWait] reported as not acknowledged. *)
Definition sent_in_tick (t : Tick) (w : Sketch) : nat :=
  let w1 := receive t w in
  let w2 := armDisarm (pinA t) (ackA t) w1 in
  ((if armDisarm_sends (pinA t) w1 then 1 else 0) +
   (if answerPrompt_sends (pinB t) (pinC t) w2 then 1 else 0))%nat.

Definition failed_in_tick (t : Tick) (w : Sketch) : Z :=
  let w1 := receive t w in
  let w2 := armDisarm (pinA t) (ackA t) w1 in
  (if armDisarm_sends (pinA t) w1 && negb (ackA t) then 1 else 0) +
  (if answerPrompt_sends (pinB t) (pinC t) w2 && negb (ackP t) then 1 else 0).

(** The same over a run that starts in [w]. *)
Fixpoint sent_commands (ts : list Tick) (w : Sketch) : nat :=
  match ts with
  | [] => 0
  | t :: rest => (sent_in_tick t w + sent_commands rest (loop t w))%nat
  end.

Fixpoint failed_commands (ts : list Tick) (w : Sketch) : Z :=
  match ts with
  | [] => 0
  | t :: rest => failed_in_tick t w + failed_commands rest (loop t w)
  end.

(** The value is one an [int] can hold. *)
Definition int_range (x : Z) : Prop := INT_MIN <= x <= INT_MAX.

(** ** Counting for the debouncer *)

(** The number of releases reported, and the number of reads that did
    not find the pin released. *)
Definition count_events (es : list bool) : nat :=
  List.length (filter (fun e : bool => e) es).

Definition count_pressed (pins : list PinRead) : nat :=
  List.length (filter (fun p => negb (digitalRead p =? NOT_PRESSED)) pins).

(** The committed level of a button is not "released". *)
Definition held (c : ButtonCells) : bool := negb (stable c =? NOT_PRESSED).

(** None of the three pins reads "released" in the tick. *)
Definition no_release_read (t : Tick) : bool :=
  negb (digitalRead (pinA t) =? NOT_PRESSED) &&
  negb (digitalRead (pinB t) =? NOT_PRESSED) &&
  negb (digitalRead (pinC t) =? NOT_PRESSED).

(** The four commands [loop] can send. *)
Definition loop_commands : list Datagram :=
  [command "arm"; command "disarm"; command "again"; command "no"].

(** What the button-A block, respectively the prompt block, sends in a
    tick that finds the sketch in [w]. *)
Definition armDisarm_datagrams (p : PinRead) (w : Sketch) : list Datagram :=
  if fst (buttonReleased BUTTON_A p (debounce w)) then
    match currentState w with
    | READY => [command "arm"]
    | ARMED => [command "disarm"]
    | _ => []
    end
  else [].

Definition answerPrompt_datagrams (pb pc : PinRead) (w : Sketch)
    : list Datagram :=
  if AT_Recieved w then
    if fst (buttonReleased BUTTON_B pb (debounce w)) then [command "again"]
    else if fst (buttonReleased BUTTON_C pc
                   (snd (buttonReleased BUTTON_B pb (debounce w))))
         then [command "no"]
         else []
  else [].

(** ** Frames over a run *)

(** The frame of a tick, if it is long enough and carries one of
    [tags]; the last such frame of a run. *)
Definition carried (tags : list string) (t : Tick) : option Frame :=
  match recvfromAck t with
  | Some f => if existsb (tagged f) tags then Some f else None
  | None => None
  end.


(** Some tick of the run brings an AT: frame. *)
Definition prompted (ts : list Tick) : bool :=
  existsb (fun t => match carried ["AT:"] t with
                    | Some _ => true
                    | None => false
                    end) ts.

(** The ground state is neither READY nor ARMED. *)
Definition disarmed_state (s : states) : bool :=
  match s with
  | READY | ARMED => false
  | _ => true
  end.

(** ** Reading the panels back from their traces *)

(** Where [printOledData] sets the cursor for each kind of data. *)
Definition field_position (ty : oledDataType) : Z * Z :=
  match ty with
  | STATUS => (42, 0)
  | ALTITUDE => (52, 10)
  | ACCELERATION => (77, 20)
  | DURATION => (54, 30)
  | BATTERY1 => (36, 50)
  | BATTERY2 => (100, 50)
  end.


(** Scanning a trace for the text last printed with the cursor set at
    [pos]: the boolean tells whether the cursor stands at [pos], the
    option is the last text printed from there, if it was not cleared
    since. *)
Definition scan_step (pos : Z * Z) (st : bool * option string) (op : OledOp)
    : bool * option string :=
  match op with
  | clearDisplay => (fst st, None)
  | setCursor x y => ((x =? fst pos) && (y =? snd pos), snd st)
  | print text => (false, if fst st then Some text else snd st)
  | display => st
  end.

Definition shown_field (ty : oledDataType) (ops : list OledOp)
    : option string :=
  snd (fold_left (scan_step (field_position ty)) ops (false, None)).



(** What a panel holds: the texts printed since it was last cleared,
    each with the cursor position it was printed from ([None] when the
    cursor had not been set since the previous print). *)
Definition paint_step
    (st : option (Z * Z) * list (option (Z * Z) * string)) (op : OledOp)
    : option (Z * Z) * list (option (Z * Z) * string) :=
  match op with
  | clearDisplay => (fst st, [])
  | setCursor x y => (Some (x, y), snd st)
  | print text => (None, snd st ++ [(fst st, text)])
  | display => st
  end.

Definition painted (ops : list OledOp) : list (option (Z * Z) * string) :=
  snd (fold_left paint_step ops (None, [])).

(** The rows of panel A, top to bottom, filled with [ls]. *)
Definition rows_of (ls : list string) : list (option (Z * Z) * string) :=
  combine [Some (0, 0); Some (0, 10); Some (0, 20);
           Some (0, 30); Some (0, 40); Some (0, 50)] ls.

(** The part of the state the log lives in. *)
Definition logview (w : Sketch) : OledLines * list OledOp :=
  (oledLines w, displayA w).

(** ** setup: from power-on to the handshake *)

Definition OLED_A_ADDR : Z := 60.   (* 0x3C *)
Definition OLED_B_ADDR : Z := 61.   (* 0x3D *)
Definition BUTTON_PINS : list Z := [9; 6; 5].
Definition RADIO_RST : Z := 4.
Definition RADIO_POWER : Z := 23.
Definition VERSION : string := "Beta 1.3".
Definition HIGH : Z := 1.
Definition LOW : Z := 0.

(** The calls [setup] makes on the hardware before the handshake for
    which the traces of [Sketch] have no place, in the order they are
    made.  [radioDriver_setFrequency] is the call with [RADIO_FREQ]
    (915.0), the text colours are white on black. *)
Inductive StartupOp :=
| Serial_begin (baud : Z)
| pinMode_INPUT_PULLUP (pin : Z)
| pinMode_OUTPUT (pin : Z)
| digitalWrite (pin level : Z)
| delay (ms : Z)
| displayA_begin (addr : Z)
| displayB_begin (addr : Z)
| radioDriver_init
| radioDriver_setFrequency
| radioDriver_setTxPower (power : Z)
| radioManager_setThisAddress (addr : Z)
| displayA_setRotation (r : Z)
| displayB_setRotation (r : Z)
| displayA_setTextSize (s : Z)
| displayB_setTextSize (s : Z)
| displayA_setTextColor
| displayB_setTextColor.

(** What this part of [setup] reads from the outside: the results of
    [radioDriver.init()] and of [radioDriver.setFrequency(...)] (the
    latter is used only if the call is made) and the successive levels
    read on the pin of button A while waiting for it. *)
Record PowerOn := {
  radio_init : bool;
  radio_setFrequency : bool;
  buttonA_reads : list Z
}.

(** [while (digitalRead(BUTTON_PINS[BUTTON_A])) ;]: left at the first
    read of a zero level; [false] says that the reads given were used
    up with the sketch still waiting. *)
Fixpoint wait_buttonA (reads : list Z) : bool :=
  match reads with
  | [] => false
  | r :: rest => if r =? 0 then true else wait_buttonA rest
  end.

(** The line reporting the radio initialisation.  [radioFreqSetError]
    is assigned, and used, only when the initialisation succeeded. *)
Definition radio_report (p : PowerOn) : string :=
  if negb (radio_init p) then "Radio init error"
  else if negb (radio_setFrequency p) then "Error setting freq"
  else "Radio initialized".

Definition radio_report_serial (p : PowerOn) : string :=
  if negb (radio_init p) then "Radio initialization error"
  else if negb (radio_setFrequency p) then "Error setting radio frequency"
  else "Radio initialized".

(** [setup] up to, not including, the line "Waiting radio connect".
    The boolean tells whether the wait for button A was left; if not,
    the state and the calls are those made before the wait. *)
Definition startup (p : PowerOn) (w : Sketch)
    : bool * list StartupOp * Sketch :=
  let w := on_Serial [Serial_print "UpGoV Ground Station Version ";
                      Serial_println VERSION] w in
  (* Display the OLED splash screen *)
  let w := on_displayA [display] w in
  let w := on_displayB [display] w in
  let hw :=
    [Serial_begin 115200;
     pinMode_INPUT_PULLUP (cell BUTTON_PINS BUTTON_A);
     pinMode_OUTPUT RADIO_RST;
     digitalWrite RADIO_RST HIGH;
     delay 1000;
     displayA_begin OLED_A_ADDR;
     displayB_begin OLED_B_ADDR;
     (* Configure the radio *)
     digitalWrite RADIO_RST LOW;
     delay 10;
     digitalWrite RADIO_RST HIGH;
     delay 10;
     radioDriver_init] ++
    (if radio_init p
     then [radioDriver_setFrequency; radioDriver_setTxPower RADIO_POWER]
     else []) ++
    [radioManager_setThisAddress GROUND_STATION_ADDR] in
  (* Wait for user to press button A *)
  if wait_buttonA (buttonA_reads p) then
    let w := on_displayA [clearDisplay; display] w in
    let w := on_displayB [clearDisplay; display] w in
    let hw := hw ++
      [displayA_setRotation 1; displayB_setRotation 1;
       displayA_setTextSize 1; displayA_setTextColor;
       displayB_setTextSize 1; displayB_setTextColor] in
    (* Initialize the data OLED screen *)
    let w := on_displayB
               [setCursor 0 0; print "Status: ";
                setCursor 0 10; print "Altitude: ";
                setCursor 0 20; print "Acceleration: ";
                setCursor 0 30; print "Duration: ";
                setCursor 0 50; print "Bat 1: ";
                setCursor 65 50; print "Bat 2: ";
                display] w in
    (* Show radio initialization results *)
    let w := on_Serial [Serial_println (radio_report_serial p)] w in
    let w := printOledMessage (radio_report p) w in
    (true, hw ++ [delay 3000], w)
  else (false, hw, w).

(** The sketch from power-on: [startup], the handshake, then [loop]. *)
Definition power_on (p : PowerOn) (attempts : list Attempt)
    (ts : list Tick) : Sketch :=
  let '(left_wait, _, w) := startup p initSketch in
  if left_wait then sketch attempts ts w else w.

(** The labels of panel B. *)
Definition labels : list (option (Z * Z) * string) :=
  [(Some (0, 0), "Status: "); (Some (0, 10), "Altitude: ");
   (Some (0, 20), "Acceleration: "); (Some (0, 30), "Duration: ");
   (Some (0, 50), "Bat 1: "); (Some (65, 50), "Bat 2: ")].

(** * Properties *)

(** ** The scrolling log *)

Section ScrollLog.

Lemma tl_skipn {A} (k : nat) (l : list A) : tl (skipn k l) = skipn (S k) l.
Proof.
  revert l; induction k as [|k IH]; intros [|x l]; try reflexivity.
  simpl skipn at 1. rewrite IH. reflexivity.
Qed.

(** What one more element does to the last six. *)
Lemma lastn_snoc (ms : list string) (m : string) :
  lastn 6 (ms ++ [m]) =
  if (List.length (lastn 6 ms) <? 6)%nat then lastn 6 ms ++ [m]
  else tl (lastn 6 ms) ++ [m].
Proof.
  unfold lastn. rewrite length_app, length_skipn. simpl List.length.
  destruct (Nat.ltb_spec (List.length ms - (List.length ms - 6)) 6) as [H|H].
  - replace (List.length ms + 1 - 6)%nat with 0%nat by lia.
    replace (List.length ms - 6)%nat with 0%nat by lia.
    reflexivity.
  - rewrite tl_skipn, skipn_app.
    replace (List.length ms + 1 - 6)%nat
      with (S (List.length ms - 6)) by lia.
    replace (S (List.length ms - 6) - List.length ms)%nat with 0%nat by lia.
    reflexivity.
Qed.

(** One call of [printOledMessage] on a log holding at most six lines:
    the line goes to the next free slot, or the oldest line leaves. *)
Lemma printOledMessage_stored (m : string) (w : Sketch) :
  lineNumber_ok w ->
  lineNumber_ok (printOledMessage m w) /\
  stored (printOledMessage m w) =
  if (List.length (stored w) <? 6)%nat then stored w ++ [m]
  else tl (stored w) ++ [m].
Proof.
  unfold lineNumber_ok, stored.
  destruct w as [? ? ? ? ? ? ? [n l0 l1 l2 l3 l4 l5] ? ? ? ?].
  simpl. intros Hn.
  assert (Hc : n = 0 \/ n = 1 \/ n = 2 \/ n = 3 \/ n = 4 \/ n = 5 \/ n = 6)
    by lia.
  destruct Hc as [->|[->|[->|[->|[->|[->| ->]]]]]];
    (split; [cbn; lia | reflexivity]).
Qed.

Lemma appendAll_snoc (ms : list string) (m : string) (w : Sketch) :
  appendAll (ms ++ [m]) w = printOledMessage m (appendAll ms w).
Proof. unfold appendAll. rewrite fold_left_app. reflexivity. Qed.

Lemma appendAll_lastn (ms : list string) :
  lineNumber_ok (appendAll ms initSketch) /\
  stored (appendAll ms initSketch) = lastn 6 ms.
Proof.
  induction ms as [|m ms [Hok Hst]] using rev_ind.
  - split; [unfold lineNumber_ok; cbn; lia | reflexivity].
  - rewrite appendAll_snoc.
    destruct (printOledMessage_stored m _ Hok) as [Hok' Hst'].
    split; [exact Hok'|].
    rewrite Hst', Hst, lastn_snoc. reflexivity.
Qed.

(** The counter is the number of lines held. *)
Lemma lineNumber_counts (w : Sketch) :
  lineNumber_ok w ->
  lineNumber (oledLines w) = Z.of_nat (List.length (stored w)).
Proof.
  unfold lineNumber_ok, stored. intros H.
  rewrite length_firstn. cbn [lines List.length]. lia.
Qed.

End ScrollLog.

(** ** What each function leaves alone *)

Section Footprints.

(** The log only touches its own lines and panel A. *)
Lemma printOledMessage_shape (m : string) (w : Sketch) :
  exists l ops,
    printOledMessage m w = on_displayA ops (with_oledLines l w).
Proof.
  unfold printOledMessage.
  repeat match goal with
         | |- context [if ?c then _ else _] => destruct c
         end; eexists; eexists; reflexivity.
Qed.

Lemma printOledData_shape (ty : oledDataType) (data : string) (w : Sketch) :
  exists ops, printOledData ty data w = on_displayB ops w.
Proof. destruct ty; eexists; reflexivity. Qed.

Lemma sendRadioMessage_shape (m : string) (a : Z) (acked : bool)
    (w : Sketch) :
  exists e,
    snd (sendRadioMessage m a acked w) =
    with_radioError e
      (on_radioManager [{| payload := CStr.strncpy m 20; dest := a |}]
         (with_radioPacket (CStr.strncpy m 20) w)).
Proof.
  unfold sendRadioMessage. destruct acked; simpl.
  - exists (radioError w). destruct w; reflexivity.
  - eexists. reflexivity.
Qed.

Lemma printOledMessage_entities m w :
  entities (printOledMessage m w) = entities w.
Proof.
  destruct (printOledMessage_shape m w) as (l & ops & ->). reflexivity.
Qed.

Lemma printOledData_entities ty d w :
  entities (printOledData ty d w) = entities w.
Proof. destruct (printOledData_shape ty d w) as (ops & ->). reflexivity. Qed.

Lemma sendRadioMessage_entities m a k w :
  entities (snd (sendRadioMessage m a k w)) = entities w /\
  shown (snd (sendRadioMessage m a k w)) = shown w /\
  debounce (snd (sendRadioMessage m a k w)) = debounce w.
Proof.
  destruct (sendRadioMessage_shape m a k w) as (e & ->).
  repeat split; reflexivity.
Qed.

Lemma sendRadioMessage_sent m a k w :
  sent_between w (snd (sendRadioMessage m a k w))
    [{| payload := CStr.strncpy m 20; dest := a |}].
Proof.
  destruct (sendRadioMessage_shape m a k w) as (e & ->). reflexivity.
Qed.

(** The button blocks never write an entity, a panel or the log. *)
Lemma armDisarm_entities p k w :
  entities (armDisarm p k w) = entities w /\
  shown (armDisarm p k w) = shown w.
Proof.
  unfold armDisarm.
  destruct (buttonReleased BUTTON_A p (debounce w)) as [[|] d];
    [|split; reflexivity].
  destruct (currentState (with_debounce d w)) eqn:E; try (split; reflexivity).
  - destruct (sendRadioMessage_entities "arm" UPGOV_ADDR k (with_debounce d w))
      as (-> & -> & _). split; reflexivity.
  - destruct (sendRadioMessage_entities "disarm" UPGOV_ADDR k
                (with_debounce d w)) as (-> & -> & _). split; reflexivity.
Qed.

Lemma answerPrompt_entities pb pc k w :
  entities (answerPrompt pb pc k w) = entities w /\
  shown (answerPrompt pb pc k w) = shown w.
Proof.
  unfold answerPrompt. destruct (AT_Recieved w); [|split; reflexivity].
  destruct (getYesOrNo pb pc (debounce w)) as [[| |] d];
    try (split; reflexivity).
  - destruct (sendRadioMessage_entities "again" UPGOV_ADDR k
                (with_debounce d w)) as (-> & -> & _). split; reflexivity.
  - destruct (sendRadioMessage_entities "no" UPGOV_ADDR k
                (with_debounce d w)) as (-> & -> & _). split; reflexivity.
Qed.

(** After the radio block, a tick changes no entity. *)
Lemma loop_entities t w : entities (loop t w) = entities (receive t w).
Proof.
  unfold loop.
  destruct (answerPrompt_entities (pinB t) (pinC t) (ackP t)
              (armDisarm (pinA t) (ackA t) (receive t w))) as [-> _].
  apply armDisarm_entities.
Qed.

Lemma loop_shown t w : shown (loop t w) = shown (receive t w).
Proof.
  unfold loop.
  destruct (answerPrompt_entities (pinB t) (pinC t) (ackP t)
              (armDisarm (pinA t) (ackA t) (receive t w))) as [_ ->].
  apply armDisarm_entities.
Qed.

End Footprints.

(** ** The decoder, prefix by prefix *)

Section Decoder.

Lemma startsWith3 (m : string) (x y z : ascii) :
  CStr.startsWith m (String x (String y (String z ""))) = true ->
  exists r, m = String x (String y (String z r)).
Proof.
  destruct m as [|a [|b [|c r]]]; simpl;
    rewrite ?andb_false_r; try discriminate.
  rewrite ?andb_true_r. intros H.
  apply andb_prop in H. destruct H as [Ha H].
  apply andb_prop in H. destruct H as [Hb Hc].
  apply Ascii.eqb_eq in Ha, Hb, Hc. subst. exists r. reflexivity.
Qed.

Lemma remove3 (x y z : ascii) (r : string) :
  CStr.remove 0 3 (String x (String y (String z r))) = r.
Proof.
  unfold CStr.remove. cbn [String.length].
  destruct (Z.leb_spec (Z.of_nat (S (S (S (String.length r))))) 0); [lia|].
  destruct (Z.ltb_spec (Z.of_nat (S (S (S (String.length r)))) - 0) 3);
    [lia|].
  reflexivity.
Qed.

(** Opens a [tagged] hypothesis, names the text after the prefix and
    settles the prefix tests of [decodeFrame] by evaluation. *)
Ltac open_tag H :=
  unfold tagged in H; apply andb_prop in H;
  let Hlen := fresh "Hlen" in
  let Htag := fresh "Htag" in
  let r := fresh "r" in
  let Hr := fresh "Hr" in
  destruct H as [Hlen Htag];
  destruct (startsWith3 _ _ _ _ Htag) as [r Hr];
  unfold frame_payload, decodeFrame; unfold frame_text in *;
  rewrite Hlen, Hr; cbv zeta; rewrite ?remove3;
  repeat match goal with
         | |- context [CStr.startsWith ?s ?p] =>
             let b := eval cbv in (CStr.startsWith s p) in
             change (CStr.startsWith s p) with b
         end;
  cbv iota.

(** Replaces the calls that draw by their footprint. *)
Ltac expose_draws :=
  repeat match goal with
         | |- context [printOledMessage ?m ?w] =>
             destruct (printOledMessage_shape m w) as (? & ? & ->)
         | |- context [printOledData ?t ?d ?w] =>
             destruct (printOledData_shape t d w) as (? & ->)
         end.

Lemma decodeFrame_short f w : messageLength f < 3 -> decodeFrame f w = w.
Proof.
  intros H. unfold decodeFrame.
  destruct (Z.leb_spec 3 (messageLength f)); [lia | reflexivity].
Qed.

Lemma decodeFrame_MS f w :
  tagged f "MS:" = true ->
  decodeFrame f w =
  printOledMessage (frame_payload f)
    (on_Serial [Serial_println (frame_text f)] w).
Proof. intros H. open_tag H. reflexivity. Qed.

Lemma decodeFrame_ER f w :
  tagged f "ER:" = true ->
  decodeFrame f w =
  printOledMessage (CStr.concat "ERROR: " (frame_payload f))
    (on_Serial [Serial_println (frame_text f)] w).
Proof. intros H. open_tag H. reflexivity. Qed.

Lemma decodeFrame_ST f w :
  tagged f "ST:" = true ->
  decodeFrame f w =
  with_currentState (groundStateOf (frame_payload f))
    (printOledData STATUS (frame_payload f)
       (on_Serial [Serial_println (frame_text f)] w)).
Proof.
  intros H. open_tag H. unfold groundStateOf, CStr.equals.
  repeat match goal with
         | |- context [String.eqb ?s ?l] => destruct (String.eqb s l)
         end; reflexivity.
Qed.

Lemma decodeFrame_AL f w :
  tagged f "AL:" = true ->
  decodeFrame f w =
  printOledData ALTITUDE (frame_payload f)
    (on_Serial [Serial_println (frame_text f)] w).
Proof. intros H. open_tag H. reflexivity. Qed.

Lemma decodeFrame_AC f w :
  tagged f "AC:" = true ->
  decodeFrame f w =
  printOledData ACCELERATION (frame_payload f)
    (on_Serial [Serial_println (frame_text f)] w).
Proof. intros H. open_tag H. reflexivity. Qed.

Lemma decodeFrame_DU f w :
  tagged f "DU:" = true ->
  decodeFrame f w =
  printOledData DURATION (frame_payload f)
    (on_Serial [Serial_println (frame_text f)] w).
Proof. intros H. open_tag H. reflexivity. Qed.

Lemma decodeFrame_AT f w :
  tagged f "AT:" = true ->
  decodeFrame f w =
  with_AT_Recieved true
    (printOledMessage "Lauch again?"
       (on_Serial [Serial_println (frame_text f)] w)).
Proof. intros H. open_tag H. reflexivity. Qed.



Lemma decodeFrame_invalid f w :
  3 <= messageLength f -> recognised f = false ->
  decodeFrame f w =
  printOledMessage "Invalid message"
    (on_Serial [Serial_println (frame_text f)] w).
Proof.
  intros Hlen Hrec. unfold recognised, known_tags in Hrec.
  cbn [existsb] in Hrec. unfold frame_text in *.
  repeat (apply orb_false_elim in Hrec; destruct Hrec as [? Hrec]).
  unfold decodeFrame.
  destruct (Z.leb_spec 3 (messageLength f)); [|lia]. cbv zeta.
  repeat match goal with
         | E : CStr.startsWith _ _ = false |- _ => rewrite E; clear E
         end.
  reflexivity.
Qed.

(** A frame that does not carry a given prefix leaves the entity that
    prefix governs as it was. *)
Lemma decodeFrame_currentState_other f w :
  tagged f "ST:" = false ->
  currentState (decodeFrame f w) = currentState w.
Proof.
  intros H. unfold tagged in H. unfold decodeFrame.
  destruct (3 <=? messageLength f); [|reflexivity].
  cbn [andb] in H. unfold frame_text in H. cbv zeta. rewrite H.
  repeat match goal with
         | |- context [if CStr.startsWith ?s ?p then _ else _] =>
             destruct (CStr.startsWith s p)
         | |- context [if CStr.equals ?s ?p then _ else _] =>
             destruct (CStr.equals s p)
         end;
    expose_draws; reflexivity.
Qed.

Lemma decodeFrame_AT_Recieved_other f w :
  tagged f "AT:" = false ->
  AT_Recieved (decodeFrame f w) = AT_Recieved w.
Proof.
  intros H. unfold tagged in H. unfold decodeFrame.
  destruct (3 <=? messageLength f); [|reflexivity].
  cbn [andb] in H. unfold frame_text in H. cbv zeta. rewrite H.
  repeat match goal with
         | |- context [if CStr.startsWith ?s ?p then _ else _] =>
             destruct (CStr.startsWith s p)
         | |- context [if CStr.equals ?s ?p then _ else _] =>
             destruct (CStr.equals s p)
         end;
    expose_draws; reflexivity.
Qed.

(** Decoding sends nothing and reads no button. *)
Lemma decodeFrame_radio f w :
  radioManager (decodeFrame f w) = radioManager w /\
  debounce (decodeFrame f w) = debounce w.
Proof.
  unfold decodeFrame.
  destruct (3 <=? messageLength f); [|split; reflexivity]. cbv zeta.
  repeat match goal with
         | |- context [if CStr.startsWith ?s ?p then _ else _] =>
             destruct (CStr.startsWith s p)
         | |- context [if CStr.equals ?s ?p then _ else _] =>
             destruct (CStr.equals s p)
         end;
    expose_draws; split; reflexivity.
Qed.

End Decoder.

(** ** Frames and the entities *)

Section Frames.

Lemma loop_currentState (t : Tick) (w : Sketch) :
  currentState (loop t w) =
  match recvfromAck t with
  | Some f =>
      if tagged f "ST:" then groundStateOf (frame_payload f)
      else currentState w
  | None => currentState w
  end.
Proof.
  pose proof (f_equal (fun e => fst (fst e)) (loop_entities t w)) as H.
  cbn in H. rewrite H. unfold receive.
  destruct (recvfromAck t) as [f|]; [|reflexivity].
  destruct (tagged f "ST:") eqn:E.
  - rewrite (decodeFrame_ST _ _ E). reflexivity.
  - apply decodeFrame_currentState_other, E.
Qed.














(** C10. A tick that receives an MS:, ER:, AL:, AC: or DU: frame of
    length at least 3 leaves the ground state, the battery status and
    the prompt flag as they were; decoding the frame is one log append
    or one redraw of a data field. *)
Theorem display_frames_change_no_entity (t : Tick) (f : Frame) (w : Sketch) :
  recvfromAck t = Some f ->
  existsb (tagged f) ["MS:"; "ER:"; "AL:"; "AC:"; "DU:"] = true ->
  let echoed := on_Serial [Serial_println (frame_text f)] w in
  entities (loop t w) = entities w /\
  ((exists line, decodeFrame f w = printOledMessage line echoed) \/
   (exists ty, decodeFrame f w = printOledData ty (frame_payload f) echoed)).
Proof.
  intros Hf Ht echoed. rewrite loop_entities. unfold receive. rewrite Hf.
  cbn [existsb] in Ht.
  assert (Hd : (exists line, decodeFrame f w = printOledMessage line echoed) \/
               (exists ty, decodeFrame f w =
                           printOledData ty (frame_payload f) echoed)).
  { repeat (apply orb_prop in Ht; destruct Ht as [Ht|Ht]);
      try discriminate.
    - left. eexists. apply decodeFrame_MS, Ht.
    - left. eexists. apply decodeFrame_ER, Ht.
    - right. eexists. apply decodeFrame_AL, Ht.
    - right. eexists. apply decodeFrame_AC, Ht.
    - right. eexists. apply decodeFrame_DU, Ht. }
  split; [|exact Hd].
  destruct Hd as [[line ->]|[ty ->]].
  - rewrite printOledMessage_entities. reflexivity.
  - rewrite printOledData_entities. reflexivity.
Qed.

Lemma display_frames_change_no_entity_witness :
  let t := with_frame (frame_of "MS:Ignition") (idle 1000) in
  entities (loop t initSketch) = entities initSketch.
Proof.
  intros t.
  apply (display_frames_change_no_entity t (frame_of "MS:Ignition")
           initSketch); reflexivity.
Defined.

(** C6, as the code has it. A frame that does not decode changes no
    entity and no data field.  One shorter than 3 bytes is dropped
    with no effect whatever, not even a log line: the tick goes as if
    the radio had had nothing.  One of 3 bytes or more with an unknown
    prefix is reported by exactly one "Invalid message" line. *)
Theorem undecodable_frame (f : Frame) (t : Tick) (w : Sketch) :
  (3 <=? messageLength f) && recognised f = false ->
  decodeFrame f w =
  (if 3 <=? messageLength f
   then printOledMessage "Invalid message"
          (on_Serial [Serial_println (frame_text f)] w)
   else w) /\
  (if 3 <=? messageLength f then True
   else loop (with_frame f t) w = loop (without_frame t) w) /\
  entities (decodeFrame f w) = entities w /\
  displayB (decodeFrame f w) = displayB w.
Proof.
  intros H.
  destruct (Z.leb_spec 3 (messageLength f)) as [Hl|Hl].
  - cbn [andb] in H. rewrite (decodeFrame_invalid f w Hl H).
    split; [reflexivity|]. split; [exact I|].
    destruct (printOledMessage_shape "Invalid message"
                (on_Serial [Serial_println (frame_text f)] w))
      as (l & ops & ->).
    split; reflexivity.
  - rewrite (decodeFrame_short f w Hl). split; [reflexivity|].
    split; [|split; reflexivity].
    unfold loop, receive. cbn [recvfromAck with_frame without_frame].
    rewrite (decodeFrame_short f w Hl). reflexivity.
Qed.

Lemma undecodable_frame_witness :
  let f := {| messageLength := 2; messageBuffer := "ST" |} in
  decodeFrame f initSketch = initSketch /\
  loop (with_frame f (idle 1000)) initSketch = loop (idle 1000) initSketch /\
  entities (decodeFrame f initSketch) = entities initSketch /\
  displayB (decodeFrame f initSketch) = displayB initSketch.
Proof.
  intros f. apply (undecodable_frame f (idle 1000) initSketch). reflexivity.
Defined.

(** C6 as stated fails: a 2-byte frame is not reported; the log and
    panel A stay as they were, whereas a report would have added the
    line "Invalid message". *)
Lemma short_frame_is_not_reported :
  let f := {| messageLength := 2; messageBuffer := "ST" |} in
  messageLength f < 3 /\
  stored (decodeFrame f initSketch) = [] /\
  displayA (decodeFrame f initSketch) = [] /\
  stored (printOledMessage "Invalid message" initSketch) =
  ["Invalid message"].
Proof. cbn. repeat split; reflexivity. Qed.




End Frames.

(** ** The debouncer *)

Section DebounceArrays.

Lemma arrays_ok_init : arrays_ok initDebounce.
Proof. repeat split. Qed.

Lemma three_cells (a : list Z) :
  List.length a = 3%nat -> exists x y z, a = [x; y; z].
Proof.
  destruct a as [|x [|y [|z [|? ?]]]]; try discriminate.
  intros _. exists x, y, z. reflexivity.
Qed.

Lemma store_nat_length (a : list Z) (i : nat) (v : Z) :
  List.length (store_nat a i v) = List.length a.
Proof.
  revert i; induction a as [|h t IH]; intros [|i]; simpl; auto.
Qed.

Lemma store_length (a : list Z) (i v : Z) :
  List.length (store a i v) = List.length a.
Proof.
  unfold store. destruct (i <? 0); [reflexivity | apply store_nat_length].
Qed.

Lemma store_nat_same (a : list Z) (i : nat) (v : Z) :
  (i < List.length a)%nat -> nth i (store_nat a i v) 0 = v.
Proof.
  revert i; induction a as [|h t IH]; intros [|i] H; simpl in *;
    try lia; auto. apply IH. lia.
Qed.

Lemma store_nat_other (a : list Z) (i j : nat) (v : Z) :
  i <> j -> nth j (store_nat a i v) 0 = nth j a 0.
Proof.
  revert i j; induction a as [|h t IH]; intros [|i] [|j] H; simpl;
    try reflexivity; try congruence. apply IH. congruence.
Qed.

Lemma cell_store_same (a : list Z) (i v : Z) :
  0 <= i -> (Z.to_nat i < List.length a)%nat -> cell (store a i v) i = v.
Proof.
  intros H0 H. unfold cell, store.
  destruct (Z.ltb_spec i 0); [lia|]. apply store_nat_same, H.
Qed.

Lemma cell_store_other (a : list Z) (i j v : Z) :
  0 <= i -> 0 <= j -> i <> j -> cell (store a i v) j = cell a j.
Proof.
  intros Hi Hj H. unfold cell, store.
  destruct (Z.ltb_spec i 0); [lia|]. apply store_nat_other. lia.
Qed.

(** [buttonReleased] acts on the cells of its button as
    [debounce_step] says, keeps the arrays at their size and leaves
    the cells of the other buttons alone. *)
Lemma buttonReleased_cells (b : Z) (pin : PinRead) (d : Debounce) :
  arrays_ok d -> 0 <= b < 3 ->
  fst (buttonReleased b pin d) = fst (debounce_step pin (cells b d)) /\
  cells b (snd (buttonReleased b pin d)) =
    snd (debounce_step pin (cells b d)) /\
  arrays_ok (snd (buttonReleased b pin d)) /\
  (forall j, 0 <= j < 3 -> j <> b ->
             cells j (snd (buttonReleased b pin d)) = cells j d).
Proof.
  intros (H1 & H2 & H3) Hb.
  destruct d as [st rw tm].
  cbn [buttonStates lastButtonStates lastDebounceTime] in *.
  assert (Hn : (Z.to_nat b < 3)%nat) by lia.
  unfold buttonReleased, debounce_step, cells, arrays_ok.
  cbn [buttonStates lastButtonStates lastDebounceTime stable raw changed_at].
  set (reading := digitalRead pin).
  set (now := millis_reset pin mod ULONG_MOD).
  destruct (Z.eqb_spec reading (cell rw b)) as [E1|E1]; cbn [negb];
    cbn [buttonStates lastButtonStates lastDebounceTime];
    rewrite ?cell_store_same by lia;
    (destruct (DEBOUNCE_DELAY <? _); cbn [andb fst snd];
     [destruct (Z.eqb_spec reading (cell st b)) as [E3|E3]; cbn [negb]|]);
    cbn [buttonStates lastButtonStates lastDebounceTime fst snd];
    rewrite ?cell_store_same by lia;
    try (destruct (reading =? NOT_PRESSED));
    cbn [buttonStates lastButtonStates lastDebounceTime fst snd];
    rewrite ?cell_store_same, ?store_length by lia;
    (split; [reflexivity|]);
    (split; [congruence|]);
    (split; [auto|]);
    intros j Hj Hne; rewrite ?cell_store_other by lia; reflexivity.
Qed.

End DebounceArrays.

Section OneButton.

Lemma ULONG_MOD_value : ULONG_MOD = 4294967296.
Proof. reflexivity. Qed.

Lemma elapsed_small (a b : Z) :
  0 <= a <= b -> b < ULONG_MOD -> (b - a) mod ULONG_MOD = b - a.
Proof.
  intros H Hb. rewrite ULONG_MOD_value in *. apply Z.mod_small. lia.
Qed.

Lemma last_cons {A} (l : list A) (x d : A) : last (x :: l) d = last l x.
Proof.
  revert x d. induction l as [|y l IH]; intros x d; [reflexivity|].
  change (last (x :: y :: l) d) with (last (y :: l) d).
  rewrite !IH. reflexivity.
Qed.

Lemma poll_cells_ok (b : Z) (pins : list PinRead) (d : Debounce) :
  arrays_ok d -> 0 <= b < 3 ->
  fst (poll b pins d) = fst (poll_cells pins (cells b d)) /\
  cells b (snd (poll b pins d)) = snd (poll_cells pins (cells b d)) /\
  arrays_ok (snd (poll b pins d)).
Proof.
  intros Hd Hb. revert d Hd.
  induction pins as [|p ps IH]; intros d Hd;
    [split; [reflexivity | split; [reflexivity | exact Hd]]|].
  destruct (buttonReleased_cells b p d Hd Hb) as (He & Hc & Hok & _).
  cbn [poll poll_cells].
  destruct (buttonReleased b p d) as [e d1].
  destruct (debounce_step p (cells b d)) as [e' c1].
  cbn [fst snd] in *. subst e' c1.
  destruct (IH d1 Hok) as (IH1 & IH2 & IH3).
  destruct (poll b ps d1) as [es d2].
  destruct (poll_cells ps (cells b d1)) as [es' c2].
  cbn [fst snd] in *. subst.
  split; [reflexivity | split; [reflexivity | exact IH3]].
Qed.

Lemma poll_cells_app (ps qs : list PinRead) (c : ButtonCells) :
  fst (poll_cells (ps ++ qs) c) =
  fst (poll_cells ps c) ++ fst (poll_cells qs (snd (poll_cells ps c))).
Proof.
  revert c; induction ps as [|p ps IH]; intros c; [reflexivity|].
  cbn [app poll_cells].
  destruct (debounce_step p c) as [e c1]. specialize (IH c1).
  destruct (poll_cells (ps ++ qs) c1) as [es c2].
  destruct (poll_cells ps c1) as [es1 c3].
  cbn [fst snd] in *. rewrite IH. reflexivity.
Qed.

(** *** While the contact bounces *)

Section Bouncing.

Variable t0 : Z.
Hypothesis t0_pos : 0 <= t0.
Hypothesis t0_fits : t0 + DEBOUNCE_DELAY < ULONG_MOD.

Lemma bounce_step (p : PinRead) (c : ButtonCells) (now : Z) :
  bouncing t0 now c -> t0 <= now ->
  now <= millis_reset p <= millis_check p ->
  millis_check p <= t0 + DEBOUNCE_DELAY ->
  fst (debounce_step p c) = false /\
  bouncing t0 (millis_check p) (snd (debounce_step p c)).
Proof.
  intros [Hs Hr] Hnow Hp Hup. unfold debounce_step, bouncing.
  unfold DEBOUNCE_DELAY in *. cbn [fst snd stable raw changed_at].
  destruct (Z.eqb_spec (digitalRead p) (raw c)) as [E|E].
  - destruct Hr as [Hr|Hr].
    + rewrite E, Hr, Hs, Z.eqb_refl. cbn [negb].
      rewrite !andb_false_r. cbn [andb].
      split; [reflexivity|]. split; [reflexivity | left; reflexivity].
    + rewrite elapsed_small by lia.
      destruct (Z.ltb_spec 50 (millis_check p - changed_at c)); [lia|].
      cbn [andb]. split; [reflexivity|].
      split; [assumption | right; lia].
  - rewrite (Z.mod_small (millis_reset p)) by (rewrite ULONG_MOD_value in *; lia).
    rewrite elapsed_small by lia.
    destruct (Z.ltb_spec 50 (millis_check p - millis_reset p)); [lia|].
    cbn [andb]. split; [reflexivity|].
    split; [assumption | right; lia].
Qed.

Lemma bounce_phase (pins : list PinRead) (c : ButtonCells) (now : Z) :
  bouncing t0 now c -> t0 <= now ->
  clock_runs now (t0 + DEBOUNCE_DELAY) pins = true ->
  fst (poll_cells pins c) = repeat false (List.length pins) /\
  stable (snd (poll_cells pins c)) = PRESSED /\
  raw (snd (poll_cells pins c)) = last (map digitalRead pins) (raw c).
Proof.
  revert c now. induction pins as [|p ps IH]; intros c now Hc Hnow Hrun.
  - destruct Hc as [Hs _]. repeat split. exact Hs.
  - cbn [clock_runs] in Hrun.
    apply andb_prop in Hrun. destruct Hrun as [Hrun Hrest].
    apply andb_prop in Hrun. destruct Hrun as [Hrun H3].
    apply andb_prop in Hrun. destruct Hrun as [H1 H2].
    apply Z.leb_le in H1, H2, H3.
    destruct (bounce_step p c now Hc Hnow (conj H1 H2) H3) as [He Hc1].
    assert (Hraw : raw (snd (debounce_step p c)) = digitalRead p)
      by reflexivity.
    cbn [poll_cells].
    destruct (debounce_step p c) as [e c1]. cbn [fst snd] in *. subst e.
    destruct (IH c1 (millis_check p) Hc1 ltac:(lia) Hrest)
      as (IH1 & IH2 & IH3).
    destruct (poll_cells ps c1) as [es c2]. cbn [fst snd] in *.
    split; [cbn; rewrite IH1; reflexivity|]. split; [exact IH2|].
    rewrite IH3, Hraw. cbn [map]. rewrite last_cons. reflexivity.
Qed.

End Bouncing.

(** *** Once the contact rests open *)

Section Settling.

(** [T] is the clock at the last change of the level read. *)
Variable T : Z.
Hypothesis T_pos : 0 <= T.

Lemma settle_first (p : PinRead) (c : ButtonCells) :
  stable c = PRESSED -> raw c = PRESSED ->
  digitalRead p = NOT_PRESSED -> millis_reset p = T ->
  T <= millis_check p <= T + DEBOUNCE_DELAY ->
  T + DEBOUNCE_DELAY < ULONG_MOD ->
  debounce_step p c = (false, waiting T).
Proof.
  intros Hs Hr Hp HT Hw Hfit. unfold debounce_step, waiting.
  unfold DEBOUNCE_DELAY in *. rewrite Hs, Hr, Hp, HT.
  change (NOT_PRESSED =? PRESSED) with false. cbv iota.
  rewrite (Z.mod_small T) by (rewrite ULONG_MOD_value in *; lia).
  rewrite elapsed_small by lia.
  destruct (Z.ltb_spec 50 (millis_check p - T)); [lia|]. reflexivity.
Qed.

Lemma wait_step (p : PinRead) :
  digitalRead p = NOT_PRESSED ->
  T <= millis_check p <= T + DEBOUNCE_DELAY ->
  T + DEBOUNCE_DELAY < ULONG_MOD ->
  debounce_step p (waiting T) = (false, waiting T).
Proof.
  intros Hp Hw Hfit. unfold debounce_step, waiting.
  unfold DEBOUNCE_DELAY in *. cbn [stable raw changed_at]. rewrite Hp.
  rewrite Z.eqb_refl. rewrite elapsed_small by lia.
  destruct (Z.ltb_spec 50 (millis_check p - T)); [lia|]. reflexivity.
Qed.

Lemma commit_step (p : PinRead) :
  digitalRead p = NOT_PRESSED ->
  T + DEBOUNCE_DELAY < millis_check p < ULONG_MOD ->
  debounce_step p (waiting T) = (true, rested T).
Proof.
  intros Hp Hw. unfold debounce_step, waiting, rested.
  unfold DEBOUNCE_DELAY in *. cbn [stable raw changed_at]. rewrite Hp.
  rewrite Z.eqb_refl. rewrite elapsed_small by lia.
  destruct (Z.ltb_spec 50 (millis_check p - T)); [|lia]. reflexivity.
Qed.

Lemma rest_step (p : PinRead) :
  digitalRead p = NOT_PRESSED ->
  debounce_step p (rested T) = (false, rested T).
Proof.
  intros Hp. unfold debounce_step, rested.
  cbn [stable raw changed_at]. rewrite Hp, Z.eqb_refl. cbn [negb].
  rewrite andb_false_r. reflexivity.
Qed.

Lemma wait_phase (pins : list PinRead) :
  all_released pins = true -> within_window T pins = true ->
  T + DEBOUNCE_DELAY < ULONG_MOD ->
  poll_cells pins (waiting T) =
  (repeat false (List.length pins), waiting T).
Proof.
  intros Hr Hw Hfit. induction pins as [|p ps IH]; [reflexivity|].
  cbn [all_released within_window forallb] in Hr, Hw.
  apply andb_prop in Hr. destruct Hr as [Hp Hr].
  apply andb_prop in Hw. destruct Hw as [Hpw Hw].
  apply andb_prop in Hpw. destruct Hpw as [H1 H2].
  apply Z.eqb_eq in Hp. apply Z.leb_le in H1, H2.
  cbn [poll_cells]. rewrite (wait_step p Hp (conj H1 H2) Hfit).
  rewrite (IH Hr Hw). reflexivity.
Qed.

Lemma rest_phase (pins : list PinRead) :
  all_released pins = true ->
  poll_cells pins (rested T) =
  (repeat false (List.length pins), rested T).
Proof.
  intros Hr. induction pins as [|p ps IH]; [reflexivity|].
  cbn [all_released forallb] in Hr.
  apply andb_prop in Hr. destruct Hr as [Hp Hr]. apply Z.eqb_eq in Hp.
  cbn [poll_cells]. rewrite (rest_step p Hp), (IH Hr). reflexivity.
Qed.

End Settling.

Lemma all_released_app (ps qs : list PinRead) :
  all_released (ps ++ qs) = all_released ps && all_released qs.
Proof. apply forallb_app. Qed.

(** From a button committed as pressed and read as pressed: a bounce
    inside one window, a last change to "released" at [p0], reads
    inside the window opened there, and [s] the first read past it. *)
Lemma one_release_cells (c : ButtonCells) (t0 : Z)
    (bounce : list PinRead) (p0 : PinRead) (early : list PinRead)
    (s : PinRead) (late : list PinRead) :
  stable c = PRESSED -> raw c = PRESSED ->
  0 <= t0 -> t0 + DEBOUNCE_DELAY < ULONG_MOD ->
  clock_runs t0 (t0 + DEBOUNCE_DELAY) bounce = true ->
  last (map digitalRead bounce) PRESSED = PRESSED ->
  all_released (p0 :: early ++ s :: late) = true ->
  0 <= millis_reset p0 ->
  within_window (millis_reset p0) (p0 :: early) = true ->
  millis_reset p0 + DEBOUNCE_DELAY < millis_check s < ULONG_MOD ->
  fst (poll_cells (bounce ++ p0 :: early ++ s :: late) c) =
  repeat false (List.length bounce + S (List.length early)) ++
  true :: repeat false (List.length late).
Proof.
  intros Hs Hr Ht0 Hfit Hrun Hlast Hrel HT Hwin Hpast.
  set (T := millis_reset p0) in *.
  assert (HTfit : T + DEBOUNCE_DELAY < ULONG_MOD) by lia.
  destruct (bounce_phase t0 Ht0 Hfit bounce c t0) as (Hb1 & Hb2 & Hb3);
    [split; [exact Hs | left; exact Hr] | lia | exact Hrun |].
  rewrite Hr, Hlast in Hb3.
  rewrite poll_cells_app, Hb1, repeat_app, <- app_assoc. f_equal.
  change (p0 :: early ++ s :: late) with (p0 :: (early ++ s :: late)) in Hrel.
  cbn [all_released forallb] in Hrel.
  apply andb_prop in Hrel. destruct Hrel as [Hp0 Hrel].
  fold (all_released (early ++ s :: late)) in Hrel.
  rewrite all_released_app in Hrel.
  apply andb_prop in Hrel. destruct Hrel as [Hearly Hrel].
  cbn [all_released forallb] in Hrel.
  apply andb_prop in Hrel. destruct Hrel as [Hsr Hlate].
  apply Z.eqb_eq in Hp0, Hsr.
  cbn [within_window forallb] in Hwin.
  apply andb_prop in Hwin. destruct Hwin as [Hw0 Hwin].
  apply andb_prop in Hw0. destruct Hw0 as [H1 H2].
  apply Z.leb_le in H1, H2.
  cbn [poll_cells].
  rewrite (settle_first T HT p0 _ Hb2 Hb3 Hp0 eq_refl (conj H1 H2) HTfit).
  pose proof (poll_cells_app early (s :: late) (waiting T)) as Happ.
  rewrite (wait_phase T HT early Hearly Hwin HTfit) in Happ.
  cbn [fst snd poll_cells] in Happ.
  rewrite (commit_step T HT s Hsr Hpast) in Happ.
  rewrite (rest_phase T late Hlate) in Happ. cbn [fst] in Happ.
  destruct (poll_cells (early ++ s :: late) (waiting T)) as [es c'].
  cbn [fst] in *. subst es. reflexivity.
Qed.

(** A read of "pressed" never reports a release. *)
Lemma pressed_is_silent (b : Z) (pin : PinRead) (d : Debounce) :
  arrays_ok d -> 0 <= b < 3 -> digitalRead pin = PRESSED ->
  fst (buttonReleased b pin d) = false.
Proof.
  intros Hd Hb Hp.
  destruct (buttonReleased_cells b pin d Hd Hb) as (-> & _).
  unfold debounce_step. cbn [fst]. rewrite Hp.
  change (PRESSED =? NOT_PRESSED) with false. apply andb_false_r.
Qed.

End OneButton.

Section Debouncer.

(** C5, as the code has it. Take a button whose committed level is
    "pressed" (the press was held past the window) and which was last
    read as pressed.  Let the level bounce inside one 50 ms window,
    change for the last time, to "released", at [p0], and be read
    released from then on.  Then the calls of [buttonReleased] report
    exactly one release: none while the level bounces, none during the
    window opened at the last change, one at [s], the first call whose
    stability test comes more than 50 ms after that change, and none
    after it.  A call that reads "pressed" reports nothing. *)
Theorem one_release_after_settling (b : Z) (d : Debounce) (t0 : Z)
    (bounce : list PinRead) (p0 : PinRead) (early : list PinRead)
    (s : PinRead) (late : list PinRead) :
  arrays_ok d -> 0 <= b < 3 ->
  cell (buttonStates d) b = PRESSED ->
  cell (lastButtonStates d) b = PRESSED ->
  0 <= t0 -> t0 + DEBOUNCE_DELAY < ULONG_MOD ->
  clock_runs t0 (t0 + DEBOUNCE_DELAY) bounce = true ->
  last (map digitalRead bounce) PRESSED = PRESSED ->
  all_released (p0 :: early ++ s :: late) = true ->
  0 <= millis_reset p0 ->
  within_window (millis_reset p0) (p0 :: early) = true ->
  millis_reset p0 + DEBOUNCE_DELAY < millis_check s < ULONG_MOD ->
  fst (poll b (bounce ++ p0 :: early ++ s :: late) d) =
    repeat false (List.length bounce + S (List.length early)) ++
    true :: repeat false (List.length late) /\
  (forall pin d', arrays_ok d' -> digitalRead pin = PRESSED ->
                  fst (buttonReleased b pin d') = false).
Proof.
  intros Hd Hb Hs Hr Ht0 Hfit Hrun Hlast Hrel HT Hwin Hpast. split.
  - destruct (poll_cells_ok b (bounce ++ p0 :: early ++ s :: late) d Hd Hb)
      as (-> & _).
    apply (one_release_cells (cells b d) t0); assumption.
  - intros pin d' Hd' Hp. apply pressed_is_silent; assumption.
Qed.

(** Button A held since clock 1000, bouncing open and closed between
    2000 and 2030, open from 2040 on. *)
Lemma one_release_after_settling_witness :
  let d := {| buttonStates := [PRESSED; NOT_PRESSED; NOT_PRESSED];
              lastButtonStates := [PRESSED; NOT_PRESSED; NOT_PRESSED];
              lastDebounceTime := [1000; 0; 0] |} in
  fst (poll BUTTON_A
         ([read_at NOT_PRESSED 2000; read_at PRESSED 2010;
           read_at NOT_PRESSED 2020; read_at PRESSED 2030] ++
          read_at NOT_PRESSED 2040 ::
          [read_at NOT_PRESSED 2050; read_at NOT_PRESSED 2090] ++
          read_at NOT_PRESSED 2100 ::
          [read_at NOT_PRESSED 2110; read_at NOT_PRESSED 2120]) d) =
  [false; false; false; false; false; false; false; true; false; false].
Proof.
  intros d.
  apply (one_release_after_settling BUTTON_A d 2000
           [read_at NOT_PRESSED 2000; read_at PRESSED 2010;
            read_at NOT_PRESSED 2020; read_at PRESSED 2030]
           (read_at NOT_PRESSED 2040)
           [read_at NOT_PRESSED 2050; read_at NOT_PRESSED 2090]
           (read_at NOT_PRESSED 2100)
           [read_at NOT_PRESSED 2110; read_at NOT_PRESSED 2120]);
    try reflexivity; try (repeat split; reflexivity);
    try (cbv; intuition discriminate).
Defined.

(** C5 as stated fails: from the initial arrays (nothing committed as
    pressed), a level that bounces pressed, released, pressed,
    released within 30 ms and then stays released is never reported,
    however long it is read afterwards. *)
Lemma short_press_gives_no_release :
  fst (poll BUTTON_A
         [read_at PRESSED 1000; read_at NOT_PRESSED 1010;
          read_at PRESSED 1020; read_at NOT_PRESSED 1030;
          read_at NOT_PRESSED 1040; read_at NOT_PRESSED 1081;
          read_at NOT_PRESSED 1200; read_at NOT_PRESSED 5000]
         initDebounce) =
  [false; false; false; false; false; false; false; false].
Proof. vm_compute. reflexivity. Qed.

End Debouncer.

(** ** Buttons and commands *)

Section Commands.

Lemma receive_radio t w :
  radioManager (receive t w) = radioManager w /\
  debounce (receive t w) = debounce w.
Proof.
  unfold receive. destruct (recvfromAck t);
    [apply decodeFrame_radio | split; reflexivity].
Qed.

Lemma loop_currentState_quiet t w :
  no_status [t] = true -> currentState (loop t w) = currentState w.
Proof.
  intros H. rewrite loop_currentState.
  cbn [no_status forallb] in H. rewrite andb_true_r in H.
  destruct (recvfromAck t) as [f|]; [|reflexivity].
  apply negb_true_iff in H. rewrite H. reflexivity.
Qed.

Lemma run_currentState_quiet ts w :
  no_status ts = true -> currentState (run ts w) = currentState w.
Proof.
  revert w. induction ts as [|t ts IH]; intros w H; [reflexivity|].
  cbn [no_status forallb] in H. apply andb_prop in H. destruct H as [Ht H].
  unfold run. cbn [fold_left]. fold (run ts (loop t w)).
  rewrite (IH _ H). apply loop_currentState_quiet.
  cbn [no_status forallb]. rewrite Ht. reflexivity.
Qed.

Lemma getYesOrNo_cases (pb pc : PinRead) (d : Debounce) :
  getYesOrNo pb pc d =
  let rb := buttonReleased BUTTON_B pb d in
  if fst rb then (YES, snd rb)
  else
    let rc := buttonReleased BUTTON_C pc (snd rb) in
    if fst rc then (NO, snd rc) else (MAYBE, snd rc).
Proof.
  unfold getYesOrNo. cbv zeta.
  destruct (buttonReleased BUTTON_B pb d) as [[|] d1]; [reflexivity|].
  cbn [fst snd].
  destruct (buttonReleased BUTTON_C pc d1) as [[|] d2]; reflexivity.
Qed.

(** What the button-A block sends. *)
Lemma armDisarm_sent (p : PinRead) (k : bool) (w : Sketch) :
  sent_between w (armDisarm p k w)
    (if fst (buttonReleased BUTTON_A p (debounce w)) then
       match currentState w with
       | READY => [command "arm"]
       | ARMED => [command "disarm"]
       | _ => []
       end
     else []).
Proof.
  unfold armDisarm, sent_between.
  destruct (buttonReleased BUTTON_A p (debounce w)) as [[|] d];
    cbn [fst]; [|rewrite app_nil_r; reflexivity].
  change (currentState (with_debounce d w)) with (currentState w).
  destruct (currentState w); try (cbn; rewrite app_nil_r; reflexivity).
  - apply (sendRadioMessage_sent "arm" UPGOV_ADDR k (with_debounce d w)).
  - apply (sendRadioMessage_sent "disarm" UPGOV_ADDR k (with_debounce d w)).
Qed.

(** What the prompt block sends. *)
Lemma answerPrompt_sent (pb pc : PinRead) (k : bool) (w : Sketch) :
  sent_between w (answerPrompt pb pc k w)
    (if AT_Recieved w then
       if fst (buttonReleased BUTTON_B pb (debounce w))
       then [command "again"]
       else if fst (buttonReleased BUTTON_C pc
                      (snd (buttonReleased BUTTON_B pb (debounce w))))
            then [command "no"]
            else []
     else []).
Proof.
  unfold answerPrompt, sent_between.
  destruct (AT_Recieved w); [|rewrite app_nil_r; reflexivity].
  rewrite getYesOrNo_cases. cbv zeta.
  destruct (buttonReleased BUTTON_B pb (debounce w)) as [[|] d1];
    cbn [fst snd].
  - apply (sendRadioMessage_sent "again" UPGOV_ADDR k (with_debounce d1 w)).
  - destruct (buttonReleased BUTTON_C pc d1) as [[|] d2]; cbn [fst snd].
    + apply (sendRadioMessage_sent "no" UPGOV_ADDR k (with_debounce d2 w)).
    + cbn. rewrite app_nil_r. reflexivity.
Qed.

(** The prompt block sends nothing, "again" or "no". *)
Lemma answerPrompt_sent_cases (pb pc : PinRead) (k : bool) (w : Sketch) :
  exists ds, sent_between w (answerPrompt pb pc k w) ds /\
             (ds = [] \/ ds = [command "again"] \/ ds = [command "no"]).
Proof.
  eexists. split; [apply answerPrompt_sent|].
  destruct (AT_Recieved w); [|left; reflexivity].
  destruct (fst (buttonReleased BUTTON_B pb (debounce w)));
    [right; left; reflexivity|].
  destruct (fst (buttonReleased BUTTON_C pc _));
    [right; right; reflexivity | left; reflexivity].
Qed.

Lemma receive_AT_Recieved (t : Tick) (w : Sketch) :
  AT_Recieved (receive t w) =
  match recvfromAck t with
  | Some f => tagged f "AT:" || AT_Recieved w
  | None => AT_Recieved w
  end.
Proof.
  unfold receive. destruct (recvfromAck t) as [f|]; [|reflexivity].
  destruct (tagged f "AT:") eqn:E.
  - rewrite (decodeFrame_AT _ _ E). reflexivity.
  - apply decodeFrame_AT_Recieved_other, E.
Qed.

(** C3. The ground state meant is the one the button-A block finds,
    that is, after the frame of the tick, if any, has been decoded.
    When [buttonReleased] reports a release of button A, the block
    sends exactly one "arm" if that state is READY, exactly one "disarm"
    if it is ARMED, and nothing in any other state; over the whole tick
    nothing else is sent but, possibly, one answer to a pending prompt.
    The ground state is not touched by the block nor by the rest of the
    tick, it stays as it is through every later tick that brings no ST:
    frame, and a later ST:ARMED frame makes it ARMED. *)
Theorem button_A_arms_or_disarms (t : Tick) (w : Sketch)
    (ts : list Tick) (t' : Tick) :
  let w1 := receive t w in
  let w2 := armDisarm (pinA t) (ackA t) w1 in
  let sent := match currentState w1 with
              | READY => [command "arm"]
              | ARMED => [command "disarm"]
              | _ => []
              end in
  fst (buttonReleased BUTTON_A (pinA t) (debounce w1)) = true ->
  no_status ts = true ->
  sent_between w1 w2 sent /\
  (exists answer,
      sent_between w (loop t w) (sent ++ answer) /\
      (answer = [] \/ answer = [command "again"] \/
       answer = [command "no"])) /\
  currentState w2 = currentState w1 /\
  currentState (loop t w) = currentState w1 /\
  currentState (run ts (loop t w)) = currentState w1 /\
  currentState (loop (with_frame (frame_of "ST:ARMED") t')
                  (run ts (loop t w))) = ARMED.
Proof.
  intros w1 w2 sent Hrel Hq.
  assert (H1 : sent_between w1 w2 sent).
  { pose proof (armDisarm_sent (pinA t) (ackA t) w1) as H.
    rewrite Hrel in H. exact H. }
  assert (H2 : currentState w2 = currentState w1).
  { exact (f_equal (fun e => fst (fst e))
             (proj1 (armDisarm_entities (pinA t) (ackA t) w1))). }
  assert (H3 : currentState (loop t w) = currentState w1).
  { exact (f_equal (fun e => fst (fst e)) (loop_entities t w)). }
  split; [exact H1|]. split; [|split; [exact H2 | split; [exact H3 | split]]].
  - destruct (answerPrompt_sent_cases (pinB t) (pinC t) (ackP t) w2)
      as (answer & Ha & Hcases).
    exists answer. split; [|exact Hcases].
    unfold sent_between in *. unfold loop. fold w1. fold w2.
    rewrite Ha, H1. unfold w1. rewrite (proj1 (receive_radio t w)).
    rewrite app_assoc. reflexivity.
  - rewrite (run_currentState_quiet ts _ Hq). exact H3.
  - rewrite loop_currentState. reflexivity.
Qed.

Lemma button_A_arms_or_disarms_witness :
  let w := run [with_frame (frame_of "ST:READY") (idle 1000);
                pins_at PRESSED NOT_PRESSED NOT_PRESSED 2000;
                pins_at PRESSED NOT_PRESSED NOT_PRESSED 2100;
                pins_at NOT_PRESSED NOT_PRESSED NOT_PRESSED 3000]
             initSketch in
  let t := pins_at NOT_PRESSED NOT_PRESSED NOT_PRESSED 3100 in
  sent_between (receive t w) (armDisarm (pinA t) (ackA t) (receive t w))
    [command "arm"] /\
  currentState (loop t w) = READY /\
  currentState
    (loop (with_frame (frame_of "ST:ARMED") (idle 3300))
       (run [idle 3200] (loop t w))) = ARMED.
Proof.
  intros w t.
  destruct (button_A_arms_or_disarms t w [idle 3200] (idle 3300))
    as (H1 & _ & _ & H3 & _ & H5); [reflexivity | reflexivity |].
  split; [exact H1 | split; [exact H3 | exact H5]].
Defined.

End Commands.

(** ** The prompt *)

Section Prompt.

(** C1, as the code has it. The prompt flag is set by an AT: frame
    and by nothing else, and no tick ever clears it: after a tick it
    is set if it was set before or the tick brought an AT: frame.
    While it is set, a tick in which button B reports a release sends
    exactly one "again", and a tick in which button B reports none
    and button C reports one sends exactly one "no"; the flag stays
    set after the answer.  While it is not set the prompt block does
    nothing at all: it sends nothing and reads no button. *)
Theorem prompt_is_answered_but_stays_open (t : Tick) (w : Sketch) :
  let w1 := receive t w in
  let w2 := armDisarm (pinA t) (ackA t) w1 in
  let d2 := debounce w2 in
  let b := fst (buttonReleased BUTTON_B (pinB t) d2) in
  let c := fst (buttonReleased BUTTON_C (pinC t)
                  (snd (buttonReleased BUTTON_B (pinB t) d2))) in
  AT_Recieved w1 =
    match recvfromAck t with
    | Some f => tagged f "AT:" || AT_Recieved w
    | None => AT_Recieved w
    end /\
  AT_Recieved (loop t w) = AT_Recieved w1 /\
  sent_between w2 (loop t w)
    (if AT_Recieved w1 then
       if b then [command "again"]
       else if c then [command "no"] else []
     else []) /\
  (if AT_Recieved w1 then True else loop t w = w2).
Proof.
  intros w1 w2 d2 b c.
  assert (H12 : AT_Recieved w2 = AT_Recieved w1).
  { exact (f_equal snd (proj1 (armDisarm_entities (pinA t) (ackA t) w1))). }
  split; [apply receive_AT_Recieved|].
  split; [exact (f_equal snd (loop_entities t w))|].
  split.
  - rewrite <- H12. apply answerPrompt_sent.
  - rewrite <- H12. unfold loop. fold w1. fold w2. unfold answerPrompt.
    destruct (AT_Recieved w2); [exact I | reflexivity].
Qed.

(** C1 as stated fails: the flag is still set after the answer, and a
    later release of button B, with no new AT: frame, sends "again" a
    second time. *)
Lemma answered_prompt_is_not_cleared :
  let w := run [with_frame (frame_of "AT:") (idle 1000);
                pins_at NOT_PRESSED PRESSED NOT_PRESSED 2000;
                pins_at NOT_PRESSED PRESSED NOT_PRESSED 2100;
                pins_at NOT_PRESSED NOT_PRESSED NOT_PRESSED 3000;
                pins_at NOT_PRESSED NOT_PRESSED NOT_PRESSED 3100]
             initSketch in
  let w' := run [pins_at NOT_PRESSED PRESSED NOT_PRESSED 4000;
                 pins_at NOT_PRESSED PRESSED NOT_PRESSED 4100;
                 pins_at NOT_PRESSED NOT_PRESSED NOT_PRESSED 5000;
                 pins_at NOT_PRESSED NOT_PRESSED NOT_PRESSED 5100] w in
  radioManager w = [command "again"] /\
  AT_Recieved w = true /\
  radioManager w' = [command "again"; command "again"].
Proof. vm_compute. repeat split. Qed.

End Prompt.

Section Precedence.

Lemma sendRadioMessage_debounce m a k w :
  debounce (snd (sendRadioMessage m a k w)) = debounce w.
Proof. apply sendRadioMessage_entities. Qed.

Lemma armDisarm_debounce p k w :
  debounce (armDisarm p k w) = snd (buttonReleased BUTTON_A p (debounce w)).
Proof.
  unfold armDisarm.
  destruct (buttonReleased BUTTON_A p (debounce w)) as [[|] d];
    [|reflexivity].
  cbn [snd]. destruct (currentState (with_debounce d w));
    try reflexivity; apply sendRadioMessage_debounce.
Qed.

Lemma answerPrompt_debounce pb pc k w :
  debounce (answerPrompt pb pc k w) =
  if AT_Recieved w then snd (getYesOrNo pb pc (debounce w))
  else debounce w.
Proof.
  unfold answerPrompt. destruct (AT_Recieved w); [|reflexivity].
  destruct (getYesOrNo pb pc (debounce w)) as [[| |] d]; cbn [snd];
    try reflexivity; apply sendRadioMessage_debounce.
Qed.

Lemma armDisarm_AT_Recieved p k w :
  AT_Recieved (armDisarm p k w) = AT_Recieved w.
Proof. exact (f_equal snd (proj1 (armDisarm_entities p k w))). Qed.

Lemma loop_AT_Recieved t w :
  AT_Recieved (loop t w) = AT_Recieved (receive t w).
Proof. exact (f_equal snd (loop_entities t w)). Qed.

Lemma BC_in_range :
  0 <= BUTTON_A < 3 /\ 0 <= BUTTON_B < 3 /\ 0 <= BUTTON_C < 3.
Proof. cbv. intuition discriminate. Qed.

(** After a release was reported for a button, a further read of
    "released" reports nothing. *)
Lemma reported_once (p p' : PinRead) (c : ButtonCells) :
  fst (debounce_step p c) = true ->
  digitalRead p' = NOT_PRESSED ->
  fst (debounce_step p' (snd (debounce_step p c))) = false.
Proof.
  unfold debounce_step. cbn [fst snd stable raw changed_at].
  intros H Hp'. apply andb_prop in H. destruct H as [Hc Hr].
  rewrite Hc. apply Z.eqb_eq in Hr. rewrite Hr, Hp', !Z.eqb_refl.
  cbn [negb]. rewrite andb_false_r. reflexivity.
Qed.

(** C9, as the code has it. In a tick with the prompt pending in
    which both button B and button C would report a release, exactly
    one command is sent by the prompt block, "again", and button C is
    not read at all: its cells are as before, so its release is still
    to be reported.  It is reported at the next tick at which button B
    reads released and button C's read still qualifies, and that tick
    sends "no". *)
Theorem B_answers_and_C_is_deferred (t t' : Tick) (w : Sketch) :
  let w2 := armDisarm (pinA t) (ackA t) (receive t w) in
  let w2' := armDisarm (pinA t') (ackA t') (receive t' (loop t w)) in
  arrays_ok (debounce w) ->
  AT_Recieved w2 = true ->
  fst (buttonReleased BUTTON_B (pinB t) (debounce w2)) = true ->
  fst (buttonReleased BUTTON_C (pinC t) (debounce w2)) = true ->
  digitalRead (pinB t') = NOT_PRESSED ->
  fst (buttonReleased BUTTON_C (pinC t') (debounce w2)) = true ->
  sent_between w2 (loop t w) [command "again"] /\
  cells BUTTON_C (debounce (loop t w)) = cells BUTTON_C (debounce w2) /\
  sent_between w2' (loop t' (loop t w)) [command "no"].
Proof.
  intros w2 w2' Hok Hat HB HC HB' HC'.
  destruct BC_in_range as (RA & RB & RC).
  (* the arrays after the button-A block of the first tick *)
  assert (Hd2 : debounce w2 =
                snd (buttonReleased BUTTON_A (pinA t) (debounce w))).
  { unfold w2. rewrite armDisarm_debounce.
    rewrite (proj2 (receive_radio t w)). reflexivity. }
  assert (Hok2 : arrays_ok (debounce w2)).
  { rewrite Hd2. apply buttonReleased_cells; assumption. }
  (* first tick *)
  pose proof (answerPrompt_sent (pinB t) (pinC t) (ackP t) w2) as S1.
  rewrite Hat, HB in S1.
  assert (Hd3 : debounce (loop t w) =
                snd (buttonReleased BUTTON_B (pinB t) (debounce w2))).
  { unfold loop. fold w2. rewrite answerPrompt_debounce, Hat.
    rewrite getYesOrNo_cases. cbv zeta. rewrite HB. reflexivity. }
  destruct (buttonReleased_cells BUTTON_B (pinB t) (debounce w2) Hok2 RB)
    as (HBe & HBc & Hok3 & HBo).
  rewrite <- Hd3 in HBc, Hok3, HBo.
  assert (HC3 : cells BUTTON_C (debounce (loop t w)) =
                cells BUTTON_C (debounce w2)).
  { apply HBo; [exact RC | discriminate]. }
  split; [exact S1|]. split; [exact HC3|].
  (* second tick *)
  assert (Hat' : AT_Recieved w2' = true).
  { unfold w2'.
    rewrite armDisarm_AT_Recieved, receive_AT_Recieved, loop_AT_Recieved.
    rewrite <- (armDisarm_AT_Recieved (pinA t) (ackA t)). fold w2.
    rewrite Hat.
    destruct (recvfromAck t'); [apply orb_true_r | reflexivity]. }
  assert (Hd4 : debounce w2' =
                snd (buttonReleased BUTTON_A (pinA t')
                       (debounce (loop t w)))).
  { unfold w2'. rewrite armDisarm_debounce.
    rewrite (proj2 (receive_radio t' (loop t w))). reflexivity. }
  destruct (buttonReleased_cells BUTTON_A (pinA t') (debounce (loop t w))
              Hok3 RA) as (_ & _ & Hok4 & HAo).
  rewrite <- Hd4 in Hok4, HAo.
  destruct (buttonReleased_cells BUTTON_B (pinB t') (debounce w2') Hok4 RB)
    as (HB2e & _ & Hok5 & HB2o).
  destruct (buttonReleased_cells BUTTON_C (pinC t')
              (snd (buttonReleased BUTTON_B (pinB t') (debounce w2')))
              Hok5 RC) as (HC2e & _).
  pose proof (answerPrompt_sent (pinB t') (pinC t') (ackP t') w2') as S2.
  rewrite Hat' in S2.
  (* button B has nothing more to report *)
  rewrite HB2e in S2.
  rewrite (HAo BUTTON_B RB ltac:(discriminate)) in S2.
  rewrite HBc in S2.
  rewrite HBe in HB.
  rewrite (reported_once _ _ _ HB HB') in S2.
  (* button C reports what it had *)
  rewrite HC2e in S2.
  rewrite (HB2o BUTTON_C RC ltac:(discriminate)) in S2.
  rewrite (HAo BUTTON_C RC ltac:(discriminate)) in S2.
  rewrite HC3 in S2.
  destruct (buttonReleased_cells BUTTON_C (pinC t') (debounce w2) Hok2 RC)
    as (HC'e & _).
  rewrite <- HC'e, HC' in S2.
  exact S2.
Qed.

Lemma B_answers_and_C_is_deferred_witness :
  let w := run both_released_run initSketch in
  let t := pins_at NOT_PRESSED NOT_PRESSED NOT_PRESSED 3100 in
  let t' := pins_at NOT_PRESSED NOT_PRESSED NOT_PRESSED 3110 in
  sent_between (armDisarm (pinA t) (ackA t) (receive t w)) (loop t w)
    [command "again"] /\
  sent_between (armDisarm (pinA t') (ackA t') (receive t' (loop t w)))
    (loop t' (loop t w)) [command "no"].
Proof.
  intros w t t'.
  destruct (B_answers_and_C_is_deferred t t' w) as (H1 & _ & H3);
    try reflexivity.
  - repeat split.
  - split; [exact H1 | exact H3].
Defined.

(** C9 as stated fails on its last part: in the tick at 3100 both
    buttons would report a release and only "again" is sent, but the
    release of button C is not used up: its committed level is still
    "pressed" after the tick, and the next tick, in which no level
    changes, sends "no". *)
Lemma release_of_C_is_not_consumed :
  let w := run both_released_run initSketch in
  let t := pins_at NOT_PRESSED NOT_PRESSED NOT_PRESSED 3100 in
  let t' := pins_at NOT_PRESSED NOT_PRESSED NOT_PRESSED 3110 in
  fst (buttonReleased BUTTON_B (pinB t) (debounce w)) = true /\
  fst (buttonReleased BUTTON_C (pinC t) (debounce w)) = true /\
  radioManager (loop t w) = [command "again"] /\
  cell (buttonStates (debounce (loop t w))) BUTTON_C = PRESSED /\
  radioManager (loop t' (loop t w)) = [command "again"; command "no"].
Proof. vm_compute. repeat split. Qed.

End Precedence.

(** ** The handshake *)

Section Handshake.

Lemma code_inj (a c : ascii) : CStr.code a = CStr.code c -> a = c.
Proof.
  unfold CStr.code. intros H. apply Nat2Z.inj in H.
  apply (f_equal ascii_of_nat) in H.
  rewrite !ascii_nat_embedding in H. exact H.
Qed.

Lemma code_eqb (a c : ascii) : (CStr.code a =? CStr.code c) = Ascii.eqb a c.
Proof.
  destruct (Ascii.eqb_spec a c) as [->|Hne].
  - apply Z.eqb_refl.
  - apply Z.eqb_neq. intros H. apply Hne, code_inj, H.
Qed.

(** Against a literal without NUL, [strncmp] over the length of the
    literal is zero exactly when the literal is a prefix. *)
Lemma strncmp_literal (lit s : string) :
  no_nul lit = true ->
  (CStr.strncmp s lit (String.length lit) =? 0) =
  String.eqb (CStr.take (String.length lit) s) lit.
Proof.
  revert s. induction lit as [|c lit IH]; intros s Hn; [reflexivity|].
  cbn [no_nul] in Hn. apply andb_prop in Hn. destruct Hn as [Hc Hn].
  apply negb_true_iff in Hc.
  cbn [String.length CStr.strncmp CStr.head CStr.tail].
  destruct s as [|a s]; cbn [CStr.take String.eqb CStr.head CStr.tail].
  - change 0 with (CStr.code CStr.NUL) at 1 2.
    rewrite code_eqb, Ascii.eqb_sym, Hc. cbn [negb].
    apply Z.eqb_neq. intros H.
    assert (E : CStr.code CStr.NUL = CStr.code c) by lia.
    apply code_inj in E. subst c. discriminate.
  - rewrite code_eqb.
    destruct (Ascii.eqb_spec a c) as [->|Hne]; cbn [negb andb].
    + change 0 with (CStr.code CStr.NUL) at 1.
      rewrite code_eqb, Hc. apply IH, Hn.
    + apply Z.eqb_neq. intros H.
      apply Hne, code_inj. lia.
Qed.

Lemma memcpy_length (d s : string) :
  String.length (CStr.memcpy d s) = String.length d.
Proof.
  revert s. induction d as [|c d IH]; intros [|e s]; cbn; try reflexivity.
  rewrite IH. reflexivity.
Qed.

(** Where the bytes copied reach, they are what is read. *)
Lemma take_memcpy (n : nat) (d s : string) :
  (n <= String.length s)%nat -> (n <= String.length d)%nat ->
  CStr.take n (CStr.memcpy d s) = CStr.take n s.
Proof.
  revert d s. induction n as [|n IH]; intros d s Hs Hd.
  - destruct d, s; reflexivity.
  - destruct d as [|c d]; [cbn in Hd; lia|].
    destruct s as [|e s]; [cbn in Hs; lia|].
    cbn [CStr.memcpy CStr.take]. cbn [String.length] in Hs, Hd.
    rewrite IH by lia. reflexivity.
Qed.

Lemma buffer_printOledMessage (m : string) (w : Sketch) :
  buffer (printOledMessage m w) = buffer w.
Proof.
  destruct (printOledMessage_shape m w) as (l & ops & ->). reflexivity.
Qed.

Lemma connectAttempt_accepts (a : Attempt) (w : Sketch) :
  fst (connectAttempt a w) = accepts (buffer w) a.
Proof.
  unfold connectAttempt, accepts, buffer_after. cbv zeta.
  destruct (sendtoWait a); [|reflexivity].
  destruct (recvfromAckTimeout a) as [[received from]|]; [|reflexivity].
  destruct (from =? UPGOV_ADDR); [|reflexivity].
  cbn [andb buffer on_Serial on_radioManager with_buffer].
  pose proof (strncmp_literal "connect"
                (CStr.memcpy (buffer w) received) eq_refl) as E.
  cbn [String.length] in E. rewrite E.
  destruct (String.eqb _ _); reflexivity.
Qed.

(** An attempt leaves in [buffer] what it found there, with the bytes
    of its reply, if it had one, over the beginning. *)
Lemma connectAttempt_buffer (a : Attempt) (w : Sketch) :
  buffer (snd (connectAttempt a w)) = buffer_after (buffer w) a.
Proof.
  unfold connectAttempt, buffer_after. cbv zeta.
  destruct (sendtoWait a); [|reflexivity].
  destruct (recvfromAckTimeout a) as [[received from]|]; [|reflexivity].
  destruct (from =? UPGOV_ADDR); [|reflexivity].
  destruct (_ =? 0); [|reflexivity].
  cbn [snd].
  match goal with
  | |- context [printOledMessage ?m ?v] =>
      destruct (printOledMessage_shape m v) as (l & ops & ->)
  end.
  reflexivity.
Qed.

(** Every attempt sends the packet once and keeps it. *)
Lemma connectAttempt_sends (a : Attempt) (w : Sketch) :
  radioManager (snd (connectAttempt a w)) =
    radioManager w ++ [{| payload := radioPacket w; dest := UPGOV_ADDR |}] /\
  radioPacket (snd (connectAttempt a w)) = radioPacket w.
Proof.
  unfold connectAttempt. cbv zeta.
  destruct (sendtoWait a); [|split; reflexivity].
  destruct (recvfromAckTimeout a) as [[received from]|]; [|split; reflexivity].
  destruct (from =? UPGOV_ADDR); [|split; reflexivity].
  destruct (_ =? 0); [|split; reflexivity].
  cbn [snd].
  match goal with
  | |- context [printOledMessage ?m ?v] =>
      destruct (printOledMessage_shape m v) as (l & ops & ->)
  end.
  split; reflexivity.
Qed.

Lemma connectLoop_spec (attempts : list Attempt) (w : Sketch) :
  fst (connectLoop attempts w) = succeeds (buffer w) attempts /\
  sent_between w (snd (connectLoop attempts w))
    (repeat {| payload := radioPacket w; dest := UPGOV_ADDR |}
       (tries (buffer w) attempts)).
Proof.
  unfold sent_between. revert w.
  induction attempts as [|a rest IH]; intros w.
  - split; [reflexivity | cbn; rewrite app_nil_r; reflexivity].
  - cbn [connectLoop succeeds tries].
    pose proof (connectAttempt_accepts a w) as Ha.
    pose proof (connectAttempt_buffer a w) as Hb.
    destruct (connectAttempt_sends a w) as [Hs Hp].
    destruct (connectAttempt a w) as [c w1]. cbn [fst snd] in *.
    subst c. rewrite <- Hb.
    destruct (accepts (buffer w) a); cbn [orb fst snd].
    + split; [reflexivity | exact Hs].
    + destruct (IH w1) as [IH1 IH2]. split; [exact IH1|].
      rewrite IH2, Hs, Hp, <- app_assoc. reflexivity.
Qed.

Lemma setup_spec (attempts : list Attempt) (w : Sketch) :
  fst (setup attempts w) = succeeds (buffer w) attempts /\
  sent_between w (snd (setup attempts w))
    (repeat (command "connect") (tries (buffer w) attempts)).
Proof.
  unfold setup. cbv zeta.
  destruct (connectLoop_spec attempts
              (with_radioPacket (CStr.strncpy "connect" 20)
                 (printOledMessage "Waiting radio connect" w)))
    as [H1 H2].
  assert (E : buffer (with_radioPacket (CStr.strncpy "connect" 20)
                        (printOledMessage "Waiting radio connect" w))
              = buffer w)
    by exact (buffer_printOledMessage "Waiting radio connect" w).
  rewrite E in H1, H2.
  split; [exact H1|]. unfold sent_between in *. rewrite H2.
  destruct (printOledMessage_shape "Waiting radio connect" w)
    as (l & ops & ->). reflexivity.
Qed.

(** What one attempt is judged on, spelled out on its fields. *)
Lemma accepts_cases (buf : string) (a : Attempt) :
  accepts buf a =
  match sendtoWait a, recvfromAckTimeout a with
  | true, Some (received, from) =>
      (from =? UPGOV_ADDR) &&
      String.eqb (CStr.take 7 (CStr.memcpy buf received)) "connect"
  | _, _ => false
  end.
Proof.
  unfold accepts, buffer_after.
  destruct (sendtoWait a); [|reflexivity].
  destruct (recvfromAckTimeout a) as [[received from]|]; reflexivity.
Qed.

(** C7, as the code has it. The handshake succeeds exactly when some
    attempt passes the test of [setup]: its "connect" datagram was
    acknowledged, a reply arrived within the timeout from the UpGoV
    address, and, with the bytes of that reply copied over the
    beginning of the global [buffer], the first seven bytes of [buffer]
    are "connect".  [buffer] is never cleared and keeps its size, so
    each attempt finds in it what the replies before it left there.
    Any other attempt is followed by another send: "connect" is sent
    once per attempt up to the first that passes, and [loop] runs only
    after a success.  On the fields of one attempt: without
    acknowledgement or without reply the attempt fails and leaves
    [buffer] alone; a reply from another address fails but is copied
    into [buffer]; a reply of seven bytes or more from the UpGoV
    address passes exactly when its own first seven bytes are
    "connect" (what follows them is not looked at); a shorter reply is
    judged together with the bytes that follow it in [buffer]. *)
Theorem handshake_needs_connect_prefix_from_peer
    (attempts : list Attempt) (ts : list Tick) (w : Sketch) :
  fst (setup attempts w) = succeeds (buffer w) attempts /\
  sent_between w (snd (setup attempts w))
    (repeat (command "connect") (tries (buffer w) attempts)) /\
  sketch attempts ts w =
    (if succeeds (buffer w) attempts then run ts (snd (setup attempts w))
     else snd (setup attempts w)) /\
  (forall (buf : string) (a : Attempt),
     sendtoWait a = false \/ recvfromAckTimeout a = None ->
     accepts buf a = false /\ buffer_after buf a = buf) /\
  (forall (buf received : string) (from : Z),
     let a := {| sendtoWait := true;
                 recvfromAckTimeout := Some (received, from) |} in
     buffer_after buf a = CStr.memcpy buf received /\
     String.length (buffer_after buf a) = String.length buf /\
     accepts buf a =
       (from =? UPGOV_ADDR) &&
       String.eqb (CStr.take 7 (CStr.memcpy buf received)) "connect" /\
     ((7 <= String.length received)%nat -> (7 <= String.length buf)%nat ->
      accepts buf a =
        (from =? UPGOV_ADDR) &&
        String.eqb (CStr.take 7 received) "connect")).
Proof.
  destruct (setup_spec attempts w) as [H1 H2].
  split; [exact H1|]. split; [exact H2|]. split; [|split].
  - unfold sketch. rewrite <- H1.
    destruct (setup attempts w) as [c w']. reflexivity.
  - intros buf a H. rewrite accepts_cases. unfold buffer_after.
    destruct H as [-> | ->]; [split; reflexivity|].
    destruct (sendtoWait a); split; reflexivity.
  - intros buf received from a.
    split; [reflexivity|]. split; [apply memcpy_length|].
    split; [reflexivity|]. intros Hr Hb.
    rewrite accepts_cases. cbn [sendtoWait recvfromAckTimeout a].
    rewrite (take_memcpy 7 buf received Hr Hb). reflexivity.
Qed.

(** A full-size reply "connect" from the UpGoV address connects at the
    first attempt, with one datagram sent. *)
Lemma handshake_needs_connect_prefix_from_peer_witness :
  let a := {| sendtoWait := true;
              recvfromAckTimeout :=
                Some (CStr.strncpy "connect" 20, UPGOV_ADDR) |} in
  fst (setup [a] initSketch) = true /\
  List.length (radioManager (snd (setup [a] initSketch))) = 1%nat /\
  accepts (buffer initSketch) a = true /\
  accepts (buffer initSketch)
    {| sendtoWait := true; recvfromAckTimeout := None |} = false.
Proof.
  intros a.
  destruct (handshake_needs_connect_prefix_from_peer [a] [] initSketch)
    as (H1 & H2 & _ & H4 & H5).
  split; [rewrite H1; vm_compute; reflexivity|].
  split; [unfold sent_between in H2; rewrite H2; vm_compute; reflexivity|].
  split.
  - destruct (H5 (buffer initSketch) (CStr.strncpy "connect" 20) UPGOV_ADDR)
      as (_ & _ & _ & H).
    unfold a. rewrite H; [reflexivity | simpl; lia | simpl; lia].
  - apply (H4 (buffer initSketch)
             {| sendtoWait := true; recvfromAckTimeout := None |}).
    right. reflexivity.
Defined.

(** C7 as stated fails, in two ways.  A reply from the UpGoV address
    whose payload is "connected", not "connect", completes the
    handshake, and [loop] starts.  And after a reply "connect" from
    address 3, which is rejected but stays in [buffer], the two-byte
    reply "co" from the UpGoV address completes the handshake. *)
Lemma reply_connected_is_accepted :
  let a := {| sendtoWait := true;
              recvfromAckTimeout :=
                Some (CStr.strncpy "connected" 20, UPGOV_ADDR) |} in
  let stranger := {| sendtoWait := true;
                     recvfromAckTimeout := Some ("connect", 3) |} in
  let co := {| sendtoWait := true;
               recvfromAckTimeout := Some ("co", UPGOV_ADDR) |} in
  CStr.c_str (CStr.strncpy "connected" 20) = "connected" /\
  "connected" <> "connect" /\
  fst (setup [a] initSketch) = true /\
  currentState
    (sketch [a] [with_frame (frame_of "ST:READY") (idle 1000)] initSketch)
  = READY /\
  "co" <> "connect" /\
  fst (setup [stranger] initSketch) = false /\
  fst (setup [co] initSketch) = false /\
  fst (setup [stranger; co] initSketch) = true /\
  currentState
    (sketch [stranger; co]
       [with_frame (frame_of "ST:READY") (idle 1000)] initSketch)
  = READY.
Proof.
  intros a stranger co. split; [vm_compute; reflexivity|].
  split; [discriminate|]. split; [vm_compute; reflexivity|].
  split; [vm_compute; reflexivity|]. split; [discriminate|].
  repeat split; vm_compute; reflexivity.
Qed.

End Handshake.

(** ** The log over the whole program *)

Section LogInvariant.

Lemma decodeFrame_lineNumber_ok f w :
  lineNumber_ok w -> lineNumber_ok (decodeFrame f w).
Proof.
  intros H. unfold decodeFrame.
  destruct (3 <=? messageLength f); [|exact H]. cbv zeta.
  repeat match goal with
         | |- context [if CStr.startsWith ?s ?p then _ else _] =>
             destruct (CStr.startsWith s p)
         | |- context [if CStr.equals ?s ?p then _ else _] =>
             destruct (CStr.equals s p)
         end;
    repeat match goal with
           | |- context [printOledData ?t ?d ?v] =>
               destruct (printOledData_shape t d v) as (? & ->)
           end;
    try exact H;
    match goal with
    | |- context [printOledMessage ?m ?v] =>
        exact (proj1 (printOledMessage_stored m v H))
    end.
Qed.

Lemma loop_lineNumber_ok t w : lineNumber_ok w -> lineNumber_ok (loop t w).
Proof.
  intros H. unfold lineNumber_ok.
  rewrite (f_equal (fun e => fst (fst e)) (loop_shown t w)
           : oledLines (loop t w) = oledLines (receive t w)).
  unfold receive. destruct (recvfromAck t);
    [apply decodeFrame_lineNumber_ok, H | exact H].
Qed.

Lemma run_lineNumber_ok ts w : lineNumber_ok w -> lineNumber_ok (run ts w).
Proof.
  revert w. induction ts as [|t ts IH]; intros w H; [exact H|].
  unfold run. cbn [fold_left]. apply IH, loop_lineNumber_ok, H.
Qed.

Lemma oledLines_on_Serial ops w : oledLines (on_Serial ops w) = oledLines w.
Proof. reflexivity. Qed.

Lemma oledLines_on_radioManager ds w :
  oledLines (on_radioManager ds w) = oledLines w.
Proof. reflexivity. Qed.

Lemma oledLines_with_buffer v w : oledLines (with_buffer v w) = oledLines w.
Proof. reflexivity. Qed.

Lemma connectAttempt_lineNumber_ok a w :
  lineNumber_ok w -> lineNumber_ok (snd (connectAttempt a w)).
Proof.
  intros H. unfold connectAttempt. cbv zeta.
  destruct (sendtoWait a); [|exact H].
  destruct (recvfromAckTimeout a) as [[received from]|]; [|exact H].
  destruct (from =? UPGOV_ADDR); [|exact H].
  destruct (_ =? 0); [|exact H].
  cbn [snd]. unfold lineNumber_ok. rewrite oledLines_on_Serial.
  match goal with
  | |- context [printOledMessage ?m ?v] =>
      change (lineNumber_ok (printOledMessage m v));
      apply (printOledMessage_stored m v)
  end.
  unfold lineNumber_ok.
  rewrite !oledLines_on_Serial, oledLines_with_buffer, oledLines_on_Serial,
    oledLines_on_radioManager, oledLines_on_Serial.
  exact H.
Qed.

Lemma connectLoop_lineNumber_ok attempts w :
  lineNumber_ok w -> lineNumber_ok (snd (connectLoop attempts w)).
Proof.
  revert w. induction attempts as [|a rest IH]; intros w H; [exact H|].
  cbn [connectLoop].
  pose proof (connectAttempt_lineNumber_ok a w H) as Ha.
  destruct (connectAttempt a w) as [[|] w1]; cbn [snd] in *;
    [exact Ha | apply IH, Ha].
Qed.

Lemma sketch_lineNumber_ok attempts ts w :
  lineNumber_ok w -> lineNumber_ok (sketch attempts ts w).
Proof.
  intros H. unfold sketch, setup. cbv zeta.
  pose proof (connectLoop_lineNumber_ok attempts
                (with_radioPacket (CStr.strncpy "connect" 20)
                   (printOledMessage "Waiting radio connect" w))
                (proj1 (printOledMessage_stored _ w H))) as Hc.
  destruct (connectLoop attempts _) as [[|] w1]; cbn [snd] in Hc;
    [apply run_lineNumber_ok, Hc | exact Hc].
Qed.

(** C8. Whatever lines are appended to the empty log, its counter
    never exceeds six: it is the number of lines appended, capped at
    six, and the lines held are exactly the last six appended, in the
    order they were appended.  In particular seven lines leave the
    second to the seventh, the first being lost.  The counter stays
    between 0 and 6 through the whole program, whatever the radio and
    the buttons do. *)
Theorem scroll_log_keeps_last_six :
  (forall ms : list string,
      lineNumber (oledLines (appendAll ms initSketch)) =
        Z.of_nat (Nat.min (List.length ms) 6) /\
      stored (appendAll ms initSketch) = lastn 6 ms) /\
  (forall m1 m2 m3 m4 m5 m6 m7 : string,
      stored (appendAll [m1; m2; m3; m4; m5; m6; m7] initSketch) =
      [m2; m3; m4; m5; m6; m7]) /\
  (forall (attempts : list Attempt) (ts : list Tick),
      0 <= lineNumber (oledLines (sketch attempts ts initSketch)) <= 6).
Proof.
  split; [|split].
  - intros ms. destruct (appendAll_lastn ms) as [Hok H]. split; [|exact H].
    rewrite (lineNumber_counts _ Hok), H. unfold lastn.
    rewrite length_skipn. f_equal. lia.
  - intros. reflexivity.
  - intros attempts ts. apply sketch_lineNumber_ok.
    unfold lineNumber_ok. cbn. lia.
Qed.

End LogInvariant.

(** * Further properties of the sketch *)

(** ** The packet handed to the radio *)

Section Packet.

Lemma nuls_length (n : nat) : String.length (CStr.nuls n) = n.
Proof. induction n as [|n IH]; [reflexivity | cbn; rewrite IH; reflexivity]. Qed.

Lemma strncpy_length (m : string) (n : nat) :
  String.length (CStr.strncpy m n) = n.
Proof.
  revert m. induction n as [|n IH]; intros m; [destruct m; reflexivity|].
  destruct m as [|c m]; cbn [CStr.strncpy].
  - apply nuls_length.
  - destruct (Ascii.eqb c CStr.NUL); [apply nuls_length|].
    cbn [String.length]. rewrite IH. reflexivity.
Qed.

Lemma c_str_nuls (n : nat) : CStr.c_str (CStr.nuls n) = "".
Proof. destruct n; reflexivity. Qed.

Lemma take_no_nul (m : string) (n : nat) :
  no_nul m = true -> CStr.c_str (CStr.take n m) = CStr.take n m.
Proof.
  revert m. induction n as [|n IH]; intros m H; [destruct m; reflexivity|].
  destruct m as [|c m]; [reflexivity|].
  cbn [no_nul] in H. apply andb_prop in H. destruct H as [Hc H].
  apply negb_true_iff in Hc. cbn [CStr.take CStr.c_str].
  rewrite Hc, (IH m H). reflexivity.
Qed.

(** Read back as a C string, the copy is the source cut at [n]. *)
Lemma c_str_strncpy (m : string) (n : nat) :
  no_nul m = true -> CStr.c_str (CStr.strncpy m n) = CStr.take n m.
Proof.
  revert m. induction n as [|n IH]; intros m H; [destruct m; reflexivity|].
  destruct m as [|c m]; cbn [CStr.strncpy]; [reflexivity|].
  cbn [no_nul] in H. apply andb_prop in H. destruct H as [Hc H].
  apply negb_true_iff in Hc. rewrite Hc.
  cbn [CStr.take CStr.c_str]. rewrite Hc, (IH m H). reflexivity.
Qed.

Lemma no_nul_nuls (n : nat) : no_nul (CStr.nuls n) = (n =? 0)%nat.
Proof. destruct n; reflexivity. Qed.

(** The copy carries a terminating NUL exactly when the source is
    shorter than the destination. *)
Lemma no_nul_strncpy (m : string) (n : nat) :
  no_nul m = true ->
  no_nul (CStr.strncpy m n) = (n <=? String.length m)%nat.
Proof.
  revert m. induction n as [|n IH]; intros m H; [destruct m; reflexivity|].
  destruct m as [|c m]; cbn [CStr.strncpy]; [reflexivity|].
  cbn [no_nul] in H. apply andb_prop in H. destruct H as [Hc H].
  apply negb_true_iff in Hc. rewrite Hc.
  cbn [no_nul String.length]. rewrite Hc, (IH m H). reflexivity.
Qed.

Lemma take_all (m : string) (n : nat) :
  (String.length m <= n)%nat -> CStr.take n m = m.
Proof.
  revert m. induction n as [|n IH]; intros [|c m] H; cbn in *;
    try reflexivity; try lia.
  rewrite IH by lia. reflexivity.
Qed.

(** X1. [sendRadioMessage] returns the acknowledgement it got, hands
    the radio one datagram of exactly 20 bytes for the given address
    and leaves that datagram in [radioPacket].  For a message without
    NUL the datagram, read back as a C string, is the message cut at
    20 characters: a message shorter than 20 arrives whole and
    terminated, one of 20 characters or more arrives as its first 20
    characters without terminator. *)
Theorem sendRadioMessage_packet (m : string) (a : Z) (k : bool) (w : Sketch) :
  no_nul m = true ->
  let r := sendRadioMessage m a k w in
  let pkt := radioPacket (snd r) in
  fst r = k /\
  radioManager (snd r) = radioManager w ++ [{| payload := pkt; dest := a |}] /\
  String.length pkt = 20%nat /\
  CStr.c_str pkt = CStr.take 20 m /\
  no_nul pkt = (20 <=? String.length m)%nat /\
  ((String.length m < 20)%nat -> CStr.c_str pkt = m).
Proof.
  intros H r pkt.
  assert (Hp : pkt = CStr.strncpy m 20).
  { unfold pkt, r, sendRadioMessage. destruct k; reflexivity. }
  split; [unfold r, sendRadioMessage; destruct k; reflexivity|].
  split; [rewrite Hp; unfold r, sendRadioMessage; destruct k; reflexivity|].
  rewrite Hp.
  split; [apply strncpy_length|].
  split; [apply c_str_strncpy, H|].
  split; [apply no_nul_strncpy, H|].
  intros Hl. rewrite (c_str_strncpy m 20 H). apply take_all. lia.
Qed.

Lemma sendRadioMessage_packet_witness :
  let r := sendRadioMessage "disarm" UPGOV_ADDR false initSketch in
  fst r = false /\
  String.length (radioPacket (snd r)) = 20%nat /\
  CStr.c_str (radioPacket (snd r)) = "disarm".
Proof.
  intros r.
  destruct (sendRadioMessage_packet "disarm" UPGOV_ADDR false initSketch
              eq_refl) as (H1 & _ & H3 & _ & _ & H6).
  split; [exact H1 | split; [exact H3 | apply H6; cbn; lia]].
Defined.

End Packet.

(** ** The error counter *)

Section ErrorCounter.

Lemma int_wrap_range (x : Z) : int_range (int_wrap x).
Proof.
  unfold int_range, int_wrap, INT_MIN, INT_MAX.
  pose proof (Z.mod_pos_bound (x - - 2 ^ 31) (2 ^ 32) eq_refl). lia.
Qed.

Lemma int_wrap_small (x : Z) : int_range x -> int_wrap x = x.
Proof.
  unfold int_range, int_wrap, INT_MIN, INT_MAX. intros H.
  rewrite Z.mod_small; lia.
Qed.

Lemma int_wrap_add (x y : Z) : int_wrap (int_wrap x + y) = int_wrap (x + y).
Proof.
  unfold int_wrap.
  replace ((x - INT_MIN) mod 2 ^ 32 + INT_MIN + y - INT_MIN)
    with ((x - INT_MIN) mod 2 ^ 32 + y) by lia.
  rewrite Zplus_mod_idemp_l. f_equal. f_equal. lia.
Qed.

Lemma sendRadioMessage_radioError m a k w :
  radioError (snd (sendRadioMessage m a k w)) =
  if k then radioError w else int_wrap (radioError w + 1).
Proof. unfold sendRadioMessage. destruct k; reflexivity. Qed.

(** The increment of a counter that stands at INT_MAX gives INT_MIN. *)
Lemma sendRadioMessage_radioError_wraps m a w :
  radioError w = INT_MAX ->
  radioError (snd (sendRadioMessage m a false w)) = INT_MIN.
Proof.
  intros H. rewrite sendRadioMessage_radioError, H. reflexivity.
Qed.

Lemma sendRadioMessage_count m a k w :
  List.length (radioManager (snd (sendRadioMessage m a k w))) =
  S (List.length (radioManager w)).
Proof.
  rewrite (sendRadioMessage_sent m a k w), length_app. cbn. lia.
Qed.

Lemma armDisarm_account (p : PinRead) (k : bool) (w : Sketch) :
  List.length (radioManager (armDisarm p k w)) =
    (List.length (radioManager w) + if armDisarm_sends p w then 1 else 0)%nat /\
  radioError (armDisarm p k w) =
    if armDisarm_sends p w && negb k then int_wrap (radioError w + 1)
    else radioError w.
Proof.
  unfold armDisarm, armDisarm_sends.
  destruct (buttonReleased BUTTON_A p (debounce w)) as [[|] d];
    cbn [fst andb]; [|split; [cbn; lia | reflexivity]].
  change (currentState (with_debounce d w)) with (currentState w).
  destruct (currentState w); cbn [andb];
    try (split; [cbn; lia | reflexivity]);
    rewrite sendRadioMessage_count, sendRadioMessage_radioError;
    (split; [cbn; lia | destruct k; reflexivity]).
Qed.

Lemma answerPrompt_account (pb pc : PinRead) (k : bool) (w : Sketch) :
  List.length (radioManager (answerPrompt pb pc k w)) =
    (List.length (radioManager w) +
     if answerPrompt_sends pb pc w then 1 else 0)%nat /\
  radioError (answerPrompt pb pc k w) =
    if answerPrompt_sends pb pc w && negb k then int_wrap (radioError w + 1)
    else radioError w.
Proof.
  unfold answerPrompt, answerPrompt_sends.
  destruct (AT_Recieved w); cbn [andb]; [|split; [cbn; lia | reflexivity]].
  rewrite getYesOrNo_cases. cbv zeta.
  destruct (buttonReleased BUTTON_B pb (debounce w)) as [[|] d1];
    cbn [fst snd orb].
  - rewrite sendRadioMessage_count, sendRadioMessage_radioError.
    split; [cbn; lia | destruct k; reflexivity].
  - destruct (buttonReleased BUTTON_C pc d1) as [[|] d2]; cbn [fst snd].
    + rewrite sendRadioMessage_count, sendRadioMessage_radioError.
      split; [cbn; lia | destruct k; reflexivity].
    + split; [cbn; lia | reflexivity].
Qed.

Lemma decodeFrame_radioError f w :
  radioError (decodeFrame f w) = radioError w.
Proof.
  unfold decodeFrame.
  destruct (3 <=? messageLength f); [|reflexivity]. cbv zeta.
  repeat match goal with
         | |- context [if CStr.startsWith ?s ?p then _ else _] =>
             destruct (CStr.startsWith s p)
         | |- context [if CStr.equals ?s ?p then _ else _] =>
             destruct (CStr.equals s p)
         end;
    repeat match goal with
           | |- context [printOledMessage ?m ?v] =>
               destruct (printOledMessage_shape m v) as (? & ? & ->)
           | |- context [printOledData ?t ?d ?v] =>
               destruct (printOledData_shape t d v) as (? & ->)
           end; reflexivity.
Qed.

(** One tick: the datagrams sent, and the counter moved on by those of
    them that were not acknowledged. *)
Lemma loop_account (t : Tick) (w : Sketch) :
  int_range (radioError w) ->
  List.length (radioManager (loop t w)) =
    (List.length (radioManager w) + sent_in_tick t w)%nat /\
  radioError (loop t w) = int_wrap (radioError w + failed_in_tick t w) /\
  0 <= failed_in_tick t w <= Z.of_nat (sent_in_tick t w) /\
  (ackA t && ackP t = true -> failed_in_tick t w = 0).
Proof.
  intros Hr. unfold sent_in_tick, failed_in_tick, loop. cbv zeta.
  set (w1 := receive t w). set (w2 := armDisarm (pinA t) (ackA t) w1).
  destruct (answerPrompt_account (pinB t) (pinC t) (ackP t) w2) as [-> ->].
  destruct (armDisarm_account (pinA t) (ackA t) w1) as [H1 H2].
  fold w2 in H1, H2. rewrite H1, H2.
  assert (E1 : radioManager w1 = radioManager w)
    by exact (proj1 (receive_radio t w)).
  assert (E2 : radioError w1 = radioError w).
  { unfold w1, receive. destruct (recvfromAck t);
      [apply decodeFrame_radioError | reflexivity]. }
  rewrite E1, E2.
  split; [lia|]. split; [|split].
  - destruct (armDisarm_sends _ _ && negb (ackA t));
      destruct (answerPrompt_sends _ _ _ && negb (ackP t));
      rewrite ?int_wrap_add, ?Z.add_0_r;
      try reflexivity; try (f_equal; lia).
    symmetry. apply int_wrap_small, Hr.
  - destruct (armDisarm_sends _ _), (answerPrompt_sends _ _ _),
      (ackA t), (ackP t); cbn; lia.
  - intros Hk. apply andb_prop in Hk. destruct Hk as [-> ->].
    cbn [negb]. rewrite !andb_false_r. reflexivity.
Qed.

Lemma connectAttempt_radioError a w :
  radioError (snd (connectAttempt a w)) = radioError w.
Proof.
  unfold connectAttempt. cbv zeta.
  destruct (sendtoWait a); [|reflexivity].
  destruct (recvfromAckTimeout a) as [[received from]|]; [|reflexivity].
  destruct (from =? UPGOV_ADDR); [|reflexivity].
  destruct (_ =? 0); [|reflexivity].
  cbn [snd].
  match goal with
  | |- context [printOledMessage ?m ?v] =>
      destruct (printOledMessage_shape m v) as (l & ops & ->)
  end.
  reflexivity.
Qed.

Lemma connectLoop_radioError attempts w :
  radioError (snd (connectLoop attempts w)) = radioError w.
Proof.
  revert w. induction attempts as [|a rest IH]; intros w; [reflexivity|].
  cbn [connectLoop].
  pose proof (connectAttempt_radioError a w) as Ha.
  destruct (connectAttempt a w) as [[|] w1]; cbn [snd] in *;
    [exact Ha | rewrite IH; exact Ha].
Qed.

Lemma setup_radioError attempts w :
  radioError (snd (setup attempts w)) = radioError w.
Proof.
  unfold setup. cbv zeta. rewrite connectLoop_radioError.
  destruct (printOledMessage_shape "Waiting radio connect" w)
    as (l & ops & ->). reflexivity.
Qed.

(** X2. [radioError] counts the commands of [loop] that were not
    acknowledged, as an [int]: over any run that starts with the
    counter in the range of an [int], the counter ends at its starting
    value plus the number of commands of the run for which [sendtoWait]
    reported no acknowledgement, wrapped around into the range of an
    [int], while every command of the run, acknowledged or not, adds
    one datagram to what the radio was handed.  So the counter does not
    move when every command is acknowledged.  One send that is not
    acknowledged adds one, and takes a counter that stands at INT_MAX
    to INT_MIN; one that is acknowledged leaves the counter alone.  The
    handshake never touches it, however many "connect" datagrams go
    unacknowledged. *)
Theorem radioError_counts_failed_commands (ts : list Tick) (w : Sketch)
    (attempts : list Attempt) :
  int_range (radioError w) ->
  (forall (message : string) (address : Z),
     radioError (snd (sendRadioMessage message address true w)) =
       radioError w /\
     radioError (snd (sendRadioMessage message address false w)) =
       if radioError w =? INT_MAX then INT_MIN else radioError w + 1) /\
  radioError (run ts w) = int_wrap (radioError w + failed_commands ts w) /\
  List.length (radioManager (run ts w)) =
    (List.length (radioManager w) + sent_commands ts w)%nat /\
  0 <= failed_commands ts w <= Z.of_nat (sent_commands ts w) /\
  (all_acked ts = true -> failed_commands ts w = 0) /\
  radioError (snd (setup attempts w)) = radioError w.
Proof.
  intros Hr.
  assert (H : radioError (run ts w) =
                int_wrap (radioError w + failed_commands ts w) /\
              List.length (radioManager (run ts w)) =
                (List.length (radioManager w) + sent_commands ts w)%nat /\
              0 <= failed_commands ts w <= Z.of_nat (sent_commands ts w) /\
              (all_acked ts = true -> failed_commands ts w = 0)).
  { revert w Hr. induction ts as [|t ts IH]; intros w Hr.
    - cbn [run fold_left failed_commands sent_commands].
      rewrite Z.add_0_r, (int_wrap_small _ Hr).
      repeat split; cbn; lia.
    - destruct (loop_account t w Hr) as (Hn & He & Hb & Hk).
      assert (Hr' : int_range (radioError (loop t w)))
        by (rewrite He; apply int_wrap_range).
      destruct (IH (loop t w) Hr') as (I1 & I2 & I3 & I4).
      unfold run in *. cbn [fold_left failed_commands sent_commands].
      split; [|split; [|split]].
      + rewrite I1, He, int_wrap_add. f_equal. lia.
      + rewrite I2, Hn. lia.
      + lia.
      + intros Ha. cbn [all_acked forallb] in Ha. apply andb_prop in Ha.
        destruct Ha as [Ht Ha]. rewrite (Hk Ht), (I4 Ha). reflexivity. }
  destruct H as (H1 & H2 & H3 & H4).
  split; [|repeat split; try assumption; try apply H3;
           apply setup_radioError].
  intros message address. rewrite !sendRadioMessage_radioError.
  split; [reflexivity|].
  destruct (Z.eqb_spec (radioError w) INT_MAX) as [->|Hne];
    [reflexivity|].
  apply int_wrap_small. unfold int_range, INT_MIN, INT_MAX in *. lia.
Qed.

(** Button A released in READY, the "arm" not acknowledged. *)
Lemma radioError_counts_failed_commands_witness :
  let unacked :=
    {| recvfromAck := None; pinA := read_at NOT_PRESSED 3100; ackA := false;
       pinB := idle_pin 3100; pinC := idle_pin 3100; ackP := true |} in
  let ts := [with_frame (frame_of "ST:READY") (idle 1000);
             pins_at PRESSED NOT_PRESSED NOT_PRESSED 2000;
             pins_at PRESSED NOT_PRESSED NOT_PRESSED 2100;
             pins_at NOT_PRESSED NOT_PRESSED NOT_PRESSED 3000;
             unacked] in
  radioError (run ts initSketch) = 1 /\
  List.length (radioManager (run ts initSketch)) = 1%nat.
Proof.
  intros unacked ts.
  destruct (radioError_counts_failed_commands ts initSketch [])
    as (_ & H1 & H2 & _).
  - unfold int_range, INT_MIN, INT_MAX. simpl. lia.
  - split; [exact H1 | exact H2].
Defined.

End ErrorCounter.

(** ** More on the debouncer *)

Section DebouncerMore.

Lemma nat_of_bool_le (e h h' p : bool) :
  (e = true -> h = true /\ h' = false /\ p = false) ->
  (h' = true -> h = true \/ p = true) ->
  ((if e then 1 else 0) + (if h' then 1 else 0) <=
   (if p then 1 else 0) + (if h then 1 else 0))%nat.
Proof.
  destruct e, h, h', p; cbn; intros H1 H2; try lia;
    try (destruct H1 as (? & ? & ?); [reflexivity|]; discriminate);
    try (destruct H2 as [?|?]; [reflexivity| |]; discriminate).
Qed.

(** One call: a release is reported only for a button that was held,
    and leaves it not held; a button becomes held only on a read that
    did not find it released. *)
Lemma debounce_step_budget (p : PinRead) (c : ButtonCells) :
  ((if fst (debounce_step p c) then 1 else 0) +
   (if held (snd (debounce_step p c)) then 1 else 0) <=
   (if negb (digitalRead p =? NOT_PRESSED)%Z then 1 else 0) +
   (if held c then 1 else 0))%nat.
Proof.
  apply nat_of_bool_le; unfold debounce_step, held;
    cbn [fst snd stable raw changed_at].
  - intros H. apply andb_prop in H. destruct H as [Hc Hr].
    rewrite Hc. apply andb_prop in Hc. destruct Hc as [_ Hne].
    apply Z.eqb_eq in Hr. rewrite Hr in *. rewrite Z.eqb_refl.
    rewrite Z.eqb_sym. repeat split; try reflexivity. exact Hne.
  - destruct (_ && negb (digitalRead p =? stable c)).
    + intros H. right. exact H.
    + intros H. left. exact H.
Qed.

Lemma poll_cells_budget (pins : list PinRead) (c : ButtonCells) :
  (count_events (fst (poll_cells pins c)) +
   (if held (snd (poll_cells pins c)) then 1 else 0) <=
   count_pressed pins + (if held c then 1 else 0))%nat.
Proof.
  revert c. induction pins as [|p ps IH]; intros c; [cbn; lia|].
  pose proof (debounce_step_budget p c) as Hs.
  cbn [poll_cells]. destruct (debounce_step p c) as [e c1].
  specialize (IH c1). destruct (poll_cells ps c1) as [es c2].
  cbn [fst snd] in *. unfold count_events, count_pressed in *.
  cbn [filter].
  destruct e, (negb (digitalRead p =? NOT_PRESSED)); cbn [List.length] in *;
    lia.
Qed.

(** X3. No release without a press: for a button whose committed
    level is "released" (as it is at power-on), the calls of
    [buttonReleased] never report more releases than there were reads
    that did not find the pin released; in particular reads that all
    find it released report nothing, however the clock runs. *)
Theorem no_release_without_press (b : Z) (pins : list PinRead)
    (d : Debounce) :
  arrays_ok d -> 0 <= b < 3 ->
  cell (buttonStates d) b = NOT_PRESSED ->
  (count_events (fst (poll b pins d)) <= count_pressed pins)%nat.
Proof.
  intros Hd Hb Hs.
  destruct (poll_cells_ok b pins d Hd Hb) as (-> & _).
  pose proof (poll_cells_budget pins (cells b d)) as H.
  unfold held in H at 2. cbn [cells stable] in H.
  rewrite Hs, Z.eqb_refl in H. cbn [negb] in H.
  destruct (held _); lia.
Qed.

Lemma no_release_without_press_witness :
  (count_events
     (fst (poll BUTTON_B
             [read_at PRESSED 10; read_at PRESSED 100;
              read_at NOT_PRESSED 200; read_at NOT_PRESSED 300;
              read_at NOT_PRESSED 400] initDebounce)) <= 2)%nat.
Proof.
  apply (no_release_without_press BUTTON_B
           [read_at PRESSED 10; read_at PRESSED 100;
            read_at NOT_PRESSED 200; read_at NOT_PRESSED 300;
            read_at NOT_PRESSED 400] initDebounce).
  - repeat split.
  - cbv. intuition discriminate.
  - reflexivity.
Defined.

(** X4. The stability test survives the rollover of [millis]: for a
    button committed as pressed and read released since clock [T],
    a further read of "released" made [e] milliseconds later, with the
    clock taken modulo 2^32, reports the release exactly when [e] is
    more than the 50 ms window, also when the clock wrapped around in
    between. *)
Theorem debounce_survives_rollover (b : Z) (d : Debounce) (pin : PinRead)
    (T e : Z) :
  arrays_ok d -> 0 <= b < 3 ->
  cells b d = waiting T ->
  0 <= T < ULONG_MOD -> 0 <= e < ULONG_MOD ->
  digitalRead pin = NOT_PRESSED ->
  millis_check pin = (T + e) mod ULONG_MOD ->
  fst (buttonReleased b pin d) = (DEBOUNCE_DELAY <? e).
Proof.
  intros Hd Hb Hc HT He Hp Hm.
  destruct (buttonReleased_cells b pin d Hd Hb) as (-> & _).
  rewrite Hc. unfold debounce_step, waiting.
  cbn [fst stable raw changed_at]. rewrite Hp, Z.eqb_refl, Hm.
  rewrite Zminus_mod_idemp_l.
  replace (T + e - T) with e by lia.
  rewrite (Z.mod_small e) by lia.
  change (NOT_PRESSED =? PRESSED) with false. cbn [negb].
  rewrite !andb_true_r. reflexivity.
Qed.

(** Released 10 ms before the clock wraps, read again at clock 50. *)
Lemma debounce_survives_rollover_witness :
  let d := {| buttonStates := [PRESSED; NOT_PRESSED; NOT_PRESSED];
              lastButtonStates := [NOT_PRESSED; NOT_PRESSED; NOT_PRESSED];
              lastDebounceTime := [4294967286; 0; 0] |} in
  fst (buttonReleased BUTTON_A (read_at NOT_PRESSED 50) d) = true.
Proof.
  intros d.
  apply (debounce_survives_rollover BUTTON_A d (read_at NOT_PRESSED 50)
           4294967286 60); try reflexivity;
    try (repeat split; reflexivity); cbv; intuition discriminate.
Defined.

Lemma poll_other_cells (b b' : Z) (pins : list PinRead) (d : Debounce) :
  arrays_ok d -> 0 <= b < 3 -> 0 <= b' < 3 -> b <> b' ->
  cells b (snd (poll b' pins d)) = cells b d /\
  arrays_ok (snd (poll b' pins d)).
Proof.
  intros Hd Hb Hb' Hne. revert d Hd.
  induction pins as [|p ps IH]; intros d Hd; [split; [reflexivity|exact Hd]|].
  destruct (buttonReleased_cells b' p d Hd Hb') as (_ & _ & Hok & Ho).
  cbn [poll]. destruct (buttonReleased b' p d) as [e d1]. cbn [snd] in *.
  destruct (IH d1 Hok) as [IH1 IH2].
  destruct (poll b' ps d1) as [es d2]. cbn [snd] in *.
  split; [rewrite IH1; apply Ho; assumption | exact IH2].
Qed.

(** X5. The buttons do not interfere: what the calls for one button
    report is the same whether or not another button was polled
    before, whatever that button read. *)
Theorem buttons_are_independent (b b' : Z) (pins pins' : list PinRead)
    (d : Debounce) :
  arrays_ok d -> 0 <= b < 3 -> 0 <= b' < 3 -> b <> b' ->
  fst (poll b pins (snd (poll b' pins' d))) = fst (poll b pins d).
Proof.
  intros Hd Hb Hb' Hne.
  destruct (poll_other_cells b b' pins' d Hd Hb Hb' Hne) as [Hc Hok].
  destruct (poll_cells_ok b pins _ Hok Hb) as (-> & _).
  destruct (poll_cells_ok b pins d Hd Hb) as (-> & _).
  rewrite Hc. reflexivity.
Qed.

Lemma buttons_are_independent_witness :
  fst (poll BUTTON_C [read_at PRESSED 10; read_at PRESSED 100]
         (snd (poll BUTTON_A [read_at PRESSED 5; read_at NOT_PRESSED 90]
                 initDebounce))) =
  fst (poll BUTTON_C [read_at PRESSED 10; read_at PRESSED 100] initDebounce).
Proof.
  apply (buttons_are_independent BUTTON_C BUTTON_A); try discriminate;
    try (repeat split; reflexivity); cbv; intuition discriminate.
Defined.

(** A read that does not find the pin released reports nothing. *)
Lemma not_released_is_silent (b : Z) (pin : PinRead) (d : Debounce) :
  arrays_ok d -> 0 <= b < 3 ->
  (digitalRead pin =? NOT_PRESSED) = false ->
  fst (buttonReleased b pin d) = false.
Proof.
  intros Hd Hb Hp.
  destruct (buttonReleased_cells b pin d Hd Hb) as (-> & _).
  unfold debounce_step. cbn [fst]. rewrite Hp. apply andb_false_r.
Qed.

End DebouncerMore.

(** ** What is transmitted, and when *)

Section Transmissions.

Lemma sent_between_unique (w w' : Sketch) (ds ds' : list Datagram) :
  sent_between w w' ds -> sent_between w w' ds' -> ds = ds'.
Proof.
  unfold sent_between. intros H H'. rewrite H in H'.
  exact (app_inv_head _ _ _ H').
Qed.

(** The datagrams of one tick: those of the button-A block, then those
    of the prompt block; decoding a frame sends nothing. *)
Lemma loop_sent (t : Tick) (w : Sketch) :
  sent_between w (loop t w)
    (armDisarm_datagrams (pinA t) (receive t w) ++
     answerPrompt_datagrams (pinB t) (pinC t)
       (armDisarm (pinA t) (ackA t) (receive t w))).
Proof.
  unfold sent_between, loop.
  rewrite (answerPrompt_sent (pinB t) (pinC t) (ackP t)).
  rewrite (armDisarm_sent (pinA t) (ackA t)).
  rewrite (proj1 (receive_radio t w)), app_assoc. reflexivity.
Qed.

Lemma armDisarm_arrays_ok p k w :
  arrays_ok (debounce w) -> arrays_ok (debounce (armDisarm p k w)).
Proof.
  intros H. rewrite armDisarm_debounce.
  apply buttonReleased_cells; [exact H | apply BC_in_range].
Qed.

Lemma answerPrompt_arrays_ok pb pc k w :
  arrays_ok (debounce w) -> arrays_ok (debounce (answerPrompt pb pc k w)).
Proof.
  intros H. rewrite answerPrompt_debounce.
  destruct (AT_Recieved w); [|exact H].
  rewrite getYesOrNo_cases. cbv zeta.
  assert (HB : arrays_ok (snd (buttonReleased BUTTON_B pb (debounce w)))).
  { apply buttonReleased_cells; [exact H | apply BC_in_range]. }
  destruct (fst (buttonReleased BUTTON_B pb (debounce w))); [exact HB|].
  assert (HC : arrays_ok
                 (snd (buttonReleased BUTTON_C pc
                         (snd (buttonReleased BUTTON_B pb (debounce w)))))).
  { apply buttonReleased_cells; [exact HB | apply BC_in_range]. }
  destruct (fst (buttonReleased BUTTON_C pc _)); exact HC.
Qed.

Lemma loop_arrays_ok t w :
  arrays_ok (debounce w) -> arrays_ok (debounce (loop t w)).
Proof.
  intros H. unfold loop.
  apply answerPrompt_arrays_ok, armDisarm_arrays_ok.
  rewrite (proj2 (receive_radio t w)). exact H.
Qed.

Lemma incl_one {A} (x : A) (l : list A) : In x l -> incl [x] l.
Proof. intros H y [<-|[]]. exact H. Qed.

Lemma armDisarm_datagrams_cases p w :
  (List.length (armDisarm_datagrams p w) <= 1)%nat /\
  incl (armDisarm_datagrams p w) loop_commands.
Proof.
  unfold armDisarm_datagrams, loop_commands.
  destruct (fst (buttonReleased BUTTON_A p (debounce w)));
    [|split; [cbn; lia | apply incl_nil_l]].
  destruct (currentState w);
    try (split; [cbn; lia | apply incl_nil_l]);
    (split; [cbn; lia | apply incl_one; cbn; tauto]).
Qed.

Lemma answerPrompt_datagrams_cases pb pc w :
  (List.length (answerPrompt_datagrams pb pc w) <= 1)%nat /\
  incl (answerPrompt_datagrams pb pc w) loop_commands.
Proof.
  unfold answerPrompt_datagrams, loop_commands.
  destruct (AT_Recieved w); [|split; [cbn; lia | apply incl_nil_l]].
  destruct (fst (buttonReleased BUTTON_B pb (debounce w)));
    [split; [cbn; lia | apply incl_one; cbn; tauto]|].
  destruct (fst (buttonReleased BUTTON_C pc _));
    [split; [cbn; lia | apply incl_one; cbn; tauto]
    |split; [cbn; lia | apply incl_nil_l]].
Qed.

(** X6. The sketch transmits only on a button release.  In any tick
    it hands the radio at most two datagrams, each one of the four
    commands "arm", "disarm", "again" and "no" addressed to the UpGoV;
    a received frame by itself transmits nothing, and a tick in which
    no pin reads "released" transmits nothing at all. *)
Theorem loop_transmits_only_on_release (t : Tick) (w : Sketch) :
  arrays_ok (debounce w) ->
  exists ds,
    sent_between w (loop t w) ds /\
    (List.length ds <= 2)%nat /\
    incl ds loop_commands /\
    Forall (fun d => dest d = UPGOV_ADDR) ds /\
    (no_release_read t = true -> ds = []).
Proof.
  intros Hok. eexists. split; [apply loop_sent|].
  destruct (armDisarm_datagrams_cases (pinA t) (receive t w)) as [La Ia].
  destruct (answerPrompt_datagrams_cases (pinB t) (pinC t)
              (armDisarm (pinA t) (ackA t) (receive t w))) as [Lp Ip].
  split; [rewrite length_app; lia|].
  split; [apply incl_app; assumption|].
  split.
  - apply Forall_forall. intros d Hd.
    assert (Hin : In d loop_commands).
    { apply in_app_or in Hd. destruct Hd as [Hd|Hd]; [apply Ia | apply Ip];
        exact Hd. }
    cbn in Hin. destruct Hin as [<-|[<-|[<-|[<-|[]]]]]; reflexivity.
  - intros Hno. unfold no_release_read in Hno.
    apply andb_prop in Hno. destruct Hno as [Hno HC].
    apply andb_prop in Hno. destruct Hno as [HA HB].
    apply negb_true_iff in HA, HB, HC.
    destruct BC_in_range as (RA & RB & RC).
    assert (H1 : arrays_ok (debounce (receive t w))).
    { rewrite (proj2 (receive_radio t w)). exact Hok. }
    pose proof (armDisarm_arrays_ok (pinA t) (ackA t) _ H1) as H2.
    unfold armDisarm_datagrams, answerPrompt_datagrams.
    rewrite (not_released_is_silent BUTTON_A (pinA t) _ H1 RA HA).
    rewrite (not_released_is_silent BUTTON_B (pinB t) _ H2 RB HB).
    rewrite (not_released_is_silent BUTTON_C (pinC t) _
               (proj1 (proj2 (proj2 (buttonReleased_cells BUTTON_B (pinB t)
                                       _ H2 RB)))) RC HC).
    destruct (AT_Recieved _); reflexivity.
Qed.

Lemma loop_transmits_only_on_release_witness :
  let w := run [with_frame (frame_of "ST:READY") (idle 1000);
                with_frame (frame_of "AT:") (idle 1010)] initSketch in
  exists ds,
    sent_between w (loop (pins_at PRESSED PRESSED PRESSED 2000) w) ds /\
    (List.length ds <= 2)%nat.
Proof.
  intros w.
  destruct (loop_transmits_only_on_release
              (pins_at PRESSED PRESSED PRESSED 2000) w)
    as (ds & H1 & H2 & _).
  - repeat split.
  - exists ds. split; [exact H1 | exact H2].
Defined.

Lemma command_inj_known (a b : string) :
  In a ["arm"; "disarm"; "again"; "no"] ->
  In b ["arm"; "disarm"; "again"; "no"] ->
  command a = command b -> a = b.
Proof.
  cbn [In]. intros Ha Hb H.
  destruct Ha as [<-|[<-|[<-|[<-|[]]]]];
    destruct Hb as [<-|[<-|[<-|[<-|[]]]]];
    try reflexivity; vm_compute in H; discriminate H.
Qed.

(** Settles a goal from the presence of one command in a list of at
    most one other command. *)
Ltac wrong_command H :=
  cbn [In] in H;
  match type of H with
  | False => destruct H
  | _ \/ False =>
      destruct H as [H|[]];
      apply command_inj_known in H; [discriminate H | cbn; tauto ..]
  end.

Lemma armDisarm_datagrams_state (p : PinRead) (w : Sketch) :
  (In (command "arm") (armDisarm_datagrams p w) -> currentState w = READY) /\
  (In (command "disarm") (armDisarm_datagrams p w) ->
   currentState w = ARMED) /\
  ~ In (command "again") (armDisarm_datagrams p w) /\
  ~ In (command "no") (armDisarm_datagrams p w).
Proof.
  unfold armDisarm_datagrams.
  destruct (fst (buttonReleased BUTTON_A p (debounce w)));
    destruct (currentState w);
    repeat split; intros H; try reflexivity; wrong_command H.
Qed.

Lemma answerPrompt_datagrams_state (pb pc : PinRead) (w : Sketch) :
  ~ In (command "arm") (answerPrompt_datagrams pb pc w) /\
  ~ In (command "disarm") (answerPrompt_datagrams pb pc w) /\
  (In (command "again") (answerPrompt_datagrams pb pc w) \/
   In (command "no") (answerPrompt_datagrams pb pc w) ->
   AT_Recieved w = true).
Proof.
  unfold answerPrompt_datagrams.
  destruct (AT_Recieved w).
  - destruct (fst (buttonReleased BUTTON_B pb (debounce w)));
      [|destruct (fst (buttonReleased BUTTON_C pc _))];
      repeat split; intros H; try reflexivity; wrong_command H.
  - repeat split; intros H; try wrong_command H.
    destruct H as [H|H]; destruct H.
Qed.

(** X7. Commands match the state they are sent from: whatever a tick
    sends, an "arm" among it means that the ground state was READY and
    a "disarm" that it was ARMED when the button-A block ran, and an
    "again" or a "no" means that an AT: frame had been received. *)
Theorem commands_match_state (t : Tick) (w : Sketch) (ds : list Datagram) :
  sent_between w (loop t w) ds ->
  (In (command "arm") ds -> currentState (receive t w) = READY) /\
  (In (command "disarm") ds -> currentState (receive t w) = ARMED) /\
  (In (command "again") ds \/ In (command "no") ds ->
   AT_Recieved (receive t w) = true).
Proof.
  intros H. rewrite (sent_between_unique _ _ _ _ H (loop_sent t w)).
  destruct (armDisarm_datagrams_state (pinA t) (receive t w))
    as (A1 & A2 & A3 & A4).
  destruct (answerPrompt_datagrams_state (pinB t) (pinC t)
              (armDisarm (pinA t) (ackA t) (receive t w)))
    as (P1 & P2 & P3).
  rewrite armDisarm_AT_Recieved in P3.
  split; [|split].
  - intros Hin. apply in_app_or in Hin. destruct Hin as [Hin|Hin];
      [apply A1, Hin | destruct (P1 Hin)].
  - intros Hin. apply in_app_or in Hin. destruct Hin as [Hin|Hin];
      [apply A2, Hin | destruct (P2 Hin)].
  - intros [Hin|Hin]; apply in_app_or in Hin; destruct Hin as [Hin|Hin];
      try (destruct (A3 Hin)); try (destruct (A4 Hin));
      apply P3; [left | right]; exact Hin.
Qed.

Lemma commands_match_state_witness :
  let w := run [with_frame (frame_of "ST:ARMED") (idle 1000);
                pins_at PRESSED NOT_PRESSED NOT_PRESSED 2000;
                pins_at PRESSED NOT_PRESSED NOT_PRESSED 2100;
                pins_at NOT_PRESSED NOT_PRESSED NOT_PRESSED 3000]
             initSketch in
  let t := pins_at NOT_PRESSED NOT_PRESSED NOT_PRESSED 3100 in
  sent_between w (loop t w) [command "disarm"] /\
  currentState (receive t w) = ARMED.
Proof.
  intros w t. split; [reflexivity|].
  apply (commands_match_state t w [command "disarm"]);
    [reflexivity | left; reflexivity].
Defined.

End Transmissions.

(** ** The entities over a run *)

Section Runs.

Lemma run_cons t ts w : run (t :: ts) w = run ts (loop t w).
Proof. reflexivity. Qed.








End Runs.

(** ** Before the first status frame *)

Section BeforeStatus.

Lemma connectAttempt_entities a w :
  entities (snd (connectAttempt a w)) = entities w /\
  debounce (snd (connectAttempt a w)) = debounce w.
Proof.
  unfold connectAttempt. cbv zeta.
  destruct (sendtoWait a); [|split; reflexivity].
  destruct (recvfromAckTimeout a) as [[received from]|]; [|split; reflexivity].
  destruct (from =? UPGOV_ADDR); [|split; reflexivity].
  destruct (_ =? 0); [|split; reflexivity].
  cbn [snd].
  match goal with
  | |- context [printOledMessage ?m ?v] =>
      destruct (printOledMessage_shape m v) as (l & ops & ->)
  end.
  split; reflexivity.
Qed.

Lemma connectLoop_entities attempts w :
  entities (snd (connectLoop attempts w)) = entities w /\
  debounce (snd (connectLoop attempts w)) = debounce w.
Proof.
  revert w. induction attempts as [|a rest IH]; intros w;
    [split; reflexivity|].
  cbn [connectLoop].
  destruct (connectAttempt_entities a w) as [Ha Hd].
  destruct (connectAttempt a w) as [[|] w1]; cbn [snd] in *;
    [split; assumption|].
  destruct (IH w1) as [-> ->]. split; assumption.
Qed.

(** The handshake changes no entity, reads no button and sends
    "connect" only. *)
Lemma setup_footprint attempts w :
  entities (snd (setup attempts w)) = entities w /\
  debounce (snd (setup attempts w)) = debounce w /\
  sent_between w (snd (setup attempts w))
    (repeat (command "connect") (tries (buffer w) attempts)).
Proof.
  split; [|split; [|exact (proj2 (setup_spec attempts w))]];
    unfold setup; cbv zeta;
    destruct (connectLoop_entities attempts
                (with_radioPacket (CStr.strncpy "connect" 20)
                   (printOledMessage "Waiting radio connect" w)))
      as [He Hd];
    [rewrite He | rewrite Hd];
    destruct (printOledMessage_shape "Waiting radio connect" w)
      as (l & ops & ->); reflexivity.
Qed.

Lemma run_without_status ts w :
  no_status ts = true -> disarmed_state (currentState w) = true ->
  exists ds,
    sent_between w (run ts w) ds /\
    incl ds [command "again"; command "no"].
Proof.
  revert w. induction ts as [|t ts IH]; intros w Hq Hs.
  - exists []. split; [unfold sent_between; cbn; rewrite app_nil_r;
                       reflexivity | apply incl_nil_l].
  - cbn [no_status forallb] in Hq. apply andb_prop in Hq.
    destruct Hq as [Ht Hq]. fold (no_status ts) in Hq.
    assert (Hone : no_status [t] = true)
      by (cbn [no_status forallb]; rewrite Ht; reflexivity).
    pose proof (loop_currentState_quiet t w Hone) as Hst.
    assert (Hrecv : currentState (receive t w) = currentState w).
    { rewrite <- Hst.
      exact (eq_sym (f_equal (fun e => fst (fst e)) (loop_entities t w))). }
    destruct (IH (loop t w) Hq) as (ds & Hds & Hincl);
      [rewrite Hst; exact Hs|].
    exists (answerPrompt_datagrams (pinB t) (pinC t)
              (armDisarm (pinA t) (ackA t) (receive t w)) ++ ds).
    split.
    + rewrite run_cons. unfold sent_between in *.
      rewrite Hds, (loop_sent t w). unfold armDisarm_datagrams.
      rewrite Hrecv.
      destruct (fst (buttonReleased BUTTON_A _ _));
        destruct (currentState w); try discriminate Hs;
        cbn [app]; rewrite app_assoc; reflexivity.
    + apply incl_app; [|exact Hincl].
      unfold answerPrompt_datagrams.
      destruct (AT_Recieved _); [|apply incl_nil_l].
      destruct (fst (buttonReleased BUTTON_B _ _));
        [apply incl_one; cbn; tauto|].
      destruct (fst (buttonReleased BUTTON_C _ _));
        [apply incl_one; cbn; tauto | apply incl_nil_l].
Qed.

Lemma sketch_without_status (attempts : list Attempt) (ts : list Tick)
    (w0 : Sketch) :
  no_status ts = true ->
  currentState w0 = START_UP -> radioManager w0 = [] ->
  let w := sketch attempts ts w0 in
  currentState w = START_UP /\
  ~ In (command "arm") (radioManager w) /\
  ~ In (command "disarm") (radioManager w).
Proof.
  intros Hq H0 Hm w. subst w. unfold sketch.
  destruct (setup_footprint attempts w0) as (He & _ & Hs).
  destruct (setup attempts w0) as [c w1]. cbn [snd] in *.
  assert (H1 : currentState w1 = START_UP).
  { rewrite <- H0. exact (f_equal (fun e => fst (fst e)) He). }
  unfold sent_between in Hs. rewrite Hm in Hs. cbn [app] in Hs.
  assert (Hconn : forall d n, In d (repeat (command "connect") n) ->
                              d = command "connect")
    by (intros d n Hd; exact (repeat_spec _ _ _ Hd)).
  destruct c.
  - destruct (run_without_status ts w1 Hq) as (ds & Hds & Hincl);
      [rewrite H1; reflexivity|].
    split; [rewrite (run_currentState_quiet ts w1 Hq); exact H1|].
    unfold sent_between in Hds. rewrite Hds, Hs.
    split; intros Hin; apply in_app_or in Hin; destruct Hin as [Hin|Hin];
      try (apply Hconn in Hin; vm_compute in Hin; discriminate Hin);
      apply Hincl in Hin; cbn [In] in Hin;
      destruct Hin as [Hin|[Hin|[]]]; vm_compute in Hin; discriminate Hin.
  - split; [exact H1|]. rewrite Hs.
    split; intros Hin; apply Hconn in Hin; vm_compute in Hin;
      discriminate Hin.
Qed.

End BeforeStatus.

(** ** The data fields of panel B *)

Section DataFields.






End DataFields.

(** ** The log and panel A *)

Section LogView.


Lemma lastn_push (ls : list string) (m : string) :
  (List.length ls <= 6)%nat ->
  (if (List.length ls <? 6)%nat then ls ++ [m] else tl ls ++ [m]) =
  lastn 6 (ls ++ [m]).
Proof.
  intros H. unfold lastn. rewrite length_app. cbn [List.length].
  destruct (Nat.ltb_spec (List.length ls) 6) as [Hlt|Hge].
  - replace (List.length ls + 1 - 6)%nat with 0%nat by lia. reflexivity.
  - replace (List.length ls + 1 - 6)%nat with 1%nat by lia.
    destruct ls; [cbn in Hge; lia | reflexivity].
Qed.

Lemma stored_length (w : Sketch) : (List.length (stored w) <= 6)%nat.
Proof.
  unfold stored. rewrite length_firstn. cbn [lines List.length]. lia.
Qed.

Lemma printOledMessage_stored_lastn (m : string) (w : Sketch) :
  lineNumber_ok w ->
  stored (printOledMessage m w) = lastn 6 (stored w ++ [m]).
Proof.
  intros H. rewrite (proj2 (printOledMessage_stored m w H)).
  apply lastn_push, stored_length.
Qed.

Lemma stored_on_Serial ops w : stored (on_Serial ops w) = stored w.
Proof. reflexivity. Qed.





End LogView.

(** ** Panel A shows the log *)

Section PanelA.

Lemma logview_on_Serial ops w : logview (on_Serial ops w) = logview w.
Proof. reflexivity. Qed.

Lemma logview_on_radioManager ds w :
  logview (on_radioManager ds w) = logview w.
Proof. reflexivity. Qed.

Lemma logview_with_buffer v w : logview (with_buffer v w) = logview w.
Proof. reflexivity. Qed.

Lemma logview_with_radioPacket v w :
  logview (with_radioPacket v w) = logview w.
Proof. reflexivity. Qed.

Ltac peel_logview :=
  repeat first [ rewrite logview_on_Serial
               | rewrite logview_on_radioManager
               | rewrite logview_with_buffer
               | rewrite logview_with_radioPacket ].

(** [printOledMessage] reads and writes the log view only. *)
Lemma printOledMessage_logview (m : string) (w w' : Sketch) :
  logview w = logview w' ->
  logview (printOledMessage m w) = logview (printOledMessage m w').
Proof.
  unfold logview. intros H. injection H as H1 H2.
  unfold printOledMessage. cbv zeta. rewrite H1.
  repeat match goal with
         | |- context [if ?c then _ else _] => destruct c
         end;
    cbn [oledLines displayA on_displayA with_oledLines];
    rewrite H2; reflexivity.
Qed.

Lemma appendAll_logview (ms : list string) (w w' : Sketch) :
  logview w = logview w' ->
  logview (appendAll ms w) = logview (appendAll ms w').
Proof.
  revert w w'. induction ms as [|m ms IH]; intros w w' H; [exact H|].
  cbn [appendAll fold_left]. apply IH, printOledMessage_logview, H.
Qed.

Lemma appendAll_app (ms ms' : list string) (w : Sketch) :
  appendAll (ms ++ ms') w = appendAll ms' (appendAll ms w).
Proof. unfold appendAll. apply fold_left_app. Qed.

(** Decoding a frame acts on the log as at most one append. *)
Lemma decodeFrame_logview (f : Frame) (w : Sketch) :
  exists ms, logview (decodeFrame f w) = logview (appendAll ms w).
Proof.
  unfold decodeFrame.
  destruct (3 <=? messageLength f); [|exists []; reflexivity]. cbv zeta.
  repeat match goal with
         | |- context [if CStr.startsWith ?s ?p then _ else _] =>
             destruct (CStr.startsWith s p)
         | |- context [if CStr.equals ?s ?p then _ else _] =>
             destruct (CStr.equals s p)
         end;
    repeat match goal with
           | |- context [printOledData ?t ?d ?v] =>
               destruct (printOledData_shape t d v) as (? & ->)
           end;
    try (exists []; reflexivity);
    match goal with
    | |- context [printOledMessage ?m ?v] =>
        exists [m]; apply (printOledMessage_logview m v w); reflexivity
    end.
Qed.

Lemma loop_logview t w : logview (loop t w) = logview (receive t w).
Proof. exact (f_equal fst (loop_shown t w)). Qed.

Lemma run_logview (ts : list Tick) (w : Sketch) :
  exists ms, logview (run ts w) = logview (appendAll ms w).
Proof.
  revert w. induction ts as [|t ts IH]; intros w; [exists []; reflexivity|].
  rewrite run_cons. destruct (IH (loop t w)) as (ms & ->).
  assert (H1 : exists ms0, logview (loop t w) = logview (appendAll ms0 w)).
  { rewrite loop_logview. unfold receive.
    destruct (recvfromAck t); [apply decodeFrame_logview|].
    exists []. reflexivity. }
  destruct H1 as (ms0 & H1). exists (ms0 ++ ms).
  rewrite appendAll_app. apply appendAll_logview, H1.
Qed.

Lemma connectAttempt_logview (a : Attempt) (w : Sketch) :
  exists ms, logview (snd (connectAttempt a w)) = logview (appendAll ms w).
Proof.
  unfold connectAttempt. cbv zeta.
  destruct (sendtoWait a); [|exists []; reflexivity].
  destruct (recvfromAckTimeout a) as [[received from]|];
    [|exists []; reflexivity].
  destruct (from =? UPGOV_ADDR); [|exists []; reflexivity].
  destruct (_ =? 0); [|exists []; reflexivity].
  cbn [snd]. exists ["Connected"]. rewrite logview_on_Serial.
  apply printOledMessage_logview. peel_logview. reflexivity.
Qed.

Lemma connectLoop_logview (attempts : list Attempt) (w : Sketch) :
  exists ms, logview (snd (connectLoop attempts w)) =
             logview (appendAll ms w).
Proof.
  revert w. induction attempts as [|a rest IH]; intros w;
    [exists []; reflexivity|].
  cbn [connectLoop].
  destruct (connectAttempt_logview a w) as (ms0 & H0).
  destruct (connectAttempt a w) as [[|] w1]; cbn [snd] in *;
    [exists ms0; exact H0|].
  destruct (IH w1) as (ms & ->). exists (ms0 ++ ms).
  rewrite appendAll_app. apply appendAll_logview, H0.
Qed.

(** As far as the log and panel A go, the whole program is a sequence
    of calls of [printOledMessage]. *)
Lemma sketch_logview (attempts : list Attempt) (ts : list Tick)
    (w : Sketch) :
  exists ms, logview (sketch attempts ts w) = logview (appendAll ms w).
Proof.
  unfold sketch, setup. cbv zeta.
  destruct (connectLoop_logview attempts
              (with_radioPacket (CStr.strncpy "connect" 20)
                 (printOledMessage "Waiting radio connect" w)))
    as (ms1 & H1).
  assert (H0 : logview (with_radioPacket (CStr.strncpy "connect" 20)
                          (printOledMessage "Waiting radio connect" w)) =
               logview (appendAll ["Waiting radio connect"] w))
    by reflexivity.
  destruct (connectLoop attempts _) as [[|] w1]; cbn [snd] in H1.
  - destruct (run_logview ts w1) as (ms2 & ->).
    exists (("Waiting radio connect" :: ms1) ++ ms2).
    rewrite appendAll_app. apply appendAll_logview. rewrite H1.
    change ("Waiting radio connect" :: ms1)
      with (["Waiting radio connect"] ++ ms1).
    rewrite appendAll_app. apply appendAll_logview, H0.
  - exists (["Waiting radio connect"] ++ ms1). rewrite H1.
    rewrite appendAll_app. apply appendAll_logview, H0.
Qed.

Lemma stored_of_logview (w w' : Sketch) :
  logview w = logview w' -> stored w = stored w'.
Proof.
  unfold logview, stored. intros H. injection H as H1 _.
  rewrite H1. reflexivity.
Qed.

(** One append keeps the panel in step with the log. *)
Lemma printOledMessage_painted (m : string) (w : Sketch) :
  lineNumber_ok w -> painted (displayA w) = rows_of (stored w) ->
  painted (displayA (printOledMessage m w)) =
  rows_of (stored (printOledMessage m w)).
Proof.
  unfold lineNumber_ok, stored, painted.
  destruct w as [? ? ? ? ? ? ? [n l0 l1 l2 l3 l4 l5] tr ? ? ?].
  cbn [oledLines lineNumber displayA]. intros Hn.
  assert (Hc : n = 0 \/ n = 1 \/ n = 2 \/ n = 3 \/ n = 4 \/ n = 5 \/ n = 6)
    by lia.
  destruct Hc as [->|[->|[->|[->|[->|[->| ->]]]]]];
    cbn [printOledMessage oledLines lineNumber Z.eqb Pos.eqb displayA
         on_displayA with_oledLines];
    rewrite fold_left_app;
    destruct (fold_left paint_step tr (None, [])) as [cur scr];
    cbn [snd]; intros ->; reflexivity.
Qed.

Lemma appendAll_painted_from (ms : list string) (w : Sketch) :
  lineNumber_ok w -> painted (displayA w) = rows_of (stored w) ->
  lineNumber_ok (appendAll ms w) /\
  painted (displayA (appendAll ms w)) = rows_of (stored (appendAll ms w)).
Proof.
  revert w. induction ms as [|m ms IH]; intros w Hok Hp;
    [split; assumption|].
  cbn [appendAll fold_left]. apply IH.
  - apply printOledMessage_stored, Hok.
  - apply printOledMessage_painted; assumption.
Qed.

(** Through the handshake and the ticks, panel A stays in step with
    the log. *)
Lemma sketch_painted (attempts : list Attempt) (ts : list Tick)
    (w0 : Sketch) :
  lineNumber_ok w0 -> painted (displayA w0) = rows_of (stored w0) ->
  painted (displayA (sketch attempts ts w0)) =
  rows_of (stored (sketch attempts ts w0)).
Proof.
  intros Hok Hp.
  destruct (sketch_logview attempts ts w0) as (ms & H).
  rewrite (stored_of_logview _ _ H).
  unfold logview in H. injection H as _ H2. rewrite H2.
  apply appendAll_painted_from; assumption.
Qed.

End PanelA.

(** ** From power-on to the first tick *)

Section PowerOnToLoop.

Lemma startup_footprint (p : PowerOn) (w : Sketch) :
  entities (snd (startup p w)) = entities w /\
  radioManager (snd (startup p w)) = radioManager w /\
  radioError (snd (startup p w)) = radioError w /\
  debounce (snd (startup p w)) = debounce w.
Proof.
  unfold startup. cbv zeta.
  destruct (wait_buttonA (buttonA_reads p)); cbn [snd];
    [|repeat split; reflexivity].
  match goal with
  | |- context [printOledMessage ?m ?v] =>
      destruct (printOledMessage_shape m v) as (l & ops & ->)
  end.
  repeat split; reflexivity.
Qed.

Lemma startup_buffer (p : PowerOn) (w : Sketch) :
  buffer (snd (startup p w)) = buffer w.
Proof.
  unfold startup. cbv zeta.
  destruct (wait_buttonA (buttonA_reads p)); cbn [snd]; [|reflexivity].
  match goal with
  | |- context [printOledMessage ?m ?v] =>
      destruct (printOledMessage_shape m v) as (l & ops & ->)
  end.
  reflexivity.
Qed.

(** The wait for button A reads the raw level: it is left at the first
    zero read, with no debouncing. *)
Lemma wait_buttonA_spec (reads : list Z) :
  wait_buttonA reads = existsb (fun r => r =? 0) reads.
Proof.
  induction reads as [|r rest IH]; [reflexivity|].
  cbn [wait_buttonA existsb]. destruct (r =? 0); [reflexivity | exact IH].
Qed.

(** On panel A and in the log, an attempt of the handshake writes
    "Connected" if it succeeds and nothing otherwise. *)
Lemma connectAttempt_logview_exact (a : Attempt) (w : Sketch) :
  logview (snd (connectAttempt a w)) =
  logview (if accepts (buffer w) a
           then printOledMessage "Connected" w else w).
Proof.
  rewrite <- (connectAttempt_accepts a w).
  unfold connectAttempt. cbv zeta.
  destruct (sendtoWait a); [|reflexivity].
  destruct (recvfromAckTimeout a) as [[received from]|]; [|reflexivity].
  destruct (from =? UPGOV_ADDR); [|reflexivity].
  destruct (_ =? 0); [|reflexivity].
  cbn [fst snd]. rewrite logview_on_Serial.
  apply printOledMessage_logview.
  repeat first [ rewrite logview_on_Serial
               | rewrite logview_on_radioManager
               | rewrite logview_with_buffer ].
  reflexivity.
Qed.

Lemma connectLoop_logview_exact (attempts : list Attempt) (w : Sketch) :
  logview (snd (connectLoop attempts w)) =
  logview (if succeeds (buffer w) attempts
           then printOledMessage "Connected" w else w).
Proof.
  revert w. induction attempts as [|a rest IH]; intros w; [reflexivity|].
  cbn [connectLoop succeeds].
  pose proof (connectAttempt_accepts a w) as Ha.
  pose proof (connectAttempt_buffer a w) as Hb.
  pose proof (connectAttempt_logview_exact a w) as Hl.
  destruct (connectAttempt a w) as [c w1]. cbn [fst snd] in *. subst c.
  rewrite <- Hb.
  destruct (accepts (buffer w) a); cbn [orb]; [exact Hl|].
  rewrite IH. destruct (succeeds (buffer w1) rest); [|exact Hl].
  apply printOledMessage_logview, Hl.
Qed.

(** The lines the handshake writes. *)
Lemma setup_logview_exact (attempts : list Attempt) (w : Sketch) :
  logview (snd (setup attempts w)) =
  logview (appendAll ("Waiting radio connect" ::
                      if succeeds (buffer w) attempts
                      then ["Connected"] else [])
             w).
Proof.
  unfold setup. cbv zeta. rewrite connectLoop_logview_exact.
  change (buffer (with_radioPacket (CStr.strncpy "connect" 20)
                    (printOledMessage "Waiting radio connect" w)))
    with (buffer (printOledMessage "Waiting radio connect" w)).
  rewrite buffer_printOledMessage.
  destruct (succeeds (buffer w) attempts); cbn [appendAll fold_left].
  - apply printOledMessage_logview. reflexivity.
  - reflexivity.
Qed.

Lemma setup_displayB (attempts : list Attempt) (w : Sketch) :
  displayB (snd (setup attempts w)) = displayB w /\
  radioError (snd (setup attempts w)) = radioError w.
Proof.
  unfold setup. cbv zeta. rewrite connectLoop_radioError.
  assert (Hl : forall ats v, displayB (snd (connectLoop ats v)) = displayB v).
  { induction ats as [|a rest IH]; intros v; [reflexivity|].
    cbn [connectLoop].
    assert (Ha : displayB (snd (connectAttempt a v)) = displayB v).
    { unfold connectAttempt. cbv zeta.
      destruct (sendtoWait a); [|reflexivity].
      destruct (recvfromAckTimeout a) as [[received from]|]; [|reflexivity].
      destruct (from =? UPGOV_ADDR); [|reflexivity].
      destruct (_ =? 0); [|reflexivity].
      cbn [snd].
      match goal with
      | |- context [printOledMessage ?m ?u] =>
          destruct (printOledMessage_shape m u) as (l & ops & ->)
      end. reflexivity. }
    destruct (connectAttempt a v) as [[|] v1]; cbn [snd] in *;
      [exact Ha | rewrite IH; exact Ha]. }
  rewrite Hl.
  destruct (printOledMessage_shape "Waiting radio connect" w)
    as (l & ops & ->). split; reflexivity.
Qed.

(** The state in which [startup] hands over to the handshake. *)
Lemma startup_left (p : PowerOn) :
  wait_buttonA (buttonA_reads p) = true ->
  let w0 := snd (startup p initSketch) in
  fst (fst (startup p initSketch)) = true /\
  stored w0 = [radio_report p] /\
  lineNumber (oledLines w0) = 1 /\
  painted (displayA w0) = rows_of (stored w0) /\
  painted (displayB w0) = labels /\
  (forall ty, shown_field ty (displayB w0) = None).
Proof.
  intros H. unfold startup. cbv zeta. rewrite H.
  destruct p as [[|] [|] reads]; cbn [fst snd];
    (split; [reflexivity|]);
    (split; [vm_compute; reflexivity|]);
    (split; [vm_compute; reflexivity|]);
    (split; [vm_compute; reflexivity|]);
    (split; [vm_compute; reflexivity|]);
    intros ty; destruct ty; vm_compute; reflexivity.
Qed.

Lemma startup_waiting (p : PowerOn) :
  wait_buttonA (buttonA_reads p) = false ->
  startup p initSketch =
  (false, snd (fst (startup p initSketch)),
   on_displayB [display]
     (on_displayA [display]
        (on_Serial [Serial_print "UpGoV Ground Station Version ";
                    Serial_println VERSION] initSketch))).
Proof. intros H. unfold startup. cbv zeta. rewrite H. reflexivity. Qed.

Lemma startup_radio_calls (p : PowerOn) :
  let hw := snd (fst (startup p initSketch)) in
  if radio_init p
  then In radioDriver_setFrequency hw /\
       In (radioDriver_setTxPower RADIO_POWER) hw
  else ~ In radioDriver_setFrequency hw /\
       ~ In (radioDriver_setTxPower RADIO_POWER) hw.
Proof.
  unfold startup. cbv zeta.
  destruct (wait_buttonA (buttonA_reads p)), (radio_init p);
    cbn [fst snd app In]; intuition discriminate.
Qed.

(** X13. [setup] as a whole, for every outcome of the radio
    initialisation and of the handshake.  Until a zero level is read
    on the pin of button A (raw, not debounced) nothing is logged and
    nothing is sent.  Once it is, panel B carries its six labels and no
    data, and the log holds the radio report, then "Waiting radio
    connect", then "Connected" if the handshake succeeded, failed
    attempts logging nothing.  A failed radio initialisation is only
    reported: the frequency and the power are then not set, and the
    handshake is attempted all the same.  In every case the entities,
    the error counter and the debouncer are as initialised. *)
Theorem setup_outcome (p : PowerOn) (attempts : list Attempt) :
  let w := power_on p attempts [] in
  let hw := snd (fst (startup p initSketch)) in
  (if existsb (fun r => r =? 0) (buttonA_reads p)
   then stored w =
          radio_report p :: "Waiting radio connect" ::
          (if succeeds (buffer initSketch) attempts
           then ["Connected"] else []) /\
        painted (displayB w) = labels /\
        radioManager w =
          repeat (command "connect") (tries (buffer initSketch) attempts)
   else stored w = [] /\ painted (displayB w) = [] /\ radioManager w = []) /\
  (forall ty, shown_field ty (displayB w) = None) /\
  (if radio_init p
   then In radioDriver_setFrequency hw /\
        In (radioDriver_setTxPower RADIO_POWER) hw
   else ~ In radioDriver_setFrequency hw /\
        ~ In (radioDriver_setTxPower RADIO_POWER) hw) /\
  entities w = (START_UP, CRITICAL, false) /\
  radioError w = 0 /\
  debounce w = initDebounce.
Proof.
  intros w hw. split; [|split; [|split; [exact (startup_radio_calls p)|]]].
  - subst w. unfold power_on. rewrite <- wait_buttonA_spec.
    destruct (wait_buttonA (buttonA_reads p)) eqn:Hw.
    + destruct (startup_left p Hw) as (Hf & Hs & Hn & _ & Hl & _).
      pose proof (startup_footprint p initSketch) as (_ & Hm & _).
      pose proof (startup_buffer p initSketch) as Hbuf.
      destruct (startup p initSketch) as [[c hw0] w0]. cbn [fst snd] in *.
      subst c. unfold sketch.
      destruct (setup_footprint attempts w0) as (_ & _ & Hsent).
      rewrite Hbuf in Hsent.
      destruct (setup_displayB attempts w0) as [Hb _].
      pose proof (stored_of_logview _ _ (setup_logview_exact attempts w0))
        as Hst.
      rewrite Hbuf in Hst.
      assert (Hok : lineNumber_ok w0) by (unfold lineNumber_ok; lia).
      destruct (setup attempts w0) as [c w1]. cbn [snd] in *.
      assert (E : (if c then run [] w1 else w1) = w1) by (destruct c; reflexivity).
      rewrite E. split; [|split].
      * rewrite Hst.
        destruct (succeeds (buffer initSketch) attempts);
          cbn [appendAll fold_left].
        -- destruct (printOledMessage_stored "Waiting radio connect" w0 Hok)
             as [Hok1 _].
           rewrite (printOledMessage_stored_lastn _ _ Hok1),
             (printOledMessage_stored_lastn _ _ Hok), Hs. reflexivity.
        -- rewrite (printOledMessage_stored_lastn _ _ Hok), Hs. reflexivity.
      * rewrite Hb. exact Hl.
      * unfold sent_between in Hsent. rewrite Hsent.
        rewrite Hm. reflexivity.
    + rewrite (startup_waiting p Hw). repeat split.
  - subst w. unfold power_on. intros ty.
    destruct (wait_buttonA (buttonA_reads p)) eqn:Hw.
    + destruct (startup_left p Hw) as (Hf & _ & _ & _ & _ & Hnone).
      destruct (startup p initSketch) as [[c hw0] w0]. cbn [fst snd] in *.
      subst c. unfold sketch.
      destruct (setup_displayB attempts w0) as [Hb _].
      destruct (setup attempts w0) as [c w1]. cbn [snd] in *.
      assert (E : (if c then run [] w1 else w1) = w1) by (destruct c; reflexivity).
      rewrite E, Hb. apply Hnone.
    + rewrite (startup_waiting p Hw). destruct ty; reflexivity.
  - assert (H : entities w = entities initSketch /\
                radioError w = radioError initSketch /\
                debounce w = debounce initSketch).
    { subst w. unfold power_on.
      destruct (startup_footprint p initSketch) as (He & _ & Hr & Hd).
      destruct (startup p initSketch) as [[c hw0] w0]. cbn [fst snd] in *.
      destruct c; [|repeat split; assumption].
      unfold sketch.
      destruct (setup_footprint attempts w0) as (He' & Hd' & _).
      destruct (setup_displayB attempts w0) as [_ Hr'].
      destruct (setup attempts w0) as [c w1]. cbn [snd] in *.
      assert (E : (if c then run [] w1 else w1) = w1) by (destruct c; reflexivity).
      rewrite E, He', Hd', Hr'. repeat split; assumption. }
    exact H.
Qed.

End PowerOnToLoop.

(** ** The whole program *)

Section WholeProgram.

(** X9. Nothing is armed before the UpGoV has reported its status:
    from power-on, through [setup] and any number of ticks that bring
    no ST: frame, whatever the buttons do, the ground state is still
    START_UP and neither "arm" nor "disarm" has been sent. *)
Theorem no_arming_before_status (p : PowerOn) (attempts : list Attempt)
    (ts : list Tick) :
  no_status ts = true ->
  let w := power_on p attempts ts in
  currentState w = START_UP /\
  ~ In (command "arm") (radioManager w) /\
  ~ In (command "disarm") (radioManager w).
Proof.
  intros Hq w. subst w. unfold power_on.
  destruct (startup_footprint p initSketch) as (He & Hm & _).
  destruct (startup p initSketch) as [[c hw] w0]. cbn [fst snd] in *.
  assert (H0 : currentState w0 = START_UP)
    by exact (f_equal (fun e => fst (fst e)) He).
  change (radioManager w0 = []) in Hm.
  destruct c.
  - apply sketch_without_status; assumption.
  - rewrite Hm. split; [exact H0 | split; intros []].
Qed.

Lemma no_arming_before_status_witness :
  let p := {| radio_init := true; radio_setFrequency := true;
              buttonA_reads := [1; 1; 0] |} in
  let ts := [with_frame (frame_of "AT:") (idle 1000);
             pins_at PRESSED NOT_PRESSED NOT_PRESSED 2000;
             pins_at PRESSED NOT_PRESSED NOT_PRESSED 2100;
             pins_at NOT_PRESSED NOT_PRESSED NOT_PRESSED 3000;
             pins_at NOT_PRESSED NOT_PRESSED NOT_PRESSED 3100] in
  let a := {| sendtoWait := true;
              recvfromAckTimeout :=
                Some (CStr.strncpy "connect" 20, UPGOV_ADDR) |} in
  no_status ts = true /\
  currentState (power_on p [a] ts) = START_UP.
Proof.
  intros p ts a. split; [reflexivity|].
  apply (no_arming_before_status p [a] ts). reflexivity.
Defined.

(** X12. Panel A always shows the log.  At every point of the
    program, from power-on through [setup] and any ticks, the texts
    printed on panel A since it was last cleared are exactly the stored
    lines of the log, oldest first, one per row from the top (rows at
    y = 0, 10, ..., 50), each printed once with the cursor set at the
    start of its row: the newest line is the lowest, and no row is ever
    printed over without the panel having been cleared. *)
Theorem panel_A_shows_the_log (p : PowerOn) (attempts : list Attempt)
    (ts : list Tick) :
  let w := power_on p attempts ts in
  painted (displayA w) = rows_of (stored w) /\
  (List.length (painted (displayA w)) <= 6)%nat.
Proof.
  intros w.
  assert (E : painted (displayA w) = rows_of (stored w)).
  { subst w. unfold power_on.
    destruct (wait_buttonA (buttonA_reads p)) eqn:Hw.
    - destruct (startup_left p Hw) as (Hf & _ & Hn & Hp & _).
      destruct (startup p initSketch) as [[c hw] w0]. cbn [fst snd] in *.
      subst c. apply sketch_painted; [unfold lineNumber_ok; lia | exact Hp].
    - rewrite (startup_waiting p Hw). reflexivity. }
  split; [exact E|].
  rewrite E. unfold rows_of. rewrite length_combine. cbn [List.length]. lia.
Qed.

Lemma carried_AT_none (t : Tick) :
  match carried ["AT:"] t with Some _ => true | None => false end = false ->
  match recvfromAck t with
  | Some f => tagged f "AT:" = false
  | None => True
  end.
Proof.
  unfold carried. cbn [existsb].
  destruct (recvfromAck t) as [f|]; [|intros _; exact I].
  rewrite orb_false_r. destruct (tagged f "AT:"); [discriminate | reflexivity].
Qed.

(** One tick without prompt: only the button-A block acts. *)
Lemma loop_before_prompt (t : Tick) (w : Sketch) :
  arrays_ok (debounce w) -> AT_Recieved w = false ->
  match carried ["AT:"] t with Some _ => true | None => false end = false ->
  AT_Recieved (loop t w) = false /\
  arrays_ok (debounce (loop t w)) /\
  cells BUTTON_B (debounce (loop t w)) = cells BUTTON_B (debounce w) /\
  cells BUTTON_C (debounce (loop t w)) = cells BUTTON_C (debounce w) /\
  exists ds, sent_between w (loop t w) ds /\
             incl ds [command "arm"; command "disarm"].
Proof.
  intros Hok Hat Hc.
  assert (H1 : AT_Recieved (receive t w) = false).
  { rewrite receive_AT_Recieved. pose proof (carried_AT_none t Hc) as H.
    destruct (recvfromAck t); [rewrite H, Hat; reflexivity | exact Hat]. }
  assert (H2 : AT_Recieved (armDisarm (pinA t) (ackA t) (receive t w)) = false)
    by (rewrite armDisarm_AT_Recieved; exact H1).
  assert (E : loop t w = armDisarm (pinA t) (ackA t) (receive t w)).
  { unfold loop, answerPrompt. rewrite H2. reflexivity. }
  destruct BC_in_range as (RA & RB & RC).
  assert (Hd : debounce (loop t w) =
               snd (buttonReleased BUTTON_A (pinA t) (debounce w))).
  { rewrite E, armDisarm_debounce, (proj2 (receive_radio t w)).
    reflexivity. }
  destruct (buttonReleased_cells BUTTON_A (pinA t) (debounce w) Hok RA)
    as (_ & _ & Hok' & Ho).
  rewrite <- Hd in Hok', Ho.
  split; [rewrite E; exact H2|]. split; [exact Hok'|].
  split; [apply Ho; [exact RB | discriminate]|].
  split; [apply Ho; [exact RC | discriminate]|].
  eexists. split; [apply loop_sent|].
  unfold answerPrompt_datagrams. rewrite H2, app_nil_r.
  unfold armDisarm_datagrams.
  destruct (fst (buttonReleased BUTTON_A _ _)); [|apply incl_nil_l].
  destruct (currentState _); try apply incl_nil_l;
    apply incl_one; cbn; tauto.
Qed.

Lemma run_before_prompt (ts : list Tick) (w : Sketch) :
  arrays_ok (debounce w) -> AT_Recieved w = false -> prompted ts = false ->
  AT_Recieved (run ts w) = false /\
  cells BUTTON_B (debounce (run ts w)) = cells BUTTON_B (debounce w) /\
  cells BUTTON_C (debounce (run ts w)) = cells BUTTON_C (debounce w) /\
  exists ds, sent_between w (run ts w) ds /\
             incl ds [command "arm"; command "disarm"].
Proof.
  revert w. induction ts as [|t ts IH]; intros w Hok Hat Hp.
  - repeat split; try assumption. exists [].
    split; [unfold sent_between; cbn; rewrite app_nil_r; reflexivity
           |apply incl_nil_l].
  - unfold prompted in Hp. cbn [existsb] in Hp.
    apply orb_false_elim in Hp. destruct Hp as [Ht Hp].
    destruct (loop_before_prompt t w Hok Hat Ht)
      as (Hat' & Hok' & HB & HC & ds0 & Hs0 & Hi0).
    destruct (IH (loop t w) Hok' Hat' Hp) as (IA & IB & IC & ds & Hs & Hi).
    rewrite run_cons. split; [exact IA|].
    split; [rewrite IB; exact HB|]. split; [rewrite IC; exact HC|].
    exists (ds0 ++ ds). split; [|apply incl_app; assumption].
    unfold sent_between in *. rewrite Hs, Hs0, app_assoc. reflexivity.
Qed.

(** X14. Before the first AT: frame buttons B and C are not read at
    all: from power-on, through [setup] and any number of ticks that
    bring no AT: frame, whatever the pins do, the debounce cells of
    buttons B and C are as initialised, the prompt flag is not set and
    neither "again" nor "no" has been sent. *)
Theorem buttons_B_C_unread_before_prompt (p : PowerOn)
    (attempts : list Attempt) (ts : list Tick) :
  prompted ts = false ->
  let w := power_on p attempts ts in
  AT_Recieved w = false /\
  cells BUTTON_B (debounce w) = cells BUTTON_B initDebounce /\
  cells BUTTON_C (debounce w) = cells BUTTON_C initDebounce /\
  ~ In (command "again") (radioManager w) /\
  ~ In (command "no") (radioManager w).
Proof.
  intros Hp w. subst w. unfold power_on.
  destruct (startup_footprint p initSketch) as (He & Hm & _ & Hd).
  destruct (startup p initSketch) as [[c hw] w0]. cbn [fst snd] in *.
  assert (Hat : AT_Recieved w0 = false) by exact (f_equal snd He).
  change (radioManager w0 = []) in Hm.
  change (debounce w0 = initDebounce) in Hd.
  destruct c.
  - unfold sketch.
    destruct (setup_footprint attempts w0) as (He1 & Hd1 & Hs1).
    destruct (setup attempts w0) as [c w1]. cbn [snd] in *.
    assert (Hat1 : AT_Recieved w1 = false)
      by (rewrite <- Hat; exact (f_equal snd He1)).
    rewrite Hd in Hd1. unfold sent_between in Hs1. rewrite Hm in Hs1.
    cbn [app] in Hs1.
    assert (Hconn : forall d n, In d (repeat (command "connect") n) ->
                                d = command "connect")
      by (intros d n Hin; exact (repeat_spec _ _ _ Hin)).
    destruct c.
    + destruct (run_before_prompt ts w1) as (IA & IB & IC & ds & Hs & Hi);
        [rewrite Hd1; apply arrays_ok_init | exact Hat1 | exact Hp |].
      rewrite Hd1 in IB, IC. split; [exact IA|].
      split; [exact IB|]. split; [exact IC|].
      unfold sent_between in Hs. rewrite Hs, Hs1.
      split; intros Hin; apply in_app_or in Hin; destruct Hin as [Hin|Hin];
        try (apply Hconn in Hin; vm_compute in Hin; discriminate Hin);
        apply Hi in Hin; cbn [In] in Hin;
        destruct Hin as [Hin|[Hin|[]]]; vm_compute in Hin; discriminate Hin.
    + rewrite Hd1, Hs1. split; [exact Hat1|]. split; [reflexivity|].
      split; [reflexivity|].
      split; intros Hin; apply Hconn in Hin; vm_compute in Hin;
        discriminate Hin.
  - rewrite Hd, Hm. split; [exact Hat|]. repeat split; intros [].
Qed.

Lemma buttons_B_C_unread_before_prompt_witness :
  let p := {| radio_init := true; radio_setFrequency := true;
              buttonA_reads := [0] |} in
  let a := {| sendtoWait := true;
              recvfromAckTimeout :=
                Some (CStr.strncpy "connect" 20, UPGOV_ADDR) |} in
  let ts := [pins_at NOT_PRESSED PRESSED PRESSED 2000;
             pins_at NOT_PRESSED PRESSED PRESSED 2100;
             pins_at NOT_PRESSED NOT_PRESSED NOT_PRESSED 3000;
             pins_at NOT_PRESSED NOT_PRESSED NOT_PRESSED 3100] in
  prompted ts = false /\
  AT_Recieved (power_on p [a] ts) = false /\
  cells BUTTON_B (debounce (power_on p [a] ts)) = cells BUTTON_B initDebounce.
Proof.
  intros p a ts. split; [reflexivity|].
  destruct (buttons_B_C_unread_before_prompt p [a] ts) as (H1 & H2 & _);
    [reflexivity|].
  split; [exact H1 | exact H2].
Defined.

End WholeProgram.
